(** * WeatherApp: the transformation pipeline of [src/transform.py]

    A shallow embedding of [WeatherTransformer] and of the part of pandas
    it calls.  A DataFrame is an object in a store: every method receives a
    reference, starts with [df.copy()] and assigns columns to the copy, so
    the methods are written in a state-and-exception monad over the store,
    one monadic line per Python statement.

    Numbers: float64 is modelled by exact rationals ([Q]) with [None] for
    NaN; infinities do not occur in the columns.  Equality of computed
    floats is therefore [Qeq] ([==]).  A theorem about numbers states the
    operation the code performs (a sum, a mean, a difference), whose
    float64 value is that of the rational up to the rounding of that
    operation, or an order fact that rounding preserves; an identity that
    holds in exact arithmetic only says so.  A quantile is fixed up to one
    rank, because float64 rounds the rank.

    Beside the pipeline, the file embeds the date-range check of
    [src/api.py], over the scalars of [pd.to_datetime], and three charts of
    [src/plots.py], where a plotly figure is the sequence of calls that
    built it. *)

From Stdlib Require Import ZArith QArith Qround List String Ascii Bool Lia Arith.
From Stdlib Require Import Sorting.Sorted Sorting.Permutation Lqa.
Import ListNotations.

Local Open Scope string_scope.
Local Open Scope list_scope.
Local Open Scope Z_scope.

(** ** Values held by a DataFrame *)

Module Pandas.

(** datetime64 without time of day, as its calendar fields. *)
Record Timestamp := mkTimestamp { ts_year : Z; ts_month : Z; ts_day : Z }.

(** A column with its dtype.  A monthly [Period] is its ordinal, the number
    of months since 1970-01, as pandas stores it. *)
Inductive column :=
| NumCol (xs : list (option Q))        (* float64, None is NaN *)
| IntCol (zs : list Z)                 (* int64 / int32 *)
| BoolCol (bs : list bool)             (* bool *)
| DateCol (ds : list Timestamp)        (* datetime64[ns] *)
| PeriodCol (ps : list Z)              (* period[M] *)
| StrCol (ss : list string)            (* object holding str *)
| CatCol (cs : list (option string)).  (* category, None is NaN *)

(** A DataFrame: the length of its index and its columns in order. *)
Record DataFrame := mkDF { nrows : nat; columns : list (string * column) }.

Fixpoint lookup (name : string) (cols : list (string * column)) : option column :=
  match cols with
  | [] => None
  | (k, c) :: rest => if String.eqb name k then Some c else lookup name rest
  end.

(** [cols[name] = c]: replaces the column in place, or appends it. *)
Fixpoint assign (name : string) (c : column) (cols : list (string * column))
  : list (string * column) :=
  match cols with
  | [] => [(name, c)]
  | (k, c0) :: rest =>
      if String.eqb name k then (k, c) :: rest else (k, c0) :: assign name c rest
  end.

Fixpoint remove (name : string) (cols : list (string * column))
  : list (string * column) :=
  match cols with
  | [] => []
  | (k, c) :: rest =>
      if String.eqb name k then remove name rest else (k, c) :: remove name rest
  end.

Definition has_column (name : string) (df : DataFrame) : bool :=
  match lookup name (columns df) with Some _ => true | None => false end.

Definition set_column (name : string) (c : column) (df : DataFrame) : DataFrame :=
  mkDF (nrows df) (assign name c (columns df)).

(** ** Exceptions and the store monad *)

Inductive exn :=
| KeyError (key : string)
| TypeError
| ValueError
| AttributeError
| InvalidRef.        (* a reference to no object; Python has none *)

Inductive result (A : Type) :=
| Ok (a : A)
| Raise (e : exn).
Arguments Ok {A} a.
Arguments Raise {A} e.

Definition ref := nat.
Definition store := list DataFrame.

Definition M (A : Type) : Type := store -> result A * store.

Definition ret {A} (a : A) : M A := fun h => (Ok a, h).

Definition bind {A B} (c : M A) (k : A -> M B) : M B :=
  fun h => match c h with
           | (Ok a, h') => k a h'
           | (Raise e, h') => (Raise e, h')
           end.

Definition lift {A} (r : result A) : M A := fun h => (r, h).

Definition raise {A} (e : exn) : M A := fun h => (Raise e, h).

Declare Scope monad_scope.
Delimit Scope monad_scope with monad.
Notation "x <- c ;; k" := (bind c (fun x => k))
  (at level 61, c at next level, right associativity) : monad_scope.
Notation "c ;; k" := (bind c (fun _ => k))
  (at level 61, right associativity) : monad_scope.

(** [DataFrame(...)]: a new object. *)
Definition alloc (df : DataFrame) : M ref :=
  fun h => (Ok (List.length h), h ++ [df]).

Definition deref (r : ref) : M DataFrame :=
  fun h => match nth_error h r with
           | Some df => (Ok df, h)
           | None => (Raise InvalidRef, h)
           end.

Fixpoint update (r : ref) (df : DataFrame) (h : store) : store :=
  match h, r with
  | [], _ => []
  | _ :: rest, O => df :: rest
  | d :: rest, S r' => d :: update r' df rest
  end.

(** [df.copy()]: a deep copy, a new object with the same contents. *)
Definition copy (r : ref) : M ref :=
  (df <- deref r ;; alloc df)%monad.

(** [df[name]] *)
Definition getitem (r : ref) (name : string) : M column :=
  (df <- deref r ;;
   match lookup name (columns df) with
   | Some c => ret c
   | None => raise (KeyError name)
   end)%monad.

(** [df[name] = c], in place on the object [r]. *)
Definition setitem (r : ref) (name : string) (c : column) : M unit :=
  (df <- deref r ;;
   fun h => (Ok tt, update r (set_column name c df) h))%monad.

(** [name in df.columns] *)
Definition contains (r : ref) (name : string) : M bool :=
  (df <- deref r ;; ret (has_column name df))%monad.

(** [len(df)] *)
Definition len (r : ref) : M nat :=
  (df <- deref r ;; ret (nrows df))%monad.

(** [df.drop(name, axis=1)]: a new object without the column. *)
Definition drop (r : ref) (name : string) : M ref :=
  (df <- deref r ;;
   match lookup name (columns df) with
   | Some _ => alloc (mkDF (nrows df) (remove name (columns df)))
   | None => raise (KeyError name)
   end)%monad.

(** ** Element-wise arithmetic on Series *)

Definition bool_to_Z (b : bool) : Z := if b then 1 else 0.

Definition of_int (z : Z) : option Q := Some (inject_Z z).

(** Integer view of a bool or int column. *)
Definition as_int (c : column) : option (list Z) :=
  match c with
  | IntCol zs => Some zs
  | BoolCol bs => Some (map bool_to_Z bs)
  | _ => None
  end.

(** Float view of a numeric column (bool, int or float). *)
Definition as_float (c : column) : option (list (option Q)) :=
  match c with
  | NumCol xs => Some xs
  | IntCol zs => Some (map of_int zs)
  | BoolCol bs => Some (map (fun b => of_int (bool_to_Z b)) bs)
  | _ => None
  end.

Definition map2 {A B C} (f : A -> B -> C) (l1 : list A) (l2 : list B) : list C :=
  map (fun p => f (fst p) (snd p)) (combine l1 l2).

(** NaN propagates through arithmetic. *)
Definition lift2 (f : Q -> Q -> Q) (a b : option Q) : option Q :=
  match a, b with
  | Some x, Some y => Some (f x y)
  | _, _ => None
  end.

(** int64 arithmetic wraps around. *)
Definition wrap64 (z : Z) : Z := (z + 2 ^ 63) mod 2 ^ 64 - 2 ^ 63.

(** [a + b].  bool + bool is the logical or, two integer operands stay
    integer and wrap around, any float operand makes the result float, and
    str + str is concatenation; other dtypes raise.  The float sum is the
    exact one: float64 rounds it. *)
Definition series_add (a b : column) : result column :=
  match a, b with
  | BoolCol x, BoolCol y => Ok (BoolCol (map2 orb x y))
  | StrCol x, StrCol y => Ok (StrCol (map2 String.append x y))
  | _, _ =>
      match as_int a, as_int b with
      | Some x, Some y => Ok (IntCol (map2 (fun u v => wrap64 (u + v)) x y))
      | _, _ =>
          match as_float a, as_float b with
          | Some x, Some y => Ok (NumCol (map2 (lift2 Qplus) x y))
          | _, _ => Raise TypeError
          end
      end
  end.

(** [a - b].  numpy refuses bool - bool. *)
Definition series_sub (a b : column) : result column :=
  match a, b with
  | BoolCol _, BoolCol _ => Raise TypeError
  | _, _ =>
      match as_int a, as_int b with
      | Some x, Some y => Ok (IntCol (map2 (fun u v => wrap64 (u - v)) x y))
      | _, _ =>
          match as_float a, as_float b with
          | Some x, Some y => Ok (NumCol (map2 (lift2 Qminus) x y))
          | _, _ => Raise TypeError
          end
      end
  end.

(** [a / k] for a non-zero scalar [k]: true division, always float. *)
Definition series_div (a : column) (k : Q) : result column :=
  match as_float a with
  | Some x => Ok (NumCol (map (fun v => lift2 Qdiv v (Some k)) x))
  | None => Raise TypeError
  end.

(** ** The [.dt] accessor *)

Definition is_leap (y : Z) : bool :=
  ((y mod 4 =? 0) && negb (y mod 100 =? 0)) || (y mod 400 =? 0).

Definition days_in_month (y m : Z) : Z :=
  if m =? 2 then (if is_leap y then 29 else 28)
  else if (m =? 4) || (m =? 6) || (m =? 9) || (m =? 11) then 30
  else 31.

(** Days of the year [y] before its month [m]. *)
Definition days_before_month (y m : Z) : Z :=
  fold_right Z.add 0
    (map (days_in_month y) (map Z.of_nat (seq 1 (Z.to_nat (m - 1))))).

Definition dayofyear (t : Timestamp) : Z :=
  days_before_month (ts_year t) (ts_month t) + ts_day t.

Definition period_ordinal (t : Timestamp) : Z :=
  (ts_year t - 1970) * 12 + (ts_month t - 1).

Definition period_year (p : Z) : Z := 1970 + p / 12.
Definition period_month (p : Z) : Z := p mod 12 + 1.

(** Start of a monthly period. *)
Definition period_start (p : Z) : Timestamp :=
  mkTimestamp (period_year p) (period_month p) 1.

(** End of a monthly period (its calendar fields are those of its last day). *)
Definition period_end (p : Z) : Timestamp :=
  mkTimestamp (period_year p) (period_month p)
    (days_in_month (period_year p) (period_month p)).

Definition dt_year (c : column) : result column :=
  match c with
  | DateCol ds => Ok (IntCol (map ts_year ds))
  | PeriodCol ps => Ok (IntCol (map period_year ps))
  | _ => Raise AttributeError
  end.

Definition dt_month (c : column) : result column :=
  match c with
  | DateCol ds => Ok (IntCol (map ts_month ds))
  | PeriodCol ps => Ok (IntCol (map period_month ps))
  | _ => Raise AttributeError
  end.

Definition dt_dayofyear (c : column) : result column :=
  match c with
  | DateCol ds => Ok (IntCol (map dayofyear ds))
  | PeriodCol ps => Ok (IntCol (map (fun p => dayofyear (period_end p)) ps))
  | _ => Raise AttributeError
  end.

(** [.dt.to_period('M')] *)
Definition dt_to_period (c : column) : result column :=
  match c with
  | DateCol ds => Ok (PeriodCol (map period_ordinal ds))
  | _ => Raise AttributeError
  end.

(** [.dt.to_timestamp()] *)
Definition dt_to_timestamp (c : column) : result column :=
  match c with
  | PeriodCol ps => Ok (DateCol (map period_start ps))
  | _ => Raise AttributeError
  end.

(** ** Reductions that skip NaN *)

Definition dropna (xs : list (option Q)) : list Q :=
  flat_map (fun x => match x with Some q => [q] | None => [] end) xs.

Definition Qsum (l : list Q) : Q := fold_right Qplus (0 # 1)%Q l.

Definition Zsum (l : list Z) : Z := fold_right Z.add 0 l.

Definition Qcount (l : list Q) : Q := inject_Z (Z.of_nat (List.length l)).

(** [sum()]: NaN is skipped and the empty sum is 0.  The sum is the exact
    one: float64 rounds it, in an order that depends on the grouping. *)
Definition nansum (xs : list (option Q)) : option Q := Some (Qsum (dropna xs)).

(** [mean()]: NaN is skipped and the mean of nothing is NaN.  The mean is
    the exact quotient of the sum by the count: float64 rounds both. *)
Definition nanmean (xs : list (option Q)) : option Q :=
  match dropna xs with
  | [] => None
  | v => Some (Qsum v / Qcount v)%Q
  end.

Definition Qltb (x y : Q) : bool := negb (Qle_bool y x).

Definition Qmaxl (l : list Q) : option Q :=
  match l with
  | [] => None
  | x :: r => Some (fold_left (fun m y => if Qltb m y then y else m) r x)
  end.

Definition Qminl (l : list Q) : option Q :=
  match l with
  | [] => None
  | x :: r => Some (fold_left (fun m y => if Qltb y m then y else m) r x)
  end.

Definition series_mean (c : column) : result (option Q) :=
  match as_float c with
  | Some xs => Ok (nanmean xs)
  | None => Raise TypeError
  end.

Definition series_sum (c : column) : result (option Q) :=
  match as_float c with
  | Some xs => Ok (nansum xs)
  | None => Raise TypeError
  end.

Definition series_max (c : column) : result (option Q) :=
  match as_float c with
  | Some xs => Ok (Qmaxl (dropna xs))
  | None => Raise TypeError
  end.

Definition series_min (c : column) : result (option Q) :=
  match as_float c with
  | Some xs => Ok (Qminl (dropna xs))
  | None => Raise TypeError
  end.

(** ** Comparison with a scalar: any comparison with NaN is False *)

Definition gt_scalar (thr : option Q) (x : option Q) : bool :=
  match x, thr with
  | Some a, Some b => Qltb b a
  | _, _ => false
  end.

Definition lt_scalar (thr : option Q) (x : option Q) : bool :=
  match x, thr with
  | Some a, Some b => Qltb a b
  | _, _ => false
  end.

(** [c > thr] *)
Definition series_gt (c : column) (thr : option Q) : result column :=
  match as_float c with
  | Some xs => Ok (BoolCol (map (gt_scalar thr) xs))
  | None => Raise TypeError
  end.

(** [c < thr] *)
Definition series_lt (c : column) (thr : option Q) : result column :=
  match as_float c with
  | Some xs => Ok (BoolCol (map (lt_scalar thr) xs))
  | None => Raise TypeError
  end.

(** ** [rolling(window, center=True)] *)

(** Bounds of the window of row [i] among [n] rows, both clipped to
    [0, n] (the subtraction on [nat] is the clip at 0). *)
Definition window_bounds (n window : nat) (i : nat) : nat * nat :=
  let offset := ((window - 1) / 2)%nat in
  let stop := (i + 1 + offset)%nat in
  let start := (stop - window)%nat in
  (Nat.min start n, Nat.min stop n).

Definition window_values (xs : list (option Q)) (window i : nat) : list (option Q) :=
  let '(start, stop) := window_bounds (List.length xs) window i in
  firstn (stop - start) (skipn start xs).

(** [min_periods] is the window size: a window with fewer observations
    (rows missing at an end of the table, or NaN) gives NaN. *)
Definition roll_mean (window : nat) (w : list (option Q)) : option Q :=
  let v := dropna w in
  let nobs := List.length v in
  if (window <=? nobs)%nat && (0 <? nobs)%nat then Some (Qsum v / Qcount v)%Q
  else None.

Definition roll_sum (window : nat) (w : list (option Q)) : option Q :=
  let v := dropna w in
  let nobs := List.length v in
  if (nobs =? 0)%nat && (window =? 0)%nat then Some (0 # 1)%Q
  else if (window <=? nobs)%nat then Some (Qsum v)
  else None.

Definition rolling_apply (f : nat -> list (option Q) -> option Q)
    (xs : list (option Q)) (window : nat) : list (option Q) :=
  map (fun i => f window (window_values xs window i)) (seq 0 (List.length xs)).

(** [c.rolling(window=window, center=True).mean()] *)
Definition rolling_mean (c : column) (window : Z) : result column :=
  if window <? 0 then Raise ValueError
  else match as_float c with
       | Some xs => Ok (NumCol (rolling_apply roll_mean xs (Z.to_nat window)))
       | None => Raise TypeError
       end.

(** [c.rolling(window=window, center=True).sum()] *)
Definition rolling_sum (c : column) (window : Z) : result column :=
  if window <? 0 then Raise ValueError
  else match as_float c with
       | Some xs => Ok (NumCol (rolling_apply roll_sum xs (Z.to_nat window)))
       | None => Raise TypeError
       end.

(** ** [groupby(by)[col].transform('mean')] *)

Inductive key :=
| KNum (q : Q)
| KInt (z : Z)
| KBool (b : bool)
| KDate (t : Timestamp)
| KPeriod (p : Z)
| KStr (s : string).

Definition timestamp_eqb (a b : Timestamp) : bool :=
  (ts_year a =? ts_year b) && (ts_month a =? ts_month b) && (ts_day a =? ts_day b).

Definition key_eqb (a b : key) : bool :=
  match a, b with
  | KNum x, KNum y => Qeq_bool x y
  | KInt x, KInt y => x =? y
  | KBool x, KBool y => Bool.eqb x y
  | KDate x, KDate y => timestamp_eqb x y
  | KPeriod x, KPeriod y => x =? y
  | KStr x, KStr y => String.eqb x y
  | _, _ => false
  end.

(** The group key of every row; a NaN key puts the row in no group. *)
Definition row_keys (c : column) : list (option key) :=
  match c with
  | NumCol xs => map (option_map KNum) xs
  | IntCol zs => map (fun z => Some (KInt z)) zs
  | BoolCol bs => map (fun b => Some (KBool b)) bs
  | DateCol ds => map (fun d => Some (KDate d)) ds
  | PeriodCol ps => map (fun p => Some (KPeriod p)) ps
  | StrCol ss => map (fun s => Some (KStr s)) ss
  | CatCol cs => map (option_map KStr) cs
  end.

Definition in_group (k : key) (k' : option key) : bool :=
  match k' with
  | Some k2 => key_eqb k k2
  | None => false
  end.

(** The values of the rows whose key is [k]. *)
Definition group_values {A} (k : key) (keys : list (option key)) (xs : list A) : list A :=
  map snd (filter (fun p => in_group k (fst p)) (combine keys xs)).

Definition transform_mean (keys : list (option key)) (xs : list (option Q))
  : list (option Q) :=
  map (fun k => match k with
                | Some k => nanmean (group_values k keys xs)
                | None => None
                end) keys.

Definition groupby_transform_mean (r : ref) (by_ col : string) : M column :=
  (k <- getitem r by_ ;;
   x <- getitem r col ;;
   match as_float x with
   | Some xs => ret (NumCol (transform_mean (row_keys k) xs))
   | None => raise TypeError
   end)%monad.

(** ** [pd.cut] with the default [right=True] *)

Inductive bound := NegInf | Fin (q : Q) | PosInf.

(** [b < x] for a finite [x]. *)
Definition bound_ltb (b : bound) (x : Q) : bool :=
  match b with
  | NegInf => true
  | Fin q => Qltb q x
  | PosInf => false
  end.

(** [bins.searchsorted(x, side='left')] on increasing bins: the first
    position whose edge is not below [x]. *)
Fixpoint searchsorted_left (bins : list bound) (x : Q) : nat :=
  match bins with
  | [] => O
  | b :: rest => if bound_ltb b x then S (searchsorted_left rest x) else O
  end.

(** A value outside every bin, or NaN, has no category. *)
Definition cut_value (bins : list bound) (labels : list string) (x : option Q)
  : option string :=
  match x with
  | None => None
  | Some q =>
      let ids := searchsorted_left bins q in
      if (ids =? 0)%nat || (ids =? List.length bins)%nat then None
      else nth_error labels (ids - 1)
  end.

Definition cut (c : column) (bins : list bound) (labels : list string) : result column :=
  match as_float c with
  | Some xs => Ok (CatCol (map (cut_value bins labels) xs))
  | None => Raise TypeError
  end.

(** ** [Series.quantile(q)], linear interpolation *)

Fixpoint insert_sorted (x : Q) (l : list Q) : list Q :=
  match l with
  | [] => [x]
  | y :: r => if Qle_bool x y then x :: l else y :: insert_sorted x r
  end.

Definition sort_values (l : list Q) : list Q := fold_right insert_sorted [] l.

(** The value at position [q * (n - 1)] of the sorted observations,
    interpolated between its two neighbours.  The position is the exact
    one: float64 rounds it, which at a whole position can move the value
    to the other side of one observation. *)
Definition quantile_sorted (v : list Q) (q : Q) : option Q :=
  match v with
  | [] => None
  | x0 :: _ =>
      let pos := (q * inject_Z (Z.of_nat (List.length v - 1)))%Q in
      let lo := Qfloor pos in
      let frac := (pos - inject_Z lo)%Q in
      let a := nth (Z.to_nat lo) v x0 in
      let b := nth (Nat.min (Z.to_nat lo + 1) (List.length v - 1)) v x0 in
      Some (a + (b - a) * frac)%Q
  end.

Definition series_quantile (c : column) (q : Q) : result (option Q) :=
  if Qltb q (0 # 1) || Qltb (1 # 1) q then Raise ValueError
  else match c with
       | NumCol xs => Ok (quantile_sorted (sort_values (dropna xs)) q)
       | IntCol zs => Ok (quantile_sorted (sort_values (map inject_Z zs)) q)
       | _ => Raise TypeError
       end.

(** ** [groupby(by).agg(rules).reset_index()] *)

Inductive rule := Mean | Sum.

(** A dict of aggregation rules, in insertion order. *)
Fixpoint dict_set (k : string) (v : rule) (d : list (string * rule))
  : list (string * rule) :=
  match d with
  | [] => [(k, v)]
  | (k0, v0) :: rest =>
      if String.eqb k k0 then (k0, v) :: rest else (k0, v0) :: dict_set k v rest
  end.

(** [d.update(other)] *)
Definition dict_update (d other : list (string * rule)) : list (string * rule) :=
  fold_left (fun acc kv => dict_set (fst kv) (snd kv) acc) other d.

(** Sorted distinct group keys. *)
Fixpoint insert_key (k : Z) (l : list Z) : list Z :=
  match l with
  | [] => [k]
  | x :: r =>
      if k <? x then k :: l
      else if k =? x then l
      else x :: insert_key k r
  end.

Definition unique_sorted (ks : list Z) : list Z := fold_right insert_key [] ks.

Definition period_group {A} (k : Z) (ps : list Z) (xs : list A) : list A :=
  group_values (KPeriod k) (map (fun p => Some (KPeriod p)) ps) xs.

(** One aggregated column: a value per group, in the order of [groups].
    The mean is float; the sum of an integer column stays integer. *)
Definition agg_column (r : rule) (groups ps : list Z) (c : column) : result column :=
  match r with
  | Mean =>
      match as_float c with
      | Some xs => Ok (NumCol (map (fun k => nanmean (period_group k ps xs)) groups))
      | None => Raise TypeError
      end
  | Sum =>
      match as_int c with
      | Some zs => Ok (IntCol (map (fun k => Zsum (period_group k ps zs)) groups))
      | None =>
          match as_float c with
          | Some xs => Ok (NumCol (map (fun k => nansum (period_group k ps xs)) groups))
          | None => Raise TypeError
          end
      end
  end.

(** The first rule whose column does not exist. *)
Fixpoint missing_column (rules : list (string * rule)) (cols : list (string * column))
  : option string :=
  match rules with
  | [] => None
  | (name, _) :: rest =>
      match lookup name cols with
      | Some _ => missing_column rest cols
      | None => Some name
      end
  end.

Fixpoint agg_columns (rules : list (string * rule)) (groups ps : list Z)
    (cols : list (string * column)) : result (list (string * column)) :=
  match rules with
  | [] => Ok []
  | (name, r) :: rest =>
      match lookup name cols with
      | None => Raise (KeyError name)
      | Some c =>
          match agg_column r groups ps c with
          | Raise e => Raise e
          | Ok c' =>
              match agg_columns rest groups ps cols with
              | Raise e => Raise e
              | Ok out => Ok ((name, c') :: out)
              end
          end
      end
  end.

(** Groups by a period column (the only kind of key this program groups a
    whole table by): the rules' columns must all exist, the groups come
    out in increasing order of their key, and the key is the first column
    of the new table. *)
Definition groupby_agg (r : ref) (by_ : string) (rules : list (string * rule)) : M ref :=
  (k <- getitem r by_ ;;
   df <- deref r ;;
   match k with
   | PeriodCol ps =>
       match missing_column rules (columns df) with
       | Some name => raise (KeyError name)
       | None =>
           let groups := unique_sorted ps in
           out <- lift (agg_columns rules groups ps (columns df)) ;;
           alloc (mkDF (List.length groups) ((by_, PeriodCol groups) :: out))
       end
   | _ => raise TypeError
   end)%monad.

(** ** Scalars of [calculate_statistics] *)

Definition timestamp_ltb (a b : Timestamp) : bool :=
  (ts_year a <? ts_year b)
  || ((ts_year a =? ts_year b)
      && ((ts_month a <? ts_month b)
          || ((ts_month a =? ts_month b) && (ts_day a <? ts_day b)))).

Definition date_min (ds : list Timestamp) : option Timestamp :=
  match ds with
  | [] => None
  | d :: r => Some (fold_left (fun m x => if timestamp_ltb x m then x else m) r d)
  end.

Definition date_max (ds : list Timestamp) : option Timestamp :=
  match ds with
  | [] => None
  | d :: r => Some (fold_left (fun m x => if timestamp_ltb m x then x else m) r d)
  end.

Definition digit (z : Z) : string :=
  String (ascii_of_nat (48 + Z.to_nat (z mod 10))) EmptyString.

Definition pad2 (z : Z) : string := digit (z / 10) ++ digit z.

Definition pad4 (z : Z) : string :=
  digit (z / 1000) ++ digit (z / 100) ++ digit (z / 10) ++ digit z.

(** [t.strftime('%Y-%m-%d')]; NaT (the minimum of no dates) raises. *)
Definition strftime_ymd (t : option Timestamp) : result string :=
  match t with
  | Some d => Ok (pad4 (ts_year d) ++ "-" ++ pad2 (ts_month d) ++ "-" ++ pad2 (ts_day d))%string
  | None => Raise ValueError
  end.

(** [series.min()] then [.strftime]: only a datetime column has both. *)
Definition series_date_min (c : column) : result (option Timestamp) :=
  match c with
  | DateCol ds => Ok (date_min ds)
  | _ => Raise AttributeError
  end.

Definition series_date_max (c : column) : result (option Timestamp) :=
  match c with
  | DateCol ds => Ok (date_max ds)
  | _ => Raise AttributeError
  end.

(** [(c > 0).sum()] *)
Definition count_true (c : column) : result Z :=
  match c with
  | BoolCol bs => Ok (Zsum (map bool_to_Z bs))
  | _ => Raise TypeError
  end.

(** ** [pd.to_datetime] on a Series *)

(** A datetime column is returned as it is.  What pandas makes of any other
    column (strings to parse, epoch numbers) is left to [parse]. *)
Definition to_datetime (parse : column -> result column) (c : column) : result column :=
  match c with
  | DateCol _ => Ok c
  | _ => parse c
  end.

End Pandas.

(** ** [class WeatherTransformer] *)

Module WeatherTransformer.
Import Pandas.
Local Open Scope monad_scope.

(** [_get_season(month)] *)
Definition _get_season (month : Z) : string :=
  if (month =? 12) || (month =? 1) || (month =? 2) then "Winter"
  else if (month =? 3) || (month =? 4) || (month =? 5) then "Spring"
  else if (month =? 6) || (month =? 7) || (month =? 8) then "Summer"
  else "Fall".

(** [df_copy['month'].apply(self._get_season)]; the month column is the
    integer column assigned on the line before. *)
Definition apply_get_season (c : column) : result column :=
  match c with
  | IntCol ms => Ok (StrCol (map _get_season ms))
  | _ => Raise TypeError
  end.

Definition add_basic_features (df : ref) : M ref :=
  df_copy <- copy df ;;
  tmax <- getitem df_copy "tmax" ;;
  tmin <- getitem df_copy "tmin" ;;
  total <- lift (series_add tmax tmin) ;;
  tmean <- lift (series_div total (2 # 1)) ;;
  setitem df_copy "tmean" tmean ;;
  tmax <- getitem df_copy "tmax" ;;
  tmin <- getitem df_copy "tmin" ;;
  temp_range <- lift (series_sub tmax tmin) ;;
  setitem df_copy "temp_range" temp_range ;;
  date <- getitem df_copy "date" ;;
  year <- lift (dt_year date) ;;
  setitem df_copy "year" year ;;
  date <- getitem df_copy "date" ;;
  month <- lift (dt_month date) ;;
  setitem df_copy "month" month ;;
  date <- getitem df_copy "date" ;;
  day_of_year <- lift (dt_dayofyear date) ;;
  setitem df_copy "day_of_year" day_of_year ;;
  month <- getitem df_copy "month" ;;
  season <- lift (apply_get_season month) ;;
  setitem df_copy "season" season ;;
  ret df_copy.

Definition add_rolling_averages (df : ref) (window : Z) : M ref :=
  df_copy <- copy df ;;
  tmean <- getitem df_copy "tmean" ;;
  tmean_7d <- lift (rolling_mean tmean window) ;;
  setitem df_copy "tmean_7d" tmean_7d ;;
  tmax <- getitem df_copy "tmax" ;;
  tmax_7d <- lift (rolling_mean tmax window) ;;
  setitem df_copy "tmax_7d" tmax_7d ;;
  tmin <- getitem df_copy "tmin" ;;
  tmin_7d <- lift (rolling_mean tmin window) ;;
  setitem df_copy "tmin_7d" tmin_7d ;;
  precipitation <- getitem df_copy "precipitation" ;;
  precip_7d <- lift (rolling_sum precipitation window) ;;
  setitem df_copy "precip_7d" precip_7d ;;
  ret df_copy.

(** The default [window=7]. *)
Definition default_window : Z := 7.

Definition anomaly_bins : list bound :=
  [NegInf; Fin (-2 # 1); Fin (-1 # 1); Fin (1 # 1); Fin (2 # 1); PosInf].

Definition anomaly_labels : list string :=
  ["Very Cold"; "Cold"; "Normal"; "Warm"; "Very Warm"].

Definition add_temperature_anomalies (df : ref) : M ref :=
  df_copy <- copy df ;;
  monthly_climate <- groupby_transform_mean df_copy "month" "tmean" ;;
  tmean <- getitem df_copy "tmean" ;;
  temp_anomaly <- lift (series_sub tmean monthly_climate) ;;
  setitem df_copy "temp_anomaly" temp_anomaly ;;
  setitem df_copy "monthly_climate" monthly_climate ;;
  temp_anomaly <- getitem df_copy "temp_anomaly" ;;
  anomaly_category <- lift (cut temp_anomaly anomaly_bins anomaly_labels) ;;
  setitem df_copy "anomaly_category" anomaly_category ;;
  ret df_copy.

Definition base_rules : list (string * rule) :=
  [("tmax", Mean); ("tmin", Mean); ("tmean", Mean); ("precipitation", Sum);
   ("windspeed_max", Mean); ("temp_range", Mean)].

Definition rolling_rules : list (string * rule) :=
  [("tmean_7d", Mean); ("tmax_7d", Mean); ("tmin_7d", Mean); ("precip_7d", Sum)].

Definition aggregate_monthly (df : ref) : M ref :=
  df_copy <- copy df ;;
  date <- getitem df_copy "date" ;;
  year_month <- lift (dt_to_period date) ;;
  setitem df_copy "year_month" year_month ;;
  let agg_rules := base_rules in
  has_rolling <- contains df_copy "tmean_7d" ;;
  let agg_rules :=
    if has_rolling then dict_update agg_rules rolling_rules else agg_rules in
  has_anomaly <- contains df_copy "temp_anomaly" ;;
  let agg_rules :=
    if has_anomaly then dict_set "temp_anomaly" Mean agg_rules else agg_rules in
  monthly_df <- groupby_agg df_copy "year_month" agg_rules ;;
  year_month <- getitem monthly_df "year_month" ;;
  date <- lift (dt_to_timestamp year_month) ;;
  setitem monthly_df "date" date ;;
  monthly_df <- drop monthly_df "year_month" ;;
  date <- getitem monthly_df "date" ;;
  year <- lift (dt_year date) ;;
  setitem monthly_df "year" year ;;
  date <- getitem monthly_df "date" ;;
  month <- lift (dt_month date) ;;
  setitem monthly_df "month" month ;;
  ret monthly_df.

Definition detect_extreme_events (df : ref) (temp_threshold precip_threshold : Q) : M ref :=
  df_copy <- copy df ;;
  has_anomaly <- contains df_copy "temp_anomaly" ;;
  (if has_anomaly then
     temp_anomaly <- getitem df_copy "temp_anomaly" ;;
     extreme_heat <- lift (series_gt temp_anomaly (Some temp_threshold)) ;;
     setitem df_copy "extreme_heat" extreme_heat ;;
     temp_anomaly <- getitem df_copy "temp_anomaly" ;;
     extreme_cold <- lift (series_lt temp_anomaly (Some (- temp_threshold)%Q)) ;;
     setitem df_copy "extreme_cold" extreme_cold
   else
     tmean <- getitem df_copy "tmean" ;;
     temp_95th <- lift (series_quantile tmean (95 # 100)) ;;
     tmean <- getitem df_copy "tmean" ;;
     temp_5th <- lift (series_quantile tmean (5 # 100)) ;;
     tmean <- getitem df_copy "tmean" ;;
     extreme_heat <- lift (series_gt tmean temp_95th) ;;
     setitem df_copy "extreme_heat" extreme_heat ;;
     tmean <- getitem df_copy "tmean" ;;
     extreme_cold <- lift (series_lt tmean temp_5th) ;;
     setitem df_copy "extreme_cold" extreme_cold) ;;
  precipitation <- getitem df_copy "precipitation" ;;
  precip_threshold_value <-
    lift (series_quantile precipitation (precip_threshold / (100 # 1))%Q) ;;
  precipitation <- getitem df_copy "precipitation" ;;
  extreme_precip <- lift (series_gt precipitation precip_threshold_value) ;;
  setitem df_copy "extreme_precip" extreme_precip ;;
  ret df_copy.

(** The defaults [temp_threshold=2.0] and [precip_threshold=95]. *)
Definition default_temp_threshold : Q := 2 # 1.
Definition default_precip_threshold : Q := 95 # 1.

(** The dict returned by [calculate_statistics]. *)
Record statistics := mkStatistics {
  count : nat;
  date_range_start : string;
  date_range_end : string;
  temperature_mean_avg : option Q;
  temperature_mean_max : option Q;
  temperature_mean_min : option Q;
  temperature_absolute_max : option Q;
  temperature_absolute_min : option Q;
  precipitation_total : option Q;
  precipitation_mean_daily : option Q;
  precipitation_max_daily : option Q;
  precipitation_days_with_rain : Z;
  wind_mean_max : option Q;
  wind_absolute_max : option Q
}.

Definition calculate_statistics (df : ref) : M statistics :=
  n <- len df ;;
  date <- getitem df "date" ;;
  first <- lift (series_date_min date) ;;
  start <- lift (strftime_ymd first) ;;
  date <- getitem df "date" ;;
  last <- lift (series_date_max date) ;;
  stop <- lift (strftime_ymd last) ;;
  tmean <- getitem df "tmean" ;;
  mean_avg <- lift (series_mean tmean) ;;
  tmax <- getitem df "tmax" ;;
  mean_max <- lift (series_mean tmax) ;;
  tmin <- getitem df "tmin" ;;
  mean_min <- lift (series_mean tmin) ;;
  tmax <- getitem df "tmax" ;;
  absolute_max <- lift (series_max tmax) ;;
  tmin <- getitem df "tmin" ;;
  absolute_min <- lift (series_min tmin) ;;
  precipitation <- getitem df "precipitation" ;;
  total <- lift (series_sum precipitation) ;;
  precipitation <- getitem df "precipitation" ;;
  mean_daily <- lift (series_mean precipitation) ;;
  precipitation <- getitem df "precipitation" ;;
  max_daily <- lift (series_max precipitation) ;;
  precipitation <- getitem df "precipitation" ;;
  rainy <- lift (series_gt precipitation (Some (0 # 1))) ;;
  days_with_rain <- lift (count_true rainy) ;;
  windspeed_max <- getitem df "windspeed_max" ;;
  wind_mean <- lift (series_mean windspeed_max) ;;
  windspeed_max <- getitem df "windspeed_max" ;;
  wind_max <- lift (series_max windspeed_max) ;;
  ret (mkStatistics n start stop mean_avg mean_max mean_min absolute_max
         absolute_min total mean_daily max_daily days_with_rain wind_mean wind_max).

(** [process_data]; [to_datetime] is [pd.to_datetime]. *)
Definition process_data (to_datetime : column -> result column) (df : ref)
    (add_rolling add_anomalies monthly_agg : bool) : M ref :=
  processed_df <- copy df ;;
  date <- getitem processed_df "date" ;;
  date <- lift (to_datetime date) ;;
  setitem processed_df "date" date ;;
  processed_df <- add_basic_features processed_df ;;
  processed_df <-
    (if add_rolling then add_rolling_averages processed_df default_window
     else ret processed_df) ;;
  processed_df <-
    (if add_anomalies then add_temperature_anomalies processed_df
     else ret processed_df) ;;
  processed_df <-
    (if monthly_agg then aggregate_monthly processed_df
     else ret processed_df) ;;
  ret processed_df.

End WeatherTransformer.

(** * [src/api.py]: the date-range check of [WeatherAPI] *)

Module WeatherAPI.
Import Pandas.

(** ** Scalars of [pd.to_datetime] *)

(** A point in time as pandas holds it: nanoseconds since 1970-01-01, read
    on the wall clock for a timezone-naive timestamp, and in UTC together
    with the offset of its zone for a timezone-aware one; or NaT. *)
Inductive scalar_time :=
| NaT
| Naive (ns : Z)
| Aware (ns : Z) (utcoffset : Z).

Definition and_then {A B} (r : result A) (k : A -> result B) : result B :=
  match r with
  | Ok a => k a
  | Raise e => Raise e
  end.

Declare Scope result_scope.
Delimit Scope result_scope with result.
Notation "x <- c ;; k" := (and_then c (fun x => k))
  (at level 61, c at next level, right associativity) : result_scope.
Local Open Scope result_scope.

(** [a >= b] and [a < b], with [op] the comparison of the two counts: False
    with NaT on either side, TypeError between a naive and an aware
    timestamp. *)
Definition compare_times (op : Z -> Z -> bool) (a b : scalar_time) : result bool :=
  match a, b with
  | NaT, _ | _, NaT => Ok false
  | Naive x, Naive y | Aware x _, Aware y _ => Ok (op x y)
  | _, _ => Raise TypeError
  end.

Definition day_ns : Z := 86400 * 1000000000.

Definition int64_max : Z := 2 ^ 63 - 1.

(** [(a - b).days]: the whole days of the difference, rounded down, and nan
    ([None]) with NaT on either side.  A difference that 64-bit nanoseconds
    hold is computed by every pandas.  A wider one depends on the unit of
    the timestamps, which the version of pandas and the text that was
    parsed decide: with nanosecond timestamps the subtraction raises
    OutOfBoundsDatetime, with a coarser unit it is computed; that case is
    left to [wide_span], which receives the difference in nanoseconds. *)
Definition days_between (wide_span : Z -> result (option Z)) (a b : scalar_time)
  : result (option Z) :=
  match a, b with
  | NaT, _ | _, NaT => Ok None
  | Naive x, Naive y | Aware x _, Aware y _ =>
      if (- int64_max <=? x - y) && (x - y <=? int64_max)
      then Ok (Some ((x - y) / day_ns))
      else wide_span (x - y)
  | _, _ => Raise TypeError
  end.

(** [days > n]; False for nan. *)
Definition days_gt (days : option Z) (n : Z) : bool :=
  match days with
  | Some k => n <? k
  | None => false
  end.

(** The calendar date of a day counted from 1970-01-01 (proleptic
    Gregorian calendar, in eras of 400 years that start on 1 March). *)
Definition civil_from_days (days : Z) : Timestamp :=
  let z := days + 719468 in
  let era := z / 146097 in
  let doe := z - era * 146097 in
  let yoe := (doe - doe / 1460 + doe / 36524 - doe / 146096) / 365 in
  let doy := doe - (365 * yoe + yoe / 4 - yoe / 100) in
  let mp := (5 * doy + 2) / 153 in
  let d := doy - (153 * mp + 2) / 5 + 1 in
  let m := if mp <? 10 then mp + 3 else mp - 9 in
  let y := yoe + era * 400 + (if m <=? 2 then 1 else 0) in
  mkTimestamp y m d.

(** The date on the wall clock of the timestamp's zone. *)
Definition wall_date (t : scalar_time) : option Timestamp :=
  match t with
  | NaT => None
  | Naive ns => Some (civil_from_days (ns / day_ns))
  | Aware ns utcoffset => Some (civil_from_days ((ns + utcoffset) / day_ns))
  end.

(** [t.strftime('%Y-%m-%d')] *)
Definition strftime (t : scalar_time) : result string := strftime_ymd (wall_date t).

(** ** Messages of streamlit *)

(** [st.error(text)] and [st.warning(text)], in the order of the calls. *)
Inductive notice :=
| st_error (text : string)
| st_warning (text : string).

(** ** [validate_date_range] *)

Section ValidateDateRange.

(** [pd.to_datetime] on a string, [str(e)] of a caught exception, and the
    day count of a difference wider than 64-bit nanoseconds. *)
Variable to_datetime : string -> result scalar_time.
Variable str : exn -> string.
Variable wide_span : Z -> result (option Z).

(** The [try] block: what it returns with the messages it showed, or the
    exception that leaves it.  No message is shown before a statement that
    can raise. *)
Definition validate_date_range_try (start_date end_date : string)
  : result (bool * list notice) :=
  start <- to_datetime start_date ;;
  end_ <- to_datetime end_date ;;
  reversed <- compare_times Z.geb start end_ ;;
  if reversed then
    Ok (false, [st_error "Start date must be before end date"])
  else
    min_date <- to_datetime "1940-01-01" ;;
    early <- compare_times Z.ltb start min_date ;;
    if early then
      text <- strftime min_date ;;
      Ok (false, [st_error ("Historical data only available from " ++ text)])
    else
      days <- days_between wide_span end_ start ;;
      Ok (true,
          if days_gt days 3650
          then [st_warning "Large date ranges may take longer to process"]
          else []).

(** [try: ... except Exception as e: st.error(...); return False] *)
Definition validate_date_range (start_date end_date : string) : bool * list notice :=
  match validate_date_range_try start_date end_date with
  | Ok outcome => outcome
  | Raise e => (false, [st_error ("Invalid date format: " ++ str e)])
  end.

End ValidateDateRange.

End WeatherAPI.

(** * [src/plots.py]: the charts of [WeatherPlots] *)

(** ** Figures of plotly *)

(** A figure is the sequence of calls that built it: the constructor, then
    every [fig.add_...] and [fig.update_...] in order, each with its keyword
    arguments. *)
Module Plotly.
Import Pandas.

#[warnings="-register-all"]
Inductive value :=
| Str (s : string)
| Num (q : Q)
| Flag (b : bool)
| Data (c : column)                      (* a pandas Series *)
| Strs (l : list string)                 (* a list of str *)
| Dict (items : list (string * value)).

Inductive trace :=
| Scatter (props : list (string * value))
| Bar (props : list (string * value)).

Inductive call :=
| go_Figure
| make_subplots (specs : list (list (list (string * value))))
| add_trace (t : trace) (secondary_y : option bool)
| add_annotation (props : list (string * value))
| add_hline (props : list (string * value))
| update_layout (props : list (string * value))
| update_xaxes (props : list (string * value))
| update_yaxes (props : list (string * value)) (secondary_y : option bool).

Definition Figure := list call.

End Plotly.

Module WeatherPlots.
Import Pandas Plotly.
Local Open Scope monad_scope.

(** [self.colors] *)
Definition colors : list (string * string) :=
  [("tmax", "#FF6B6B");
   ("tmin", "#4ECDC4");
   ("tmean", "#45B7D1");
   ("precipitation", "#96CEB4");
   ("anomaly_pos", "#FF8A80");
   ("anomaly_neg", "#81C784");
   ("background", "#F8F9FA")].

Fixpoint dict_get (key : string) (d : list (string * string)) : option string :=
  match d with
  | [] => None
  | (k, v) :: rest => if String.eqb key k then Some v else dict_get key rest
  end.

(** [self.colors[key]] *)
Definition color (key : string) : M string :=
  match dict_get key colors with
  | Some c => ret c
  | None => raise (KeyError key)
  end.

(** [legend=dict(orientation="h", yanchor="bottom", y=1.02, xanchor="right", x=1)] *)
Definition legend_above : value :=
  Dict [("orientation", Str "h"); ("yanchor", Str "bottom"); ("y", Num (102 # 100));
        ("xanchor", Str "right"); ("x", Num 1)].

(** [showgrid=True, gridwidth=1, gridcolor='rgba(128,128,128,0.2)'] *)
Definition light_grid : list (string * value) :=
  [("showgrid", Flag true); ("gridwidth", Num 1);
   ("gridcolor", Str "rgba(128,128,128,0.2)")].

Definition create_temperature_plot (df : ref) (show_rolling : bool) : M Figure :=
  let fig := [go_Figure] in
  x <- getitem df "date" ;;
  y <- getitem df "tmax" ;;
  let fig := fig ++ [add_trace (Scatter
    [("x", Data x); ("y", Data y); ("mode", Str "lines");
     ("line", Dict [("width", Num 0)]);
     ("showlegend", Flag false);
     ("hoverinfo", Str "skip")]) None] in
  x <- getitem df "date" ;;
  y <- getitem df "tmin" ;;
  let fig := fig ++ [add_trace (Scatter
    [("x", Data x); ("y", Data y); ("mode", Str "lines");
     ("line", Dict [("width", Num 0)]);
     ("fill", Str "tonexty");
     ("fillcolor", Str "rgba(69, 183, 209, 0.2)");
     ("name", Str "Temperature Range");
     ("hovertemplate", Str "Date: %{x}<br>Min: %{y:.1f}°C<extra></extra>")]) None] in
  x <- getitem df "date" ;;
  y <- getitem df "tmin" ;;
  c <- color "tmin" ;;
  let fig := fig ++ [add_trace (Scatter
    [("x", Data x); ("y", Data y); ("mode", Str "lines");
     ("line", Dict [("color", Str c); ("width", Num (3 # 2))]);
     ("name", Str "Min Temperature");
     ("hovertemplate", Str "Date: %{x}<br>Min Temp: %{y:.1f}°C<extra></extra>")]) None] in
  x <- getitem df "date" ;;
  y <- getitem df "tmax" ;;
  c <- color "tmax" ;;
  let fig := fig ++ [add_trace (Scatter
    [("x", Data x); ("y", Data y); ("mode", Str "lines");
     ("line", Dict [("color", Str c); ("width", Num (3 # 2))]);
     ("name", Str "Max Temperature");
     ("hovertemplate", Str "Date: %{x}<br>Max Temp: %{y:.1f}°C<extra></extra>")]) None] in
  x <- getitem df "date" ;;
  y <- getitem df "tmean" ;;
  c <- color "tmean" ;;
  let fig := fig ++ [add_trace (Scatter
    [("x", Data x); ("y", Data y); ("mode", Str "lines");
     ("line", Dict [("color", Str c); ("width", Num 2)]);
     ("name", Str "Mean Temperature");
     ("hovertemplate", Str "Date: %{x}<br>Mean Temp: %{y:.1f}°C<extra></extra>")]) None] in
  rolling <- (if show_rolling then contains df "tmean_7d" else ret false) ;;
  fig <-
    (if rolling then
       x <- getitem df "date" ;;
       y <- getitem df "tmean_7d" ;;
       ret (fig ++ [add_trace (Scatter
         [("x", Data x); ("y", Data y); ("mode", Str "lines");
          ("line", Dict [("color", Str "#2C3E50"); ("width", Num 2); ("dash", Str "dash")]);
          ("name", Str "7-day Rolling Avg");
          ("hovertemplate", Str "Date: %{x}<br>7-day Avg: %{y:.1f}°C<extra></extra>")]) None])
     else ret fig) ;;
  let fig := fig ++ [update_layout
    [("title", Str "Temperature Analysis");
     ("xaxis_title", Str "Date");
     ("yaxis_title", Str "Temperature (°C)");
     ("hovermode", Str "x unified");
     ("legend", legend_above);
     ("plot_bgcolor", Str "white");
     ("height", Num 500)]] in
  let fig := fig ++ [update_xaxes light_grid] in
  let fig := fig ++ [update_yaxes light_grid None] in
  ret fig.

Definition create_precipitation_plot (df : ref) (show_rolling : bool) : M Figure :=
  let fig := [make_subplots [[[("secondary_y", Flag true)]]]] in
  x <- getitem df "date" ;;
  y <- getitem df "precipitation" ;;
  c <- color "precipitation" ;;
  let fig := fig ++ [add_trace (Bar
    [("x", Data x); ("y", Data y);
     ("name", Str "Daily Precipitation");
     ("marker_color", Str c);
     ("hovertemplate", Str "Date: %{x}<br>Precipitation: %{y:.1f}mm<extra></extra>")])
    (Some false)] in
  rolling <- (if show_rolling then contains df "precip_7d" else ret false) ;;
  fig <-
    (if rolling then
       x <- getitem df "date" ;;
       y <- getitem df "precip_7d" ;;
       ret (fig ++ [add_trace (Scatter
         [("x", Data x); ("y", Data y); ("mode", Str "lines");
          ("line", Dict [("color", Str "#E74C3C"); ("width", Num 2)]);
          ("name", Str "7-day Rolling Sum");
          ("hovertemplate", Str "Date: %{x}<br>7-day Sum: %{y:.1f}mm<extra></extra>")])
         (Some true)])
     else ret fig) ;;
  let fig := fig ++ [update_layout
    [("title", Str "Precipitation Analysis");
     ("hovermode", Str "x unified");
     ("legend", legend_above);
     ("plot_bgcolor", Str "white");
     ("height", Num 400)]] in
  let fig := fig ++ [update_yaxes [("title_text", Str "Daily Precipitation (mm)")]
                       (Some false)] in
  rolling <- (if show_rolling then contains df "precip_7d" else ret false) ;;
  let fig :=
    if rolling then fig ++ [update_yaxes [("title_text", Str "7-day Sum (mm)")] (Some true)]
    else fig in
  let fig := fig ++ [update_xaxes [("title_text", Str "Date")]] in
  ret fig.

(** ['#81C784' if x < 0 else '#FF8A80'] for one element [x] of a Series:
    a comparison with NaN is False, and a value that is no number cannot be
    compared with 0. *)
Definition sign_color (below_zero : bool) : string :=
  if below_zero then "#81C784" else "#FF8A80".

Fixpoint for_each {A B} (f : A -> result B) (l : list A) : result (list B) :=
  match l with
  | [] => Ok []
  | x :: rest =>
      match f x with
      | Raise e => Raise e
      | Ok y =>
          match for_each f rest with
          | Raise e => Raise e
          | Ok ys => Ok (y :: ys)
          end
      end
  end.

(** [['#81C784' if x < 0 else '#FF8A80' for x in series]] *)
Definition anomaly_colors (series : column) : result (list string) :=
  match series with
  | NumCol xs =>
      Ok (map (fun x => sign_color (lt_scalar (Some (0 # 1)) x)) xs)
  | IntCol zs => Ok (map (fun z => sign_color (z <? 0)) zs)
  | BoolCol bs => Ok (map (fun _ => sign_color false) bs)
  | CatCol cs =>
      for_each (fun c => match c with
                         | None => Ok (sign_color false)
                         | Some _ => Raise TypeError
                         end) cs
  | DateCol ds => for_each (fun _ => Raise TypeError) ds
  | PeriodCol ps => for_each (fun _ => Raise TypeError) ps
  | StrCol ss => for_each (fun _ => Raise TypeError) ss
  end.

Definition create_anomaly_plot (df : ref) : M Figure :=
  present <- contains df "temp_anomaly" ;;
  if negb present then
    let fig := [go_Figure] in
    let fig := fig ++ [add_annotation
      [("text", Str "No anomaly data available");
       ("xref", Str "paper"); ("yref", Str "paper");
       ("x", Num (1 # 2)); ("y", Num (1 # 2));
       ("showarrow", Flag false);
       ("font", Dict [("size", Num 16)])]] in
    ret fig
  else
    let fig := [go_Figure] in
    temp_anomaly <- getitem df "temp_anomaly" ;;
    colors <- lift (anomaly_colors temp_anomaly) ;;
    x <- getitem df "date" ;;
    y <- getitem df "temp_anomaly" ;;
    let fig := fig ++ [add_trace (Bar
      [("x", Data x); ("y", Data y);
       ("marker_color", Strs colors);
       ("name", Str "Temperature Anomaly");
       ("hovertemplate", Str "Date: %{x}<br>Anomaly: %{y:.1f}°C<extra></extra>")]) None] in
    let fig := fig ++ [add_hline
      [("y", Num 0); ("line_dash", Str "dash"); ("line_color", Str "black");
       ("annotation_text", Str "Climatological Average")]] in
    let fig := fig ++ [update_layout
      [("title", Str "Temperature Anomalies (vs. Monthly Climate)");
       ("xaxis_title", Str "Date");
       ("yaxis_title", Str "Temperature Anomaly (°C)");
       ("hovermode", Str "x");
       ("plot_bgcolor", Str "white");
       ("height", Num 400);
       ("showlegend", Flag false)]] in
    let fig := fig ++ [update_xaxes light_grid] in
    let fig := fig ++ [update_yaxes light_grid None] in
    ret fig.

End WeatherPlots.

(** * Vocabulary of the properties *)

Module Vocabulary.
Import Pandas WeatherTransformer.

(** The columns [add_basic_features] assigns. *)
Definition new_basic_columns : list string :=
  ["tmean"; "temp_range"; "year"; "month"; "day_of_year"; "season"].

(** The columns [add_rolling_averages] assigns. *)
Definition rolling_columns : list string :=
  ["tmean_7d"; "tmax_7d"; "tmin_7d"; "precip_7d"].

(** Number of absent (NaN) entries of a float column. *)
Definition count_absent (l : list (option Q)) : nat :=
  List.length (filter (fun x => match x with None => true | Some _ => false end) l).

Definition all_absent (l : list (option Q)) : Prop := Forall (fun x => x = None) l.

(** Row [i] of [n] is among the first or the last [k] rows. *)
Definition is_edge (k n i : nat) : bool := (i <? k)%nat || (n <=? i + k)%nat.

Definition day (y m d : Z) : Timestamp := mkTimestamp y m d.

Definition num (z : Z) : option Q := Some (inject_Z z).

(** Seven consecutive days, [tmax] 10 and [tmin] 0 throughout, with the
    basic features. *)
Definition week_table : DataFrame :=
  mkDF 7
    [("date", DateCol (map (day 2023 1) [1; 2; 3; 4; 5; 6; 7]));
     ("tmax", NumCol (repeat (num 10) 7));
     ("tmin", NumCol (repeat (num 0) 7));
     ("precipitation", NumCol (repeat (num 1) 7));
     ("windspeed_max", NumCol (repeat (num 3) 7));
     ("tmean", NumCol (repeat (num 5) 7));
     ("temp_range", NumCol (repeat (num 10) 7));
     ("year", IntCol (repeat 2023 7));
     ("month", IntCol (repeat 1 7));
     ("day_of_year", IntCol [1; 2; 3; 4; 5; 6; 7]);
     ("season", StrCol (repeat "Winter" 7))].

(** C2 as the specification words it, at one table and window: with more
    rows than the window each rolling column has [2 * (window / 2)] absent
    entries, and with at most [window] rows every entry is absent. *)
Definition rolling_claim_as_stated (t : DataFrame) (window : Z) : Prop :=
  forall t' name col,
    add_rolling_averages 0%nat window [t] = (Ok 1%nat, [t; t']) ->
    In name rolling_columns ->
    lookup name (columns t') = Some (NumCol col) ->
    (window < Z.of_nat (nrows t) -> Z.of_nat (count_absent col) = 2 * (window / 2)) /\
    (Z.of_nat (nrows t) <= window -> all_absent col).

(** [c] leaves the objects below [n] as they are, never removes an object,
    and its result, when it returns one, satisfies [P]. *)
Definition writes_above (n : nat) {A} (c : M A) (P : A -> Prop) : Prop :=
  forall h,
    (n <= List.length h)%nat ->
    (forall r, (r < n)%nat -> nth_error (snd (c h)) r = nth_error h r) /\
    (List.length h <= List.length (snd (c h)))%nat /\
    match fst (c h) with
    | Ok a => P a
    | Raise _ => True
    end.

(** [c] leaves the whole store as it is. *)
Definition read_only {A} (c : M A) : Prop := forall h, snd (c h) = h.

(** A stage leaves its argument as it was, whether it returns or raises,
    and what it returns is an object that did not exist before. *)
Definition leaves_input (stage : ref -> M ref) : Prop :=
  forall h r t res h',
    nth_error h r = Some t ->
    stage r h = (res, h') ->
    nth_error h' r = Some t /\
    (forall r', res = Ok r' -> (List.length h <= r')%nat /\ r' <> r).

(** The columns [add_temperature_anomalies] assigns. *)
Definition anomaly_columns : list string :=
  ["temp_anomaly"; "monthly_climate"; "anomaly_category"].

(** Two January days with mean temperatures 0 and 4, with the basic
    features: the climatology is 2 and the anomalies are -2 and 2. *)
Definition two_day_table : DataFrame :=
  mkDF 2
    [("date", DateCol [day 2023 1 1; day 2023 1 2]);
     ("tmax", NumCol [num 2; num 6]);
     ("tmin", NumCol [num (-2); num 2]);
     ("precipitation", NumCol [num 0; num 1]);
     ("windspeed_max", NumCol [num 3; num 5]);
     ("tmean", NumCol [num 0; num 4]);
     ("temp_range", NumCol [num 4; num 4]);
     ("year", IntCol [2023; 2023]);
     ("month", IntCol [1; 1]);
     ("day_of_year", IntCol [1; 2]);
     ("season", StrCol ["Winter"; "Winter"])].

(** C1 as the specification words it, at one table: bins closed on the
    left, with -2 in Cold and 2 in Very Warm. *)
Definition anomaly_bins_as_stated (t : DataFrame) : Prop :=
  forall t' anomaly category i x,
    add_temperature_anomalies 0%nat [t] = (Ok 1%nat, [t; t']) ->
    lookup "temp_anomaly" (columns t') = Some (NumCol anomaly) ->
    lookup "anomaly_category" (columns t') = Some (CatCol category) ->
    nth_error anomaly i = Some (Some x) ->
    ((x < -2 # 1)%Q -> nth_error category i = Some (Some "Very Cold")) /\
    ((-2 # 1 <= x)%Q /\ (x < -1 # 1)%Q -> nth_error category i = Some (Some "Cold")) /\
    ((-1 # 1 <= x)%Q /\ (x < 1 # 1)%Q -> nth_error category i = Some (Some "Normal")) /\
    ((1 # 1 <= x)%Q /\ (x < 2 # 1)%Q -> nth_error category i = Some (Some "Warm")) /\
    ((2 # 1 <= x)%Q -> nth_error category i = Some (Some "Very Warm")).

(** A row, as its group key and its value, belongs to the group [k]. *)
Definition row_in (k : key) (p : option key * option Q) : bool := in_group k (fst p).

(** Sum of the values of some rows, NaN skipped. *)
Definition rows_sum (rows : list (option key * option Q)) : Q :=
  Qsum (dropna (map snd rows)).

(** What a stage returns: the table behind the reference it hands back, or
    the exception it raises. *)
Definition stage_result (c : M ref) (h : store) : result DataFrame :=
  match c h with
  | (Ok r, h') =>
      match nth_error h' r with
      | Some t => Ok t
      | None => Raise InvalidRef
      end
  | (Raise e, _) => Raise e
  end.

(** The aggregation rules [aggregate_monthly] builds for the table [t]. *)
Definition agg_rules_of (t : DataFrame) : list (string * rule) :=
  let agg_rules := base_rules in
  let agg_rules :=
    if has_column "tmean_7d" t then dict_update agg_rules rolling_rules else agg_rules in
  if has_column "temp_anomaly" t then dict_set "temp_anomaly" Mean agg_rules
  else agg_rules.

(** A column with a numeric dtype (bool, int or float). *)
Definition numeric (c : column) : Prop := exists xs, as_float c = Some xs.

(** The table [aggregate_monthly] returns for the sorted group keys and the
    aggregated columns [out]. *)
Definition monthly_table (groups : list Z) (out : list (string * column)) : DataFrame :=
  set_column "month" (IntCol (map period_month groups))
    (set_column "year" (IntCol (map period_year groups))
       (mkDF (List.length groups)
          (remove "year_month"
             (assign "date" (DateCol (map period_start groups))
                (("year_month", PeriodCol groups) :: out))))).

(** The month of a calendar date is between 1 and 12. *)
Definition valid_month (dt : Timestamp) : Prop := 1 <= ts_month dt <= 12.

(** The (year, month) pair of a date. *)
Definition month_of (dt : Timestamp) : Z * Z := (ts_year dt, ts_month dt).

Definition in_month (ym : Z * Z) (dt : Timestamp) : bool :=
  (ts_year dt =? fst ym) && (ts_month dt =? snd ym).

(** The values of the rows whose date is in the month [ym]. *)
Definition month_values {A} (ym : Z * Z) (d : list Timestamp) (xs : list A) : list A :=
  map snd (filter (fun p => in_month ym (fst p)) (combine d xs)).

(** Chronological order of (year, month) pairs. *)
Definition month_lt (a b : Z * Z) : Prop :=
  fst a < fst b \/ (fst a = fst b /\ snd a < snd b).

(** The first day of a month. *)
Definition first_day (ym : Z * Z) : Timestamp := mkTimestamp (fst ym) (snd ym) 1.

(** The (year, month) pair of a monthly period. *)
Definition period_pair (p : Z) : Z * Z := (period_year p, period_month p).

(** The columns [aggregate_monthly] always aggregates. *)
Definition base_columns : list string :=
  ["tmax"; "tmin"; "tmean"; "precipitation"; "windspeed_max"; "temp_range"].

(** The columns [aggregate_monthly] derives from the group key. *)
Definition derived_columns : list string := ["date"; "year"; "month"; "year_month"].

(** Seven days as the weather API delivers them, without derived features. *)
Definition raw_week_table : DataFrame :=
  mkDF 7
    [("date", DateCol (map (day 2023 1) [1; 2; 3; 4; 5; 6; 7]));
     ("tmax", NumCol (repeat (num 10) 7));
     ("tmin", NumCol (repeat (num 0) 7));
     ("precipitation", NumCol (repeat (num 1) 7));
     ("windspeed_max", NumCol (repeat (num 3) 7))].


(** The columns [detect_extreme_events] assigns. *)
Definition extreme_columns : list string :=
  ["extreme_heat"; "extreme_cold"; "extreme_precip"].

(** The empirical [q]-quantile of the observations of a float column, as
    [Series.quantile] computes it. *)
Definition percentile (xs : list (option Q)) (q : Q) : option Q :=
  quantile_sorted (sort_values (dropna xs)) q.



(** Fourteen consecutive days, [tmax] 10 and [tmin] 0 throughout, with the
    basic features. *)
Definition fortnight_table : DataFrame :=
  mkDF 14
    [("date", DateCol (map (day 2023 1) (map Z.of_nat (seq 1 14))));
     ("tmax", NumCol (repeat (num 10) 14));
     ("tmin", NumCol (repeat (num 0) 14));
     ("precipitation", NumCol (repeat (num 1) 14));
     ("windspeed_max", NumCol (repeat (num 3) 14));
     ("tmean", NumCol (repeat (num 5) 14));
     ("temp_range", NumCol (repeat (num 10) 14));
     ("year", IntCol (repeat 2023 14));
     ("month", IntCol (repeat 1 14));
     ("day_of_year", IntCol (map Z.of_nat (seq 1 14)));
     ("season", StrCol (repeat "Winter" 14))].

(** The thirty days of April 2023, each with precipitation 1.0, with the
    basic features. *)
Definition april_table : DataFrame :=
  mkDF 30
    [("date", DateCol (map (day 2023 4) (map Z.of_nat (seq 1 30))));
     ("tmax", NumCol (repeat (num 15) 30));
     ("tmin", NumCol (repeat (num 5) 30));
     ("precipitation", NumCol (repeat (num 1) 30));
     ("windspeed_max", NumCol (repeat (num 3) 30));
     ("tmean", NumCol (repeat (num 10) 30));
     ("temp_range", NumCol (repeat (num 10) 30));
     ("year", IntCol (repeat 2023 30));
     ("month", IntCol (repeat 4 30));
     ("day_of_year", IntCol (map Z.of_nat (seq 91 30)));
     ("season", StrCol (repeat "Spring" 30))].

(** Three days with anomalies 3, -3 and 0. *)
Definition anomaly_table : DataFrame :=
  mkDF 3
    [("date", DateCol [day 2023 1 1; day 2023 1 2; day 2023 1 3]);
     ("precipitation", NumCol [num 0; num 4; num 10]);
     ("tmean", NumCol [num 8; num 2; num 5]);
     ("month", IntCol [1; 1; 1]);
     ("temp_anomaly", NumCol [num 3; num (-3); num 0])].


(** [week_table] with one rolling column but not [tmean_7d]. *)
Definition stray_rolling_table : DataFrame :=
  set_column "tmax_7d" (NumCol (repeat (num 10) 7)) week_table.

(** [week_table] with [tmean_7d] but without the other rolling columns. *)
Definition lone_tmean_7d_table : DataFrame :=
  set_column "tmean_7d" (NumCol (repeat (num 5) 7)) week_table.

(** [name] is a float column of [t]. *)
Definition float_column (name : string) (t : DataFrame) : Prop :=
  exists xs, lookup name (columns t) = Some (NumCol xs).

(** The columns of the table the weather API delivers. *)
Definition measurement_columns : list string :=
  ["tmax"; "tmin"; "precipitation"; "windspeed_max"].

(** A table as the weather API delivers it: a datetime [date], float
    measurements, and none of the columns the optional stages add. *)
Definition raw_table (t : DataFrame) (d : list Timestamp) : Prop :=
  lookup "date" (columns t) = Some (DateCol d) /\
  (forall name, In name measurement_columns -> float_column name t) /\
  (forall name, In name (rolling_columns ++ anomaly_columns) -> has_column name t = false).

(** A table with the basic features, whose optional columns, when it has
    them, are float columns. *)
Definition featured (t : DataFrame) (d : list Timestamp) : Prop :=
  lookup "date" (columns t) = Some (DateCol d) /\
  (forall name, In name base_columns -> float_column name t) /\
  lookup "month" (columns t) = Some (IntCol (map ts_month d)) /\
  (has_column "tmean_7d" t = true ->
   forall name, In name rolling_columns -> float_column name t) /\
  (has_column "temp_anomaly" t = true -> float_column "temp_anomaly" t).

(** The [2k+1] values of [v] centred on row [i]. *)
Definition centred {A} (k i : nat) (v : list A) : list A :=
  firstn (2 * k + 1) (skipn (i - k) v).

(** The value a row contributes to a sum: NaN contributes nothing. *)
Definition observed (x : option Q) : Q :=
  match x with Some q => q | None => 0 # 1 end.

(** A calendar date: a month between 1 and 12 and a day of that month. *)
Definition valid_date (dt : Timestamp) : Prop :=
  1 <= ts_month dt <= 12 /\
  1 <= ts_day dt <= days_in_month (ts_year dt) (ts_month dt).

(** The number of days of a year. *)
Definition days_in_year (y : Z) : Z := if is_leap y then 366 else 365.

(** 1940-01-01 at midnight, in nanoseconds before 1970-01-01. *)
Definition min_date_ns : Z := -10958 * WeatherAPI.day_ns.

(** A whole day counted from 1970-01-01, at midnight. *)
Definition midnight (days : Z) : WeatherAPI.scalar_time :=
  WeatherAPI.Naive (days * WeatherAPI.day_ns).

(** [pd.to_datetime] on the date strings of the test-suite, on the text
    NaT and on a timestamp with a UTC offset; other strings are left
    unparsed. *)
Definition sample_to_datetime (s : string) : result WeatherAPI.scalar_time :=
  if String.eqb s "1940-01-01" then Ok (midnight (-10958))
  else if String.eqb s "1900-01-01" then Ok (midnight (-25567))
  else if String.eqb s "2010-01-01" then Ok (midnight 14610)
  else if String.eqb s "2023-01-01" then Ok (midnight 19358)
  else if String.eqb s "2023-12-31" then Ok (midnight 19722)
  else if String.eqb s "2023-01-01T00:00:00+00:00" then
    Ok (WeatherAPI.Aware (19358 * WeatherAPI.day_ns) 0)
  else if String.eqb s "NaT" then Ok WeatherAPI.NaT
  else Raise ValueError.

(** The name of the exception class, for [str(e)]. *)
Definition sample_str (e : exn) : string :=
  match e with
  | KeyError key => key
  | TypeError => "TypeError"
  | ValueError => "ValueError"
  | AttributeError => "AttributeError"
  | InvalidRef => "InvalidRef"
  end.

(** The subtraction of nanosecond timestamps: a difference wider than 64
    bits raises OutOfBoundsDatetime, a ValueError. *)
Definition sample_wide_span (ns : Z) : result (option Z) := Raise ValueError.

(** The notice is an error message. *)
Definition is_error (n : WeatherAPI.notice) : bool :=
  match n with
  | WeatherAPI.st_error _ => true
  | WeatherAPI.st_warning _ => false
  end.

(** The traces of a figure, in the order they were added. *)
Definition traces (fig : Plotly.Figure) : list Plotly.trace :=
  flat_map (fun c => match c with
                     | Plotly.add_trace t _ => [t]
                     | _ => []
                     end) fig.

(** The annotations of a figure. *)
Definition annotations (fig : Plotly.Figure) : list (list (string * Plotly.value)) :=
  flat_map (fun c => match c with
                     | Plotly.add_annotation p => [p]
                     | _ => []
                     end) fig.

Definition trace_props (t : Plotly.trace) : list (string * Plotly.value) :=
  match t with
  | Plotly.Scatter p => p
  | Plotly.Bar p => p
  end.

(** The value of a keyword argument. *)
Fixpoint prop (key : string) (p : list (string * Plotly.value)) : option Plotly.value :=
  match p with
  | [] => None
  | (k, v) :: rest => if String.eqb key k then Some v else prop key rest
  end.

Definition series_of (v : option Plotly.value) : option column :=
  match v with
  | Some (Plotly.Data c) => Some c
  | _ => None
  end.

(** The columns a trace plots: its [x] and its [y]. *)
Definition plotted (t : Plotly.trace) : option column * option column :=
  (series_of (prop "x" (trace_props t)), series_of (prop "y" (trace_props t))).

(** The columns [names] of a table, each against its [date]. *)
Definition against_date (t : DataFrame) (names : list string)
  : list (option column * option column) :=
  map (fun name => (lookup "date" (columns t), lookup name (columns t))) names.

(** A table the charts of the application can be drawn from: it has the
    columns every chart reads, the rolling columns and the anomalies as
    the options say, and its anomalies are numbers. *)
Definition chartable (t : DataFrame) (rolling anomalies : bool) : Prop :=
  (forall name, In name ["date"; "tmax"; "tmin"; "tmean"; "precipitation"] ->
                has_column name t = true) /\
  has_column "tmean_7d" t = rolling /\
  has_column "precip_7d" t = rolling /\
  has_column "temp_anomaly" t = anomalies /\
  (anomalies = true -> float_column "temp_anomaly" t).

(** The colours of the bars of the anomaly chart. *)
Definition bar_colors (fig : Plotly.Figure) : option (list string) :=
  match traces fig with
  | [Plotly.Bar p] =>
      match prop "marker_color" p with
      | Some (Plotly.Strs l) => Some l
      | _ => None
      end
  | _ => None
  end.

(** The text of an annotation. *)
Definition annotation_text (p : list (string * Plotly.value)) : option string :=
  match prop "text" p with
  | Some (Plotly.Str s) => Some s
  | _ => None
  end.

(** The last day of 2022 and the first day of 2023: two months with one
    row each. *)
Definition new_year_table : DataFrame :=
  mkDF 2
    [("date", DateCol [day 2022 12 31; day 2023 1 1]);
     ("tmean", NumCol [num 3; num 5]);
     ("month", IntCol [12; 1])].




End Vocabulary.

(** * Properties *)

Import Pandas WeatherTransformer Vocabulary.

(** ** The store: reading and writing the newest object *)

Section StoreLemmas.

Lemma bind_run {A B} (c : M A) (k : A -> M B) (h : store) :
  bind c k h = match c h with
               | (Ok a, h') => k a h'
               | (Raise e, h') => (Raise e, h')
               end.
Proof. reflexivity. Qed.

Lemma bind_lift {A B} (r : result A) (k : A -> M B) (h : store) :
  bind (lift r) k h = match r with
                      | Ok a => k a h
                      | Raise e => (Raise e, h)
                      end.
Proof. unfold bind, lift. destruct r; reflexivity. Qed.

Lemma nth_error_last (h : store) (t : DataFrame) :
  nth_error (h ++ [t]) (List.length h) = Some t.
Proof. rewrite nth_error_app2, Nat.sub_diag; [reflexivity | lia]. Qed.

Lemma update_last (h : store) (t t' : DataFrame) :
  update (List.length h) t' (h ++ [t]) = h ++ [t'].
Proof. induction h as [|d h IH]; simpl; [reflexivity | now rewrite IH]. Qed.

Lemma update_length (r : ref) (t : DataFrame) (h : store) :
  List.length (update r t h) = List.length h.
Proof.
  revert r; induction h as [|d h IH]; intros [|r]; simpl; auto.
Qed.

Lemma update_other (r r' : ref) (t : DataFrame) (h : store) :
  r <> r' -> nth_error (update r t h) r' = nth_error h r'.
Proof.
  revert r r'; induction h as [|d h IH]; intros [|r] [|r'] Hne; simpl; auto;
    congruence.
Qed.

Lemma deref_last (h : store) (t : DataFrame) :
  deref (List.length h) (h ++ [t]) = (Ok t, h ++ [t]).
Proof. unfold deref. now rewrite nth_error_last. Qed.

Lemma copy_ok (h : store) (r : ref) (t : DataFrame) :
  nth_error h r = Some t -> copy r h = (Ok (List.length h), h ++ [t]).
Proof. intros H. unfold copy, bind, deref, alloc. now rewrite H. Qed.

Lemma getitem_last (h : store) (t : DataFrame) (name : string) :
  getitem (List.length h) name (h ++ [t]) =
  (match lookup name (columns t) with
   | Some c => Ok c
   | None => Raise (KeyError name)
   end, h ++ [t]).
Proof.
  unfold getitem. rewrite bind_run, deref_last.
  destruct (lookup name (columns t)); reflexivity.
Qed.

Lemma setitem_last (h : store) (t : DataFrame) (name : string) (c : column) :
  setitem (List.length h) name c (h ++ [t]) = (Ok tt, h ++ [set_column name c t]).
Proof.
  unfold setitem. rewrite bind_run, deref_last. now rewrite update_last.
Qed.

Lemma contains_last (h : store) (t : DataFrame) (name : string) :
  contains (List.length h) name (h ++ [t]) = (Ok (has_column name t), h ++ [t]).
Proof. unfold contains. now rewrite bind_run, deref_last. Qed.

Lemma drop_last (h : store) (t : DataFrame) (name : string) :
  drop (List.length h) name (h ++ [t]) =
  match lookup name (columns t) with
  | Some _ => (Ok (List.length (h ++ [t])),
               (h ++ [t]) ++ [mkDF (nrows t) (remove name (columns t))])
  | None => (Raise (KeyError name), h ++ [t])
  end.
Proof.
  unfold drop. rewrite bind_run, deref_last.
  destruct (lookup name (columns t)); reflexivity.
Qed.

End StoreLemmas.

(** ** Columns of a table after an assignment *)

Section ColumnLemmas.

Lemma lookup_assign (name name' : string) (c : column) (cols : list (string * column)) :
  lookup name (assign name' c cols) =
  if String.eqb name name' then Some c else lookup name cols.
Proof.
  induction cols as [|[k c0] rest IH]; simpl.
  - destruct (String.eqb name name'); reflexivity.
  - destruct (String.eqb_spec name' k) as [->|Hk]; simpl.
    + destruct (String.eqb name k); reflexivity.
    + rewrite IH. destruct (String.eqb_spec name k) as [->|Hn]; [|reflexivity].
      destruct (String.eqb_spec k name'); congruence.
Qed.

Lemma lookup_remove (name name' : string) (cols : list (string * column)) :
  lookup name (remove name' cols) =
  if String.eqb name name' then None else lookup name cols.
Proof.
  induction cols as [|[k c0] rest IH]; simpl.
  - destruct (String.eqb name name'); reflexivity.
  - destruct (String.eqb_spec name' k) as [->|Hk]; simpl.
    + rewrite IH. destruct (String.eqb name k); reflexivity.
    + rewrite IH. destruct (String.eqb_spec name k) as [->|Hn]; [|reflexivity].
      destruct (String.eqb_spec k name'); congruence.
Qed.

Lemma lookup_set_column (name name' : string) (c : column) (t : DataFrame) :
  lookup name (columns (set_column name' c t)) =
  if String.eqb name name' then Some c else lookup name (columns t).
Proof. apply lookup_assign. Qed.

Lemma nrows_set_column (name : string) (c : column) (t : DataFrame) :
  nrows (set_column name c t) = nrows t.
Proof. reflexivity. Qed.

Lemma has_column_set_column (name name' : string) (c : column) (t : DataFrame) :
  has_column name (set_column name' c t) =
  if String.eqb name name' then true else has_column name t.
Proof.
  unfold has_column. rewrite lookup_set_column.
  destruct (String.eqb name name'); reflexivity.
Qed.

End ColumnLemmas.

(** ** Running a method on the newest object *)

Ltac use_lookups :=
  repeat (progress
            (rewrite ?lookup_set_column, ?lookup_remove, ?lookup_assign,
               ?has_column_set_column;
             cbn [String.eqb Ascii.eqb Bool.eqb lookup columns nrows]));
  repeat match goal with
         | H : lookup _ (columns _) = _ |- _ => rewrite H
         | H : has_column _ _ = _ |- _ => rewrite H
         end;
  cbn [series_add series_sub series_div series_gt series_lt as_int as_float
       dt_year dt_month dt_dayofyear dt_to_period dt_to_timestamp
       apply_get_season cut];
  cbn beta iota.

Ltac run_step :=
  first
    [ rewrite bind_lift
    | rewrite bind_run;
      first [ rewrite getitem_last | rewrite setitem_last | rewrite contains_last
            | rewrite drop_last ] ];
  use_lookups.

Ltac run_copy H :=
  rewrite bind_run, (copy_ok _ _ _ H); cbn beta iota.

Ltac other_name Hn :=
  cbn [In] in Hn;
  repeat match goal with
         | |- context [String.eqb ?name ?s] =>
             destruct (String.eqb_spec name s); [exfalso; apply Hn; subst; tauto|]
         end.

Section ListLemmas.

Lemma nth_error_map2 {A B C} (f : A -> B -> C) (l1 : list A) (l2 : list B) (i : nat) :
  nth_error (map2 f l1 l2) i =
  match nth_error l1 i, nth_error l2 i with
  | Some x, Some y => Some (f x y)
  | _, _ => None
  end.
Proof.
  unfold map2. revert l2 i.
  induction l1 as [|x l1 IH]; intros [|y l2] [|i]; simpl; try reflexivity.
  - destruct (nth_error l1 i); reflexivity.
  - apply IH.
Qed.

Lemma map2_length {A B C} (f : A -> B -> C) (l1 : list A) (l2 : list B) :
  List.length (map2 f l1 l2) = Nat.min (List.length l1) (List.length l2).
Proof. unfold map2. now rewrite length_map, length_combine. Qed.

End ListLemmas.

(** ** The feature engine *)

Section BasicFeatures.

Variables (h : store) (r : ref) (t : DataFrame).
Variables (a b : list (option Q)) (d : list Timestamp).
Hypothesis Hr : nth_error h r = Some t.
Hypothesis Ha : lookup "tmax" (columns t) = Some (NumCol a).
Hypothesis Hb : lookup "tmin" (columns t) = Some (NumCol b).
Hypothesis Hd : lookup "date" (columns t) = Some (DateCol d).

Lemma add_basic_features_run :
  exists t',
    add_basic_features r h = (Ok (List.length h), h ++ [t']) /\
    nrows t' = nrows t /\
    lookup "tmean" (columns t') =
      Some (NumCol (map (fun v => lift2 Qdiv v (Some (2 # 1))) (map2 (lift2 Qplus) a b))) /\
    lookup "temp_range" (columns t') = Some (NumCol (map2 (lift2 Qminus) a b)) /\
    lookup "year" (columns t') = Some (IntCol (map ts_year d)) /\
    lookup "month" (columns t') = Some (IntCol (map ts_month d)) /\
    lookup "day_of_year" (columns t') = Some (IntCol (map dayofyear d)) /\
    lookup "season" (columns t') = Some (StrCol (map _get_season (map ts_month d))) /\
    (forall name, ~ In name new_basic_columns ->
                  lookup name (columns t') = lookup name (columns t)).
Proof.
  unfold add_basic_features.
  run_copy Hr.
  repeat run_step.
  eexists. split; [reflexivity|].
  repeat split; try (use_lookups; reflexivity).
  intros name Hn. rewrite !lookup_set_column.
  unfold new_basic_columns in Hn. other_name Hn. reflexivity.
Qed.

(** C5: on a table with float [tmax] and [tmin] and a datetime [date],
    [add_basic_features] returns a new table with the same number of rows
    and every input column as it was, in which row [i] of [tmean] is
    [(tmax + tmin) / 2] and row [i] of [temp_range] is [tmax - tmin]
    (NaN where an operand is NaN). *)
Theorem add_basic_features_rows :
  exists t' tmean temp_range,
    add_basic_features r h = (Ok (List.length h), h ++ [t']) /\
    nrows t' = nrows t /\
    (forall name, ~ In name new_basic_columns ->
                  lookup name (columns t') = lookup name (columns t)) /\
    lookup "tmean" (columns t') = Some (NumCol tmean) /\
    lookup "temp_range" (columns t') = Some (NumCol temp_range) /\
    List.length tmean = Nat.min (List.length a) (List.length b) /\
    List.length temp_range = Nat.min (List.length a) (List.length b) /\
    (forall i x y,
        nth_error a i = Some x -> nth_error b i = Some y ->
        nth_error tmean i = Some (lift2 Qdiv (lift2 Qplus x y) (Some (2 # 1))) /\
        nth_error temp_range i = Some (lift2 Qminus x y)) /\
    (forall i x y,
        nth_error a i = Some (Some x) -> nth_error b i = Some (Some y) ->
        nth_error tmean i = Some (Some ((x + y) / (2 # 1))%Q) /\
        nth_error temp_range i = Some (Some (x - y)%Q)).
Proof.
  destruct add_basic_features_run
    as (t' & Hrun & Hn & Htm & Htr & _ & _ & _ & _ & Hother).
  exists t', (map (fun v => lift2 Qdiv v (Some (2 # 1))) (map2 (lift2 Qplus) a b)),
    (map2 (lift2 Qminus) a b).
  assert (Hrow : forall i x y,
             nth_error a i = Some x -> nth_error b i = Some y ->
             nth_error (map (fun v => lift2 Qdiv v (Some (2 # 1)))
                          (map2 (lift2 Qplus) a b)) i
             = Some (lift2 Qdiv (lift2 Qplus x y) (Some (2 # 1))) /\
             nth_error (map2 (lift2 Qminus) a b) i = Some (lift2 Qminus x y)).
  { intros i x y Hx Hy.
    rewrite nth_error_map, !nth_error_map2, Hx, Hy. split; reflexivity. }
  repeat split; auto.
  - now rewrite length_map, map2_length.
  - now rewrite map2_length.
  - now apply Hrow.
  - now apply Hrow.
  - now apply (Hrow i (Some x) (Some y)).
  - now apply (Hrow i (Some x) (Some y)).
Qed.

(** C6: the season column of [add_basic_features] holds, for every row,
    [_get_season] of the month of its date, and [_get_season] sends 12, 1, 2
    to Winter, 3, 4, 5 to Spring, 6, 7, 8 to Summer and 9, 10, 11 to Fall:
    one of the four values for every month. *)
Theorem season_of_month :
  exists t' season,
    add_basic_features r h = (Ok (List.length h), h ++ [t']) /\
    lookup "season" (columns t') = Some (StrCol season) /\
    List.length season = List.length d /\
    (forall i dt,
        nth_error d i = Some dt ->
        nth_error season i = Some (_get_season (ts_month dt))) /\
    (forall m : Z,
        (In m [12; 1; 2] -> _get_season m = "Winter") /\
        (In m [3; 4; 5] -> _get_season m = "Spring") /\
        (In m [6; 7; 8] -> _get_season m = "Summer") /\
        (In m [9; 10; 11] -> _get_season m = "Fall") /\
        In (_get_season m) ["Winter"; "Spring"; "Summer"; "Fall"]).
Proof.
  destruct add_basic_features_run
    as (t' & Hrun & _ & _ & _ & _ & _ & _ & Hs & _).
  exists t', (map _get_season (map ts_month d)).
  split; [exact Hrun|]. split; [exact Hs|].
  split; [now rewrite !length_map|].
  split.
  - intros i dt Hi. now rewrite !nth_error_map, Hi.
  - intros m. repeat split.
    + simpl. intros [<-|[<-|[<-|[]]]]; reflexivity.
    + simpl. intros [<-|[<-|[<-|[]]]]; reflexivity.
    + simpl. intros [<-|[<-|[<-|[]]]]; reflexivity.
    + simpl. intros [<-|[<-|[<-|[]]]]; reflexivity.
    + unfold _get_season.
      repeat match goal with
             | |- context [if ?c then _ else _] => destruct c
             end; simpl; tauto.
Qed.

End BasicFeatures.

(** ** The rolling smoother *)

Section RollingWindows.

Lemma dropna_map_Some (v : list Q) : dropna (map Some v) = v.
Proof. induction v as [|x v IH]; simpl; [reflexivity | now rewrite IH]. Qed.

Lemma odd_offset (k : nat) : ((2 * k + 1 - 1) / 2 = k)%nat.
Proof.
  replace (2 * k + 1 - 1)%nat with (k * 2)%nat by lia. apply Nat.div_mul. lia.
Qed.

(** Over complete observations the window of row [i] is full exactly when
    the row is not within [k] rows of an end. *)
Lemma window_values_Some (v : list Q) (k i : nat) :
  (i < List.length v)%nat ->
  exists w, window_values (map Some v) (2 * k + 1) i = map Some w /\
            ((2 * k + 1 <=? List.length w)%nat = negb (is_edge k (List.length v) i)).
Proof.
  intros Hi. unfold window_values, window_bounds.
  rewrite odd_offset, length_map.
  set (n := List.length v).
  exists (firstn (Nat.min (i + 1 + k) n - Nat.min (i + 1 + k - (2 * k + 1)) n)
            (skipn (Nat.min (i + 1 + k - (2 * k + 1)) n) v)).
  split.
  - now rewrite skipn_map, firstn_map.
  - rewrite length_firstn, length_skipn. fold n. unfold is_edge.
    destruct (Nat.leb_spec (2 * k + 1) (Nat.min
       (Nat.min (i + 1 + k) n - Nat.min (i + 1 + k - (2 * k + 1)) n)
       (n - Nat.min (i + 1 + k - (2 * k + 1)) n)));
      destruct (Nat.ltb_spec i k); destruct (Nat.leb_spec n (i + k));
      simpl; try reflexivity; lia.
Qed.

Lemma roll_mean_absent (v : list Q) (k i : nat) :
  (i < List.length v)%nat ->
  roll_mean (2 * k + 1) (window_values (map Some v) (2 * k + 1) i) = None <->
  is_edge k (List.length v) i = true.
Proof.
  intros Hi. destruct (window_values_Some v k i Hi) as (w & -> & Hw).
  unfold roll_mean. rewrite dropna_map_Some, Hw.
  destruct (is_edge k (List.length v) i); simpl.
  - tauto.
  - assert ((0 <? List.length w)%nat = true) as ->.
    { apply Nat.ltb_lt. simpl in Hw. apply Nat.leb_le in Hw. lia. }
    split; discriminate.
Qed.

Lemma roll_sum_absent (v : list Q) (k i : nat) :
  (i < List.length v)%nat ->
  roll_sum (2 * k + 1) (window_values (map Some v) (2 * k + 1) i) = None <->
  is_edge k (List.length v) i = true.
Proof.
  intros Hi. destruct (window_values_Some v k i Hi) as (w & -> & Hw).
  unfold roll_sum. rewrite dropna_map_Some, Hw.
  replace (2 * k + 1 =? 0)%nat with false by (symmetry; apply Nat.eqb_neq; lia).
  rewrite andb_false_r.
  destruct (is_edge k (List.length v) i); simpl.
  - tauto.
  - split; discriminate.
Qed.

Lemma filter_all {A} (p : A -> bool) (l : list A) :
  (forall x, In x l -> p x = true) -> filter p l = l.
Proof.
  induction l as [|x l IH]; simpl; intros Hp; [reflexivity|].
  rewrite (Hp x (or_introl eq_refl)), IH; auto.
Qed.

Lemma filter_none {A} (p : A -> bool) (l : list A) :
  (forall x, In x l -> p x = false) -> filter p l = [].
Proof.
  induction l as [|x l IH]; simpl; intros Hp; [reflexivity|].
  rewrite (Hp x (or_introl eq_refl)), IH; auto.
Qed.

Lemma count_edges (k n : nat) :
  List.length (filter (is_edge k n) (seq 0 n)) =
  if (2 * k + 1 <=? n)%nat then (2 * k)%nat else n.
Proof.
  destruct (Nat.leb_spec (2 * k + 1) n) as [Hn|Hn].
  - replace n with (k + ((n - 2 * k) + k))%nat at 2 by lia.
    rewrite !seq_app, !filter_app, !length_app. simpl.
    rewrite (filter_all _ (seq 0 k)), (filter_none _ (seq k (n - 2 * k))),
      (filter_all _ (seq (k + (n - 2 * k)) k)).
    + rewrite !length_seq. simpl. lia.
    + intros i Hi. apply in_seq in Hi. unfold is_edge.
      apply orb_true_iff. right. apply Nat.leb_le. lia.
    + intros i Hi. apply in_seq in Hi. unfold is_edge.
      apply orb_false_iff. split; [apply Nat.ltb_ge | apply Nat.leb_gt]; lia.
    + intros i Hi. apply in_seq in Hi. unfold is_edge.
      apply orb_true_iff. left. apply Nat.ltb_lt. lia.
  - rewrite filter_all, length_seq; [reflexivity|].
    intros i Hi. apply in_seq in Hi. unfold is_edge.
    apply orb_true_iff.
    destruct (Nat.ltb_spec i k); [now left | right; apply Nat.leb_le; lia].
Qed.

Lemma count_absent_map (g : nat -> option Q) (p : nat -> bool) (l : list nat) :
  (forall i, In i l -> (g i = None <-> p i = true)) ->
  count_absent (map g l) = List.length (filter p l).
Proof.
  unfold count_absent. induction l as [|i l IH]; simpl; intros Hg; [reflexivity|].
  assert (Hi := Hg i (or_introl eq_refl)).
  destruct (g i) as [q|], (p i); simpl.
  - destruct Hi as [_ Hi]. discriminate (Hi eq_refl).
  - apply IH; auto.
  - f_equal. apply IH; auto.
  - destruct Hi as [Hi _]. discriminate (Hi eq_refl).
Qed.

(** The absent entries of a centred rolling column over [n] complete
    observations, window [2k+1]: the first and the last [k] rows. *)
Lemma rolling_absent (f : nat -> list (option Q) -> option Q) (v : list Q) (k : nat) :
  (forall i, (i < List.length v)%nat ->
             f (2 * k + 1)%nat (window_values (map Some v) (2 * k + 1) i) = None <->
             is_edge k (List.length v) i = true) ->
  let out := rolling_apply f (map Some v) (2 * k + 1) in
  List.length out = List.length v /\
  (forall i, (i < List.length v)%nat ->
             (nth_error out i = Some None <-> (i < k \/ List.length v <= i + k)%nat)) /\
  count_absent out =
    (if (2 * k + 1 <=? List.length v)%nat then (2 * k)%nat else List.length v).
Proof.
  intros Hf out. unfold out, rolling_apply. rewrite !length_map, length_seq.
  split; [reflexivity|]. split.
  - intros i Hi. rewrite nth_error_map, nth_error_seq.
    destruct (Nat.ltb_spec i (List.length v)); [|lia]. cbn [option_map Nat.add].
    specialize (Hf i Hi). unfold is_edge in Hf.
    rewrite orb_true_iff, Nat.ltb_lt, Nat.leb_le in Hf.
    split.
    + intros [= Hnone]. now apply Hf.
    + intros Hedge. f_equal. now apply Hf.
  - rewrite <- count_edges. apply count_absent_map.
    intros i Hi. apply in_seq in Hi. apply Hf. lia.
Qed.

Lemma rolling_mean_float (xs : list (option Q)) (window : Z) :
  0 <= window ->
  rolling_mean (NumCol xs) window =
  Ok (NumCol (rolling_apply roll_mean xs (Z.to_nat window))).
Proof.
  intros Hw. unfold rolling_mean.
  destruct (Z.ltb_spec window 0); [lia | reflexivity].
Qed.

Lemma rolling_sum_float (xs : list (option Q)) (window : Z) :
  0 <= window ->
  rolling_sum (NumCol xs) window =
  Ok (NumCol (rolling_apply roll_sum xs (Z.to_nat window))).
Proof.
  intros Hw. unfold rolling_sum.
  destruct (Z.ltb_spec window 0); [lia | reflexivity].
Qed.

End RollingWindows.

Section RollingAverages.

Variables (h : store) (r : ref) (t : DataFrame).
Variables (x1 x2 x3 x4 : list (option Q)) (window : Z).
Hypothesis Hr : nth_error h r = Some t.
Hypothesis H1 : lookup "tmean" (columns t) = Some (NumCol x1).
Hypothesis H2 : lookup "tmax" (columns t) = Some (NumCol x2).
Hypothesis H3 : lookup "tmin" (columns t) = Some (NumCol x3).
Hypothesis H4 : lookup "precipitation" (columns t) = Some (NumCol x4).
Hypothesis Hw : 0 <= window.

Lemma add_rolling_averages_run :
  exists t',
    add_rolling_averages r window h = (Ok (List.length h), h ++ [t']) /\
    nrows t' = nrows t /\
    lookup "tmean_7d" (columns t') =
      Some (NumCol (rolling_apply roll_mean x1 (Z.to_nat window))) /\
    lookup "tmax_7d" (columns t') =
      Some (NumCol (rolling_apply roll_mean x2 (Z.to_nat window))) /\
    lookup "tmin_7d" (columns t') =
      Some (NumCol (rolling_apply roll_mean x3 (Z.to_nat window))) /\
    lookup "precip_7d" (columns t') =
      Some (NumCol (rolling_apply roll_sum x4 (Z.to_nat window))) /\
    (forall name, ~ In name rolling_columns ->
                  lookup name (columns t') = lookup name (columns t)).
Proof.
  unfold add_rolling_averages.
  run_copy Hr.
  repeat (first [ run_step
                | rewrite rolling_mean_float by assumption
                | rewrite rolling_sum_float by assumption ]; cbn beta iota).
  eexists. split; [reflexivity|].
  repeat split; try (use_lookups; reflexivity).
  intros name Hn. rewrite !lookup_set_column.
  unfold rolling_columns in Hn. other_name Hn. reflexivity.
Qed.

End RollingAverages.

Lemma all_absent_positions (col : list (option Q)) :
  (forall i, (i < List.length col)%nat -> nth_error col i = Some None) ->
  all_absent col.
Proof.
  intros Hall. apply Forall_forall. intros x Hx.
  destruct (In_nth_error _ _ Hx) as [i Hi].
  assert (Hlt : (i < List.length col)%nat) by (apply nth_error_Some; congruence).
  rewrite (Hall i Hlt) in Hi. congruence.
Qed.

(** C2, amended: over complete observations and an odd window [2k+1],
    [add_rolling_averages] gives each of its four columns an absent entry
    exactly at the first [k] and the last [k] rows; that is [2k] absent
    entries when the table has at least [2k+1] rows (the centre row of a
    table of exactly [2k+1] rows is defined), and every entry is absent when
    it has fewer. *)
Theorem rolling_absent_entries
    (h : store) (r : ref) (t : DataFrame) (v1 v2 v3 v4 : list Q) (k : nat) :
  nth_error h r = Some t ->
  lookup "tmean" (columns t) = Some (NumCol (map Some v1)) ->
  lookup "tmax" (columns t) = Some (NumCol (map Some v2)) ->
  lookup "tmin" (columns t) = Some (NumCol (map Some v3)) ->
  lookup "precipitation" (columns t) = Some (NumCol (map Some v4)) ->
  List.length v1 = nrows t -> List.length v2 = nrows t ->
  List.length v3 = nrows t -> List.length v4 = nrows t ->
  exists t',
    add_rolling_averages r (2 * Z.of_nat k + 1) h = (Ok (List.length h), h ++ [t']) /\
    nrows t' = nrows t /\
    forall name,
      In name rolling_columns ->
      exists col,
        lookup name (columns t') = Some (NumCol col) /\
        List.length col = nrows t /\
        (forall i, (i < nrows t)%nat ->
                   (nth_error col i = Some None <-> (i < k \/ nrows t <= i + k)%nat)) /\
        ((2 * k + 1 <= nrows t)%nat -> count_absent col = (2 * k)%nat) /\
        ((nrows t < 2 * k + 1)%nat -> all_absent col).
Proof.
  intros Hr H1 H2 H3 H4 L1 L2 L3 L4.
  assert (Hw : 0 <= 2 * Z.of_nat k + 1) by lia.
  destruct (add_rolling_averages_run h r t _ _ _ _ _ Hr H1 H2 H3 H4 Hw)
    as (t' & Hrun & Hn & C1 & C2 & C3 & C4 & _).
  replace (Z.to_nat (2 * Z.of_nat k + 1)) with (2 * k + 1)%nat in * by lia.
  exists t'. split; [exact Hrun|]. split; [exact Hn|].
  assert (Hcol : forall f v,
             List.length v = nrows t ->
             (forall i, (i < List.length v)%nat ->
                f (2 * k + 1)%nat (window_values (map Some v) (2 * k + 1) i) = None <->
                is_edge k (List.length v) i = true) ->
             let col := rolling_apply f (map Some v) (2 * k + 1) in
             List.length col = nrows t /\
             (forall i, (i < nrows t)%nat ->
                (nth_error col i = Some None <-> (i < k \/ nrows t <= i + k)%nat)) /\
             ((2 * k + 1 <= nrows t)%nat -> count_absent col = (2 * k)%nat) /\
             ((nrows t < 2 * k + 1)%nat -> all_absent col)).
  { intros f v L Hf col.
    destruct (rolling_absent f v k Hf) as (Hlen & Hpos & Hcount).
    fold col in Hlen, Hpos, Hcount. rewrite L in *.
    split; [exact Hlen|]. split; [exact Hpos|]. split.
    - intros Hge. rewrite Hcount.
      destruct (Nat.leb_spec (2 * k + 1) (nrows t)); [reflexivity | lia].
    - intros Hlt. apply all_absent_positions. intros i Hi.
      rewrite Hlen in Hi. apply Hpos; [exact Hi | lia]. }
  intros name [<-|[<-|[<-|[<-|[]]]]]; eexists; (split; [eassumption|]).
  - apply (Hcol roll_mean v1 L1). intros i. apply roll_mean_absent.
  - apply (Hcol roll_mean v2 L2). intros i. apply roll_mean_absent.
  - apply (Hcol roll_mean v3 L3). intros i. apply roll_mean_absent.
  - apply (Hcol roll_sum v4 L4). intros i. apply roll_sum_absent.
Qed.

(** C2 as stated fails on a table of exactly [window] rows: the centre row
    of [week_table] has a full window of seven days, so its rolling mean is
    defined. *)
Lemma rolling_claim_fails_at_window_rows : ~ rolling_claim_as_stated week_table 7.
Proof.
  intros Hclaim.
  destruct (Hclaim
              (set_column "precip_7d" (NumCol [None; None; None; Some (7 # 1); None; None; None])
                 (set_column "tmin_7d" (NumCol [None; None; None; Some (0 # 7); None; None; None])
                    (set_column "tmax_7d" (NumCol [None; None; None; Some (70 # 7); None; None; None])
                       (set_column "tmean_7d" (NumCol [None; None; None; Some (35 # 7); None; None; None])
                          week_table))))
              "tmean_7d"
              [None; None; None; Some (35 # 7); None; None; None])
    as [_ Hall].
  - vm_compute. reflexivity.
  - simpl. tauto.
  - reflexivity.
  - assert (Hrows : Z.of_nat (nrows week_table) <= 7) by (simpl; lia).
    specialize (Hall Hrows). unfold all_absent in Hall.
    rewrite Forall_forall in Hall.
    specialize (Hall (Some (35 # 7))). simpl in Hall.
    assert (Some (35 # 7) = @None Q) by (apply Hall; tauto).
    discriminate.
Qed.

(** ** Frame: a stage writes only to the objects it creates *)

Section Frame.

Variable n : nat.

Lemma wa_ret {A} (a : A) (P : A -> Prop) : P a -> writes_above n (ret a) P.
Proof. intros Ha h Hn. simpl. auto. Qed.

Lemma wa_lift {A} (x : result A) : writes_above n (lift x) (fun _ => True).
Proof. intros h Hn. simpl. repeat split; auto. now destruct x. Qed.

Lemma wa_raise {A} (e : exn) (P : A -> Prop) : writes_above n (raise e) P.
Proof. intros h Hn. simpl. auto. Qed.

Lemma wa_bind {A B} (c : M A) (k : A -> M B) (P : A -> Prop) (P' : B -> Prop) :
  writes_above n c P ->
  (forall a, P a -> writes_above n (k a) P') ->
  writes_above n (bind c k) P'.
Proof.
  intros Hc Hk h Hn. unfold bind.
  destruct (Hc h Hn) as (Hkeep & Hlen & Hres).
  destruct (c h) as [[a|e] h1]; simpl in *.
  - destruct (Hk a Hres h1 ltac:(lia)) as (Hkeep' & Hlen' & Hres').
    split; [|split].
    + intros r Hlt. now rewrite Hkeep', Hkeep.
    + lia.
    + exact Hres'.
  - auto.
Qed.

Lemma wa_deref (r : ref) : writes_above n (deref r) (fun _ => True).
Proof.
  intros h Hn. unfold deref. destruct (nth_error h r); simpl; auto.
Qed.

Lemma wa_alloc (df : DataFrame) : writes_above n (alloc df) (fun r' => (n <= r')%nat).
Proof.
  intros h Hn. unfold alloc. simpl. split; [|split].
  - intros r Hlt. apply nth_error_app1. lia.
  - rewrite length_app. simpl. lia.
  - exact Hn.
Qed.

Lemma wa_copy (r : ref) : writes_above n (copy r) (fun r' => (n <= r')%nat).
Proof.
  unfold copy. eapply wa_bind; [apply wa_deref|]. intros df _. apply wa_alloc.
Qed.

Lemma wa_getitem (r : ref) (name : string) :
  writes_above n (getitem r name) (fun _ => True).
Proof.
  unfold getitem. eapply wa_bind; [apply wa_deref|]. intros df _.
  destruct (lookup name (columns df)); [now apply wa_ret | apply wa_raise].
Qed.

Lemma wa_contains (r : ref) (name : string) :
  writes_above n (contains r name) (fun _ => True).
Proof.
  unfold contains. eapply wa_bind; [apply wa_deref|]. intros df _. now apply wa_ret.
Qed.

Lemma wa_setitem (r : ref) (name : string) (c : column) :
  (n <= r)%nat -> writes_above n (setitem r name c) (fun _ => True).
Proof.
  intros Hr. unfold setitem. eapply wa_bind; [apply wa_deref|]. intros df _.
  intros h Hn. simpl. split; [|split].
  - intros r' Hlt. apply update_other. lia.
  - now rewrite update_length.
  - exact I.
Qed.

Lemma wa_drop (r : ref) (name : string) :
  writes_above n (drop r name) (fun r' => (n <= r')%nat).
Proof.
  unfold drop. eapply wa_bind; [apply wa_deref|]. intros df _.
  destruct (lookup name (columns df)); [apply wa_alloc | apply wa_raise].
Qed.

Lemma wa_groupby_transform_mean (r : ref) (by_ col : string) :
  writes_above n (groupby_transform_mean r by_ col) (fun _ => True).
Proof.
  unfold groupby_transform_mean.
  eapply wa_bind; [apply wa_getitem|]. intros k _.
  eapply wa_bind; [apply wa_getitem|]. intros x _.
  destruct (as_float x); [now apply wa_ret | apply wa_raise].
Qed.

Lemma wa_groupby_agg (r : ref) (by_ : string) (rules : list (string * rule)) :
  writes_above n (groupby_agg r by_ rules) (fun r' => (n <= r')%nat).
Proof.
  unfold groupby_agg.
  eapply wa_bind; [apply wa_getitem|]. intros k _.
  eapply wa_bind; [apply wa_deref|]. intros df _.
  destruct k; try apply wa_raise.
  destruct (missing_column rules (columns df)); [apply wa_raise|].
  eapply wa_bind; [apply wa_lift|]. intros out _. apply wa_alloc.
Qed.

End Frame.

Ltac frame_step :=
  eapply wa_bind;
  [ first [ apply wa_copy | apply wa_getitem | apply wa_lift | apply wa_contains
          | apply wa_groupby_transform_mean | apply wa_groupby_agg | apply wa_drop
          | apply wa_setitem; assumption ]
  | intros ? ? ].

Section FrameOfStages.

Variables (n : nat) (df : ref).

Lemma add_basic_features_frame :
  writes_above n (add_basic_features df) (fun r' => (n <= r')%nat).
Proof. unfold add_basic_features. repeat frame_step. now apply wa_ret. Qed.

Lemma add_rolling_averages_frame (window : Z) :
  writes_above n (add_rolling_averages df window) (fun r' => (n <= r')%nat).
Proof. unfold add_rolling_averages. repeat frame_step. now apply wa_ret. Qed.

Lemma add_temperature_anomalies_frame :
  writes_above n (add_temperature_anomalies df) (fun r' => (n <= r')%nat).
Proof. unfold add_temperature_anomalies. repeat frame_step. now apply wa_ret. Qed.

Lemma aggregate_monthly_frame :
  writes_above n (aggregate_monthly df) (fun r' => (n <= r')%nat).
Proof. unfold aggregate_monthly. repeat frame_step. now apply wa_ret. Qed.

Lemma detect_extreme_events_frame (temp_threshold precip_threshold : Q) :
  writes_above n (detect_extreme_events df temp_threshold precip_threshold)
    (fun r' => (n <= r')%nat).
Proof.
  unfold detect_extreme_events. do 2 frame_step.
  eapply wa_bind with (P := fun _ => True).
  - destruct a0; repeat frame_step; now apply wa_setitem.
  - intros _ _. repeat frame_step. now apply wa_ret.
Qed.

End FrameOfStages.

Lemma writes_above_leaves_input (stage : ref -> M ref) :
  (forall n df, writes_above n (stage df) (fun r' => (n <= r')%nat)) ->
  leaves_input stage.
Proof.
  intros Hstage h r t res h' Hr Hrun.
  assert (Hlt : (r < List.length h)%nat) by (apply nth_error_Some; congruence).
  destruct (Hstage (List.length h) r h (Nat.le_refl _)) as (Hkeep & _ & Hres).
  rewrite Hrun in Hkeep, Hres. simpl in Hkeep, Hres.
  split.
  - now rewrite Hkeep.
  - intros r' ->. split; [exact Hres | lia].
Qed.

Section ReadOnly.

Lemma ro_ret {A} (a : A) : read_only (ret a).
Proof. intros h. reflexivity. Qed.

Lemma ro_lift {A} (x : result A) : read_only (lift x).
Proof. intros h. reflexivity. Qed.

Lemma ro_bind {A B} (c : M A) (k : A -> M B) :
  read_only c -> (forall a, read_only (k a)) -> read_only (bind c k).
Proof.
  intros Hc Hk h. unfold bind. specialize (Hc h).
  destruct (c h) as [[a|e] h1]; simpl in *; subst; [apply Hk | reflexivity].
Qed.

Lemma ro_deref (r : ref) : read_only (deref r).
Proof. intros h. unfold deref. now destruct (nth_error h r). Qed.

Lemma ro_getitem (r : ref) (name : string) : read_only (getitem r name).
Proof.
  unfold getitem. apply ro_bind; [apply ro_deref|]. intros df h.
  now destruct (lookup name (columns df)).
Qed.

Lemma ro_len (r : ref) : read_only (len r).
Proof. unfold len. apply ro_bind; [apply ro_deref|]. intros df. apply ro_ret. Qed.

Lemma calculate_statistics_read_only (df : ref) : read_only (calculate_statistics df).
Proof.
  unfold calculate_statistics.
  repeat (apply ro_bind;
          [ first [ apply ro_len | apply ro_getitem | apply ro_lift ] | intros ? ]).
  apply ro_ret.
Qed.

End ReadOnly.

(** C9: each of the five stages leaves the table it is given as it was,
    on every store and whether it returns or raises, and returns an object
    that did not exist before; [calculate_statistics] changes no object at
    all. *)
Theorem stages_leave_input_unchanged :
  leaves_input add_basic_features /\
  (forall window, leaves_input (fun df => add_rolling_averages df window)) /\
  leaves_input add_temperature_anomalies /\
  leaves_input aggregate_monthly /\
  (forall temp_threshold precip_threshold,
      leaves_input (fun df => detect_extreme_events df temp_threshold precip_threshold)) /\
  (forall df h, snd (calculate_statistics df h) = h).
Proof.
  split; [|split; [|split; [|split; [|split]]]].
  - apply writes_above_leaves_input. intros n df. apply add_basic_features_frame.
  - intros window. apply writes_above_leaves_input. intros n df.
    apply add_rolling_averages_frame.
  - apply writes_above_leaves_input. intros n df. apply add_temperature_anomalies_frame.
  - apply writes_above_leaves_input. intros n df. apply aggregate_monthly_frame.
  - intros tt pt. apply writes_above_leaves_input. intros n df.
    apply detect_extreme_events_frame.
  - intros df h. apply calculate_statistics_read_only.
Qed.

(** ** The anomaly engine *)

Section Anomalies.

Lemma groupby_transform_mean_last (h : store) (t : DataFrame) (by_ col : string) :
  groupby_transform_mean (List.length h) by_ col (h ++ [t]) =
  (match lookup by_ (columns t) with
   | None => Raise (KeyError by_)
   | Some k =>
       match lookup col (columns t) with
       | None => Raise (KeyError col)
       | Some x =>
           match as_float x with
           | Some xs => Ok (NumCol (transform_mean (row_keys k) xs))
           | None => Raise TypeError
           end
       end
   end, h ++ [t]).
Proof.
  unfold groupby_transform_mean.
  rewrite bind_run, getitem_last.
  destruct (lookup by_ (columns t)) as [k|]; [|reflexivity].
  rewrite bind_run, getitem_last.
  destruct (lookup col (columns t)) as [x|]; [|reflexivity].
  destruct (as_float x); reflexivity.
Qed.

Variables (h : store) (r : ref) (t : DataFrame).
Variables (months : column) (xs : list (option Q)).
Hypothesis Hr : nth_error h r = Some t.
Hypothesis Hm : lookup "month" (columns t) = Some months.
Hypothesis Hx : lookup "tmean" (columns t) = Some (NumCol xs).

Lemma add_temperature_anomalies_run :
  let climate := transform_mean (row_keys months) xs in
  let anomaly := map2 (lift2 Qminus) xs climate in
  exists t',
    add_temperature_anomalies r h = (Ok (List.length h), h ++ [t']) /\
    nrows t' = nrows t /\
    lookup "monthly_climate" (columns t') = Some (NumCol climate) /\
    lookup "temp_anomaly" (columns t') = Some (NumCol anomaly) /\
    lookup "anomaly_category" (columns t') =
      Some (CatCol (map (cut_value anomaly_bins anomaly_labels) anomaly)) /\
    (forall name, ~ In name anomaly_columns ->
                  lookup name (columns t') = lookup name (columns t)).
Proof.
  intros climate anomaly. unfold add_temperature_anomalies.
  run_copy Hr.
  rewrite bind_run, groupby_transform_mean_last, Hm, Hx. cbn [as_float]. cbn beta iota.
  repeat run_step.
  eexists. split; [reflexivity|].
  repeat split; try (use_lookups; reflexivity).
  intros name Hn. rewrite !lookup_set_column.
  unfold anomaly_columns in Hn. other_name Hn. reflexivity.
Qed.

End Anomalies.

(** [pd.cut] on the anomaly bins: every bin is closed on the right. *)
Lemma cut_value_anomaly (x : Q) :
  cut_value anomaly_bins anomaly_labels (Some x) =
  Some (if Qle_bool x (-2 # 1) then "Very Cold"
        else if Qle_bool x (-1 # 1) then "Cold"
        else if Qle_bool x (1 # 1) then "Normal"
        else if Qle_bool x (2 # 1) then "Warm"
        else "Very Warm").
Proof.
  unfold cut_value, anomaly_bins, anomaly_labels.
  cbn [searchsorted_left bound_ltb]. unfold Qltb.
  destruct (Qle_bool x (-2 # 1)); [reflexivity|].
  destruct (Qle_bool x (-1 # 1)); [reflexivity|].
  destruct (Qle_bool x (1 # 1)); [reflexivity|].
  destruct (Qle_bool x (2 # 1)); reflexivity.
Qed.

Lemma Qle_bool_false (x y : Q) : Qle_bool x y = false <-> (y < x)%Q.
Proof.
  split.
  - intros Hf. apply Qnot_le_lt. intros Hle.
    apply Qle_bool_iff in Hle. congruence.
  - intros Hlt. destruct (Qle_bool x y) eqn:E; [|reflexivity].
    apply Qle_bool_iff in E. exfalso. now apply (Qlt_not_le y x).
Qed.

(** C1, amended: [anomaly_category] is determined by [temp_anomaly] through
    bins closed on the right: Very Cold when [x <= -2], Cold when
    [-2 < x <= -1], Normal when [-1 < x <= 1], Warm when [1 < x <= 2], Very
    Warm when [2 < x]; a NaN anomaly has no category. *)
Theorem anomaly_category_bins
    (h : store) (r : ref) (t : DataFrame) (months : column) (xs : list (option Q)) :
  nth_error h r = Some t ->
  lookup "month" (columns t) = Some months ->
  lookup "tmean" (columns t) = Some (NumCol xs) ->
  exists t' anomaly category,
    add_temperature_anomalies r h = (Ok (List.length h), h ++ [t']) /\
    lookup "temp_anomaly" (columns t') = Some (NumCol anomaly) /\
    lookup "anomaly_category" (columns t') = Some (CatCol category) /\
    List.length category = List.length anomaly /\
    (forall i, nth_error anomaly i = Some None -> nth_error category i = Some None) /\
    (forall i x,
        nth_error anomaly i = Some (Some x) ->
        ((x <= -2 # 1)%Q -> nth_error category i = Some (Some "Very Cold")) /\
        ((-2 # 1 < x)%Q /\ (x <= -1 # 1)%Q -> nth_error category i = Some (Some "Cold")) /\
        ((-1 # 1 < x)%Q /\ (x <= 1 # 1)%Q -> nth_error category i = Some (Some "Normal")) /\
        ((1 # 1 < x)%Q /\ (x <= 2 # 1)%Q -> nth_error category i = Some (Some "Warm")) /\
        ((2 # 1 < x)%Q -> nth_error category i = Some (Some "Very Warm"))).
Proof.
  intros Hr Hm Hx.
  destruct (add_temperature_anomalies_run h r t months xs Hr Hm Hx)
    as (t' & Hrun & _ & _ & Ha & Hc & _).
  eexists t', _, _. split; [exact Hrun|]. split; [exact Ha|]. split; [exact Hc|].
  split; [now rewrite length_map|]. split.
  - intros i Hi. now rewrite nth_error_map, Hi.
  - intros i x Hi. rewrite nth_error_map, Hi. cbn [option_map].
    rewrite cut_value_anomaly.
    destruct (Qle_bool x (-2 # 1)) eqn:E1;
      [apply Qle_bool_iff in E1 | apply Qle_bool_false in E1];
    (destruct (Qle_bool x (-1 # 1)) eqn:E2;
      [apply Qle_bool_iff in E2 | apply Qle_bool_false in E2]);
    (destruct (Qle_bool x (1 # 1)) eqn:E3;
      [apply Qle_bool_iff in E3 | apply Qle_bool_false in E3]);
    (destruct (Qle_bool x (2 # 1)) eqn:E4;
      [apply Qle_bool_iff in E4 | apply Qle_bool_false in E4]);
    repeat split; intros; try reflexivity; exfalso;
      unfold Qle, Qlt in *; simpl in *; lia.
Qed.

(** C1 as stated fails at the bin edges: the first row of
    [two_day_table] has anomaly -2 and is Very Cold, not Cold. *)
Lemma anomaly_bins_left_closed_fails : ~ anomaly_bins_as_stated two_day_table.
Proof.
  intros Hclaim.
  destruct (Hclaim
              (set_column "anomaly_category" (CatCol [Some "Very Cold"; Some "Warm"])
                 (set_column "monthly_climate" (NumCol [Some (4 # 2); Some (4 # 2)])
                    (set_column "temp_anomaly" (NumCol [Some (-4 # 2); Some (4 # 2)])
                       two_day_table)))
              [Some (-4 # 2); Some (4 # 2)]
              [Some "Very Cold"; Some "Warm"]
              0%nat (-4 # 2))
    as (_ & Hcold & _).
  - vm_compute. reflexivity.
  - reflexivity.
  - reflexivity.
  - reflexivity.
  - assert (Hin : (-2 # 1 <= -4 # 2)%Q /\ (-4 # 2 < -1 # 1)%Q)
      by (unfold Qle, Qlt; simpl; lia).
    specialize (Hcold Hin). discriminate.
Qed.

(** ** Anomalies cancel within a month *)

Section GroupKeys.

Lemma timestamp_eqb_eq (a b : Timestamp) : timestamp_eqb a b = true <-> a = b.
Proof.
  unfold timestamp_eqb. rewrite !andb_true_iff, !Z.eqb_eq.
  destruct a, b; simpl. split.
  - intros [[-> ->] ->]. reflexivity.
  - intros [= -> -> ->]. auto.
Qed.

Lemma key_eqb_refl (k : key) : key_eqb k k = true.
Proof.
  destruct k; simpl.
  - apply Qeq_bool_iff. reflexivity.
  - apply Z.eqb_refl.
  - apply Bool.eqb_reflx.
  - now apply timestamp_eqb_eq.
  - apply Z.eqb_refl.
  - apply String.eqb_refl.
Qed.

Lemma key_eqb_sym (a b : key) : key_eqb a b = true -> key_eqb b a = true.
Proof.
  destruct a, b; simpl; try discriminate.
  - rewrite !Qeq_bool_iff. intros H. now symmetry.
  - rewrite !Z.eqb_eq. congruence.
  - rewrite !Bool.eqb_true_iff. congruence.
  - rewrite !timestamp_eqb_eq. congruence.
  - rewrite !Z.eqb_eq. congruence.
  - rewrite !String.eqb_eq. congruence.
Qed.

Lemma key_eqb_trans (a b c : key) :
  key_eqb a b = true -> key_eqb b c = true -> key_eqb a c = true.
Proof.
  destruct a, b, c; simpl; try discriminate.
  - rewrite !Qeq_bool_iff. intros H1 H2. now rewrite H1.
  - rewrite !Z.eqb_eq. congruence.
  - rewrite !Bool.eqb_true_iff. congruence.
  - rewrite !timestamp_eqb_eq. congruence.
  - rewrite !Z.eqb_eq. congruence.
  - rewrite !String.eqb_eq. congruence.
Qed.

(** Two equal keys select the same rows. *)
Lemma in_group_eqb (k k' : key) (ko : option key) :
  key_eqb k k' = true -> in_group k ko = in_group k' ko.
Proof.
  intros Hk. destruct ko as [k2|]; [|reflexivity]. simpl.
  destruct (key_eqb k k2) eqn:E1, (key_eqb k' k2) eqn:E2; try reflexivity.
  - rewrite (key_eqb_trans k' k k2 (key_eqb_sym _ _ Hk) E1) in E2. discriminate.
  - rewrite (key_eqb_trans k k' k2 Hk E2) in E1. discriminate.
Qed.

End GroupKeys.

Section SumsOfDeviations.

Lemma filter_map_comm {A B} (p : B -> bool) (f : A -> B) (l : list A) :
  filter p (map f l) = map f (filter (fun x => p (f x)) l).
Proof.
  induction l as [|x l IH]; simpl; [reflexivity|].
  destruct (p (f x)); simpl; now rewrite IH.
Qed.

Lemma map2_map_keys {K} (f : option Q -> option Q -> option Q)
    (g : K -> option Q) (xs : list (option Q)) (ks : list K) :
  map2 f xs (map g ks) = map (fun p => f (snd p) (g (fst p))) (combine ks xs).
Proof.
  unfold map2. revert ks. induction xs as [|x xs IH]; intros [|k ks]; simpl;
    try reflexivity.
  now rewrite IH.
Qed.

Lemma combine_map_rows {K V W} (g : K * V -> W) (ks : list K) (xs : list V) :
  combine ks (map g (combine ks xs)) = map (fun p => (fst p, g p)) (combine ks xs).
Proof.
  revert xs. induction ks as [|k ks IH]; intros [|x xs]; simpl; try reflexivity.
  now rewrite IH.
Qed.

Lemma Qsum_deviations (v : list Q) (m : Q) :
  (Qsum (map (fun x => x - m) v) == Qsum v - Qcount v * m)%Q.
Proof.
  unfold Qcount. induction v as [|x v IH].
  - simpl. ring.
  - cbn [map Qsum fold_right List.length]. fold (Qsum (map (fun x => x - m)%Q v)).
    fold (Qsum v). rewrite IH, Nat2Z.inj_succ. unfold Z.succ.
    rewrite inject_Z_plus. ring.
Qed.

Lemma dropna_deviations (g : list (option Q)) (m : Q) :
  dropna (map (fun x => lift2 Qminus x (Some m)) g) = map (fun x => (x - m)%Q) (dropna g).
Proof.
  induction g as [|[x|] g IH]; simpl; [reflexivity | now rewrite IH | exact IH].
Qed.

Lemma dropna_all_nan (g : list (option Q)) :
  dropna (map (fun x => lift2 Qminus x None) g) = [].
Proof.
  induction g as [|[x|] g IH]; simpl; auto.
Qed.

(** The deviations of a group from its own mean sum to zero. *)
Lemma deviations_from_mean_cancel (g : list (option Q)) :
  (Qsum (dropna (map (fun x => lift2 Qminus x (nanmean g)) g)) == 0)%Q.
Proof.
  unfold nanmean. destruct (dropna g) as [|x v] eqn:E.
  - rewrite dropna_all_nan. reflexivity.
  - rewrite dropna_deviations, E, Qsum_deviations.
    assert (Hc : ~ (Qcount (x :: v) == 0)%Q).
    { unfold Qcount, Qeq. simpl. lia. }
    field. exact Hc.
Qed.

End SumsOfDeviations.

Section AnomaliesCancel.

Lemma group_values_eqb {A} (k k' : key) (keys : list (option key)) (xs : list A) :
  key_eqb k k' = true -> group_values k' keys xs = group_values k keys xs.
Proof.
  intros Hk. unfold group_values. f_equal. apply filter_ext.
  intros p. symmetry. now apply in_group_eqb.
Qed.

(** The anomalies of the rows of one group are the deviations of the
    group's values from the group's mean. *)
Lemma group_anomalies (k : key) (keys : list (option key)) (xs : list (option Q)) :
  group_values k keys (map2 (lift2 Qminus) xs (transform_mean keys xs)) =
  map (fun x => lift2 Qminus x (nanmean (group_values k keys xs)))
    (group_values k keys xs).
Proof.
  unfold transform_mean. rewrite map2_map_keys.
  remember (nanmean (group_values k keys xs)) as m eqn:Em.
  unfold group_values. rewrite combine_map_rows, filter_map_comm, !map_map.
  cbn [fst snd]. apply map_ext_in.
  intros [ko x] Hin. apply filter_In in Hin. destruct Hin as [_ Hg].
  cbn [fst snd] in *. destruct ko as [k'|]; [|discriminate].
  simpl in Hg. fold (group_values k' keys xs).
  now rewrite (group_values_eqb k k'), Em.
Qed.

Lemma filter_twice {A} (p q : A -> bool) (l : list A) :
  filter p (filter q l) = filter (fun x => p x && q x) l.
Proof.
  induction l as [|x l IH]; simpl; [reflexivity|].
  destruct (q x); simpl; rewrite IH, ?andb_false_r, ?andb_true_r; reflexivity.
Qed.

Lemma rows_sum_split (p : option key * option Q -> bool)
    (rows : list (option key * option Q)) :
  (rows_sum rows ==
   rows_sum (filter p rows) + rows_sum (filter (fun x => negb (p x)) rows))%Q.
Proof.
  unfold rows_sum. induction rows as [|[ko [x|]] rows IH]; simpl.
  - reflexivity.
  - destruct (p (ko, Some x)); simpl; rewrite IH; ring.
  - destruct (p (ko, None)); simpl; exact IH.
Qed.

(** If the rows of every group sum to zero, and a row in no group holds
    no value, the whole column sums to zero. *)
Lemma rows_sum_by_group (n : nat) :
  forall rows : list (option key * option Q),
    (List.length rows <= n)%nat ->
    (forall k, rows_sum (filter (row_in k) rows) == 0)%Q ->
    (forall p, In p rows -> fst p = None -> snd p = None) ->
    (rows_sum rows == 0)%Q.
Proof.
  induction n as [|n IH]; intros rows Hlen Hgroups Hnan.
  - destruct rows; [reflexivity | simpl in Hlen; lia].
  - destruct rows as [|[[k|] x] rows]; [reflexivity | |].
    + rewrite (rows_sum_split (row_in k)), (Hgroups k), Qplus_0_l.
      set (rest := filter (fun p => negb (row_in k p)) ((Some k, x) :: rows)).
      apply IH.
      * unfold rest. simpl. unfold row_in at 1. simpl. rewrite key_eqb_refl. simpl.
        pose proof (filter_length_le (fun p => negb (row_in k p)) rows).
        simpl in Hlen. lia.
      * intros k'. unfold rest. rewrite filter_twice.
        destruct (key_eqb k k') eqn:E.
        -- rewrite filter_none; [reflexivity|].
           intros p _. unfold row_in. rewrite (in_group_eqb k k' _ E).
           now destruct (in_group k' (fst p)).
        -- rewrite (filter_ext _ (row_in k')); [apply Hgroups|].
           intros [[k2|] y]; unfold row_in; simpl; [|reflexivity].
           destruct (key_eqb k' k2) eqn:E1; [|reflexivity].
           destruct (key_eqb k k2) eqn:E2; [|reflexivity].
           rewrite (key_eqb_trans k k2 k' E2 (key_eqb_sym _ _ E1)) in E. discriminate.
      * intros p Hp. apply Hnan. unfold rest in Hp. apply filter_In in Hp. tauto.
    + assert (x = None) as -> by (apply (Hnan (None, x)); simpl; auto).
      change (rows_sum ((None, None) :: rows)) with (rows_sum rows).
      apply IH.
      * simpl in Hlen. lia.
      * intros k. specialize (Hgroups k). exact Hgroups.
      * intros p Hp. apply Hnan. now right.
Qed.

End AnomaliesCancel.

Lemma anomaly_rows (keys : list (option key)) (xs : list (option Q)) :
  let anomaly := map2 (lift2 Qminus) xs (transform_mean keys xs) in
  let rows := combine keys anomaly in
  map snd rows = anomaly /\
  (forall k, map snd (filter (row_in k) rows) = group_values k keys anomaly) /\
  (forall p, In p rows -> fst p = None -> snd p = None).
Proof.
  intros anomaly rows. unfold rows, anomaly, transform_mean.
  rewrite map2_map_keys, combine_map_rows. repeat split.
  - rewrite map_map. reflexivity.
  - intros k. unfold group_values. rewrite combine_map_rows. reflexivity.
  - intros p Hp Hnone. apply in_map_iff in Hp. destruct Hp as ([ko x] & <- & _).
    cbn [fst snd] in *. subst ko. now destruct x.
Qed.

Section RowsOfAMonth.

Lemma In_dropna (x : Q) (xs : list (option Q)) : In x (dropna xs) <-> In (Some x) xs.
Proof.
  unfold dropna. rewrite in_flat_map. split.
  - intros ([y|] & Hin & Hx); simpl in Hx; [|tauto].
    destruct Hx as [<-|[]]. exact Hin.
  - intros Hin. exists (Some x). split; [exact Hin | now left].
Qed.

Lemma group_values_In {A} (k k' : key) (keys : list (option key)) (xs : list A)
    (i : nat) (v : A) :
  nth_error keys i = Some (Some k') -> key_eqb k k' = true ->
  nth_error xs i = Some v ->
  In v (group_values k keys xs).
Proof.
  intros Hk Heq Hv. unfold group_values. apply in_map_iff.
  exists (Some k', v). split; [reflexivity|]. apply filter_In. split.
  - revert keys xs Hk Hv. induction i as [|i IH]; intros [|k0 keys] [|x xs] Hk Hv;
      simpl in *; try discriminate.
    + injection Hk as ->. injection Hv as ->. now left.
    + right. now apply IH.
  - exact Heq.
Qed.

Lemma transform_mean_nth (keys : list (option key)) (xs : list (option Q))
    (i : nat) (k : key) :
  nth_error keys i = Some (Some k) ->
  nth_error (transform_mean keys xs) i = Some (nanmean (group_values k keys xs)).
Proof.
  intros Hk. unfold transform_mean. now rewrite nth_error_map, Hk.
Qed.

Lemma nanmean_observed (g : list (option Q)) (x : Q) :
  In (Some x) g -> exists m, nanmean g = Some m.
Proof.
  intros Hin. apply In_dropna in Hin. unfold nanmean.
  destruct (dropna g); [destruct Hin | eauto].
Qed.

Lemma nanmean_value (g : list (option Q)) (m : Q) :
  nanmean g = Some m -> (m == Qsum (dropna g) / Qcount (dropna g))%Q.
Proof.
  unfold nanmean. destruct (dropna g) as [|x v]; [discriminate|].
  intros [= <-]. reflexivity.
Qed.

Lemma transform_mean_length (keys : list (option key)) (xs : list (option Q)) :
  List.length (transform_mean keys xs) = List.length keys.
Proof. unfold transform_mean. apply length_map. Qed.

End RowsOfAMonth.

(** C7: after [add_temperature_anomalies] every row has an anomaly and a
    climatology; on a row with a month and an observed [tmean] the anomaly
    is [tmean] minus the climatology, which is the mean of the observed
    [tmean] of the rows of the same month and the same on all of them; a
    row without a month or without [tmean] has no anomaly.  Hence, in exact
    arithmetic, the anomalies of the rows sharing any one month value sum to
    zero (NaN skipped, as [sum()] does), and so do the anomalies of the
    whole table. *)
Theorem anomalies_cancel_by_month
    (h : store) (r : ref) (t : DataFrame) (months : column) (xs : list (option Q)) :
  nth_error h r = Some t ->
  lookup "month" (columns t) = Some months ->
  lookup "tmean" (columns t) = Some (NumCol xs) ->
  List.length (row_keys months) = nrows t ->
  List.length xs = nrows t ->
  exists t' anomaly climate,
    add_temperature_anomalies r h = (Ok (List.length h), h ++ [t']) /\
    nrows t' = nrows t /\
    lookup "temp_anomaly" (columns t') = Some (NumCol anomaly) /\
    lookup "monthly_climate" (columns t') = Some (NumCol climate) /\
    List.length anomaly = nrows t' /\
    List.length climate = nrows t' /\
    (forall i k x,
        nth_error (row_keys months) i = Some (Some k) ->
        nth_error xs i = Some (Some x) ->
        exists m,
          nth_error climate i = Some (Some m) /\
          nth_error anomaly i = Some (Some (x - m)%Q) /\
          (m == Qsum (dropna (group_values k (row_keys months) xs))
                / Qcount (dropna (group_values k (row_keys months) xs)))%Q) /\
    (forall i,
        nth_error xs i = Some None \/ nth_error (row_keys months) i = Some None ->
        nth_error anomaly i = Some None) /\
    (forall i j k k',
        nth_error (row_keys months) i = Some (Some k) ->
        nth_error (row_keys months) j = Some (Some k') ->
        key_eqb k k' = true ->
        nth_error climate i = nth_error climate j) /\
    (forall k, Qsum (dropna (group_values k (row_keys months) anomaly)) == 0)%Q /\
    (Qsum (dropna anomaly) == 0)%Q.
Proof.
  intros Hr Hm Hx Hklen Hxlen.
  destruct (add_temperature_anomalies_run h r t months xs Hr Hm Hx)
    as (t' & Hrun & Hn & Hc & Ha & _).
  set (keys := row_keys months) in *.
  set (climate := transform_mean keys xs) in *.
  assert (Hclen : List.length climate = nrows t)
    by (unfold climate; now rewrite transform_mean_length).
  eexists t', _, climate. split; [exact Hrun|]. split; [exact Hn|].
  split; [exact Ha|]. split; [exact Hc|].
  split; [rewrite map2_length, Hxlen, Hclen, Hn; apply Nat.min_id|].
  split; [now rewrite Hn|].
  split.
  { intros i k x Hk Hv.
    destruct (nanmean_observed (group_values k keys xs) x) as [m Hmean].
    { apply (group_values_In _ k _ _ i); auto. apply key_eqb_refl. }
    exists m. unfold climate.
    rewrite nth_error_map2, Hv, (transform_mean_nth _ _ i k Hk), Hmean.
    split; [reflexivity|]. split; [reflexivity|]. now apply nanmean_value. }
  split.
  { intros i Hi. rewrite nth_error_map2. destruct Hi as [Hv|Hk].
    - rewrite Hv.
      destruct (nth_error climate i) as [c|] eqn:E; [reflexivity|].
      apply nth_error_None in E.
      assert (i < List.length xs)%nat by (apply nth_error_Some; congruence). lia.
    - destruct (nth_error xs i) as [v|] eqn:E.
      + unfold climate, transform_mean. rewrite nth_error_map, Hk.
        cbn [option_map]. now destruct v.
      + apply nth_error_None in E.
        assert (i < List.length keys)%nat by (apply nth_error_Some; congruence). lia. }
  split.
  { intros i j k k' Hi Hj Heq. unfold climate.
    rewrite (transform_mean_nth _ _ i k Hi), (transform_mean_nth _ _ j k' Hj).
    now rewrite (group_values_eqb k k' keys xs Heq). }
  unfold climate.
  assert (Hgroup : forall k,
             (Qsum (dropna (group_values k keys
                              (map2 (lift2 Qminus) xs (transform_mean keys xs)))) == 0)%Q).
  { intros k. rewrite group_anomalies. apply deviations_from_mean_cancel. }
  split; [exact Hgroup|].
  destruct (anomaly_rows keys xs) as (Hall & Hsel & Hnan).
  rewrite <- Hall. apply (rows_sum_by_group _ _ (Nat.le_refl _)).
  - intros k. unfold rows_sum. rewrite Hsel. apply Hgroup.
  - exact Hnan.
Qed.

(** ** The monthly aggregator *)

Section MonthlyAggregation.

Lemma groupby_agg_last (h : store) (t : DataFrame) (by_ : string)
    (rules : list (string * rule)) :
  groupby_agg (List.length h) by_ rules (h ++ [t]) =
  match lookup by_ (columns t) with
  | None => (Raise (KeyError by_), h ++ [t])
  | Some (PeriodCol ps) =>
      match missing_column rules (columns t) with
      | Some name => (Raise (KeyError name), h ++ [t])
      | None =>
          match agg_columns rules (unique_sorted ps) ps (columns t) with
          | Raise e => (Raise e, h ++ [t])
          | Ok out =>
              (Ok (List.length (h ++ [t])),
               (h ++ [t]) ++
               [mkDF (List.length (unique_sorted ps))
                  ((by_, PeriodCol (unique_sorted ps)) :: out)])
          end
      end
  | Some _ => (Raise TypeError, h ++ [t])
  end.
Proof.
  unfold groupby_agg. rewrite bind_run, getitem_last.
  destruct (lookup by_ (columns t)) as [k|]; [|reflexivity].
  rewrite bind_run, deref_last.
  destruct k; try reflexivity.
  destruct (missing_column rules (columns t)); [reflexivity|].
  rewrite bind_lift.
  destruct (agg_columns rules (unique_sorted ps) ps (columns t)); reflexivity.
Qed.

Variables (h : store) (r : ref) (t : DataFrame) (d : list Timestamp).
Hypothesis Hr : nth_error h r = Some t.
Hypothesis Hd : lookup "date" (columns t) = Some (DateCol d).

Lemma aggregate_monthly_run :
  let ps := map period_ordinal d in
  let copy1 := set_column "year_month" (PeriodCol ps) t in
  stage_result (aggregate_monthly r) h =
  match missing_column (agg_rules_of t) (columns copy1) with
  | Some name => Raise (KeyError name)
  | None =>
      match agg_columns (agg_rules_of t) (unique_sorted ps) ps (columns copy1) with
      | Raise e => Raise e
      | Ok out => Ok (monthly_table (unique_sorted ps) out)
      end
  end.
Proof.
  intros ps copy1. unfold stage_result, aggregate_monthly.
  run_copy Hr.
  do 5 run_step.
  rewrite bind_run, groupby_agg_last. use_lookups.
  fold ps. fold copy1. unfold agg_rules_of.
  destruct (missing_column _ (columns copy1)); [reflexivity|].
  destruct (agg_columns _ (unique_sorted ps) ps (columns copy1)) as [out|e];
    [|reflexivity].
  cbn beta iota.
  repeat run_step.
  unfold ret. cbn beta iota. rewrite nth_error_last, !map_map. reflexivity.
Qed.
End MonthlyAggregation.

Section Periods.

Lemma insert_key_In (k x : Z) (l : list Z) :
  In x (insert_key k l) <-> x = k \/ In x l.
Proof.
  induction l as [|y l IH]; simpl.
  - intuition.
  - destruct (Z.ltb_spec k y); [simpl; intuition|].
    destruct (Z.eqb_spec k y) as [->|Hne]; simpl; [intuition|].
    rewrite IH. intuition.
Qed.

Lemma insert_key_sorted (k : Z) (l : list Z) :
  StronglySorted Z.lt l -> StronglySorted Z.lt (insert_key k l).
Proof.
  induction 1 as [|y l Hs IH Hall]; simpl.
  - repeat constructor.
  - destruct (Z.ltb_spec k y) as [Hlt|Hge].
    + constructor; [now constructor|].
      constructor; [exact Hlt|].
      rewrite Forall_forall in *. intros x Hx. specialize (Hall x Hx). lia.
    + destruct (Z.eqb_spec k y) as [->|Hne]; [now constructor|].
      constructor; [exact IH|].
      rewrite Forall_forall in *. intros x Hx.
      apply insert_key_In in Hx. destruct Hx as [->|Hx]; [lia | now apply Hall].
Qed.

Lemma unique_sorted_In (x : Z) (l : list Z) : In x (unique_sorted l) <-> In x l.
Proof.
  unfold unique_sorted. induction l as [|y l IH]; simpl; [tauto|].
  rewrite insert_key_In, IH. intuition.
Qed.

Lemma unique_sorted_sorted (l : list Z) : StronglySorted Z.lt (unique_sorted l).
Proof.
  unfold unique_sorted. induction l as [|y l IH]; simpl; [constructor|].
  now apply insert_key_sorted.
Qed.

(** A valid date is in the period [p] exactly when [p] has its year and
    month. *)
Lemma period_ordinal_pair (dt : Timestamp) (p : Z) :
  valid_month dt ->
  (period_ordinal dt = p <-> month_of dt = period_pair p).
Proof.
  unfold valid_month, period_ordinal, month_of, period_pair, period_year, period_month.
  intros Hv. split.
  - intros <-. f_equal.
    + pose proof (Z.div_mod ((ts_year dt - 1970) * 12 + (ts_month dt - 1)) 12).
      pose proof (Z.mod_pos_bound ((ts_year dt - 1970) * 12 + (ts_month dt - 1)) 12).
      lia.
    + pose proof (Z.div_mod ((ts_year dt - 1970) * 12 + (ts_month dt - 1)) 12).
      pose proof (Z.mod_pos_bound ((ts_year dt - 1970) * 12 + (ts_month dt - 1)) 12).
      lia.
  - intros Heq.
    assert (Hy := f_equal fst Heq). assert (Hm := f_equal snd Heq).
    cbn [fst snd] in Hy, Hm. pose proof (Z.div_mod p 12). lia.
Qed.

Lemma period_pair_lt (p q : Z) : p < q -> month_lt (period_pair p) (period_pair q).
Proof.
  unfold month_lt, period_pair, period_year, period_month. cbn [fst snd]. intros Hlt.
  pose proof (Z.div_mod p 12). pose proof (Z.div_mod q 12).
  pose proof (Z.mod_pos_bound p 12). pose proof (Z.mod_pos_bound q 12).
  lia.
Qed.

Lemma period_pair_valid (p : Z) : 1 <= snd (period_pair p) <= 12.
Proof.
  unfold period_pair, period_month. cbn [fst snd].
  pose proof (Z.mod_pos_bound p 12). lia.
Qed.

Lemma month_lt_irrefl (a : Z * Z) : ~ month_lt a a.
Proof. unfold month_lt. lia. Qed.

Lemma month_lt_trans (a b c : Z * Z) : month_lt a b -> month_lt b c -> month_lt a c.
Proof. unfold month_lt. lia. Qed.

Lemma in_month_period (dt : Timestamp) (p : Z) :
  valid_month dt ->
  in_month (period_pair p) dt = (p =? period_ordinal dt).
Proof.
  intros Hv. pose proof (period_ordinal_pair dt p Hv) as Hiff.
  unfold in_month. unfold month_of in Hiff.
  destruct (Z.eqb_spec p (period_ordinal dt)) as [->|Hne].
  - destruct Hiff as [Hiff _]. specialize (Hiff eq_refl).
    rewrite <- Hiff. cbn [fst snd]. now rewrite !Z.eqb_refl.
  - apply andb_false_iff.
    destruct (Z.eqb_spec (ts_year dt) (fst (period_pair p))) as [Hy|]; [|now left].
    destruct (Z.eqb_spec (ts_month dt) (snd (period_pair p))) as [Hm|]; [|now right].
    exfalso. apply Hne. symmetry. apply Hiff.
    destruct (period_pair p); cbn [fst snd] in *. congruence.
Qed.

(** The rows of a group of the aggregation are the rows of its month. *)
Lemma period_group_month {A} (p : Z) (d : list Timestamp) (xs : list A) :
  Forall valid_month d ->
  period_group p (map period_ordinal d) xs = month_values (period_pair p) d xs.
Proof.
  intros Hv. unfold period_group, group_values, month_values.
  revert xs. induction Hv as [|dt d Hdt Hv IH]; intros [|x xs]; try reflexivity.
  cbn [map combine filter fst in_group key_eqb].
  rewrite (in_month_period dt p Hdt).
  destruct (p =? period_ordinal dt); cbn [map snd]; now rewrite IH.
Qed.

End Periods.

Section AggregatedColumns.

Lemma lookup_None (name : string) (cols : list (string * column)) :
  lookup name cols = None <-> ~ In name (map fst cols).
Proof.
  induction cols as [|[k c] cols IH]; simpl; [tauto|].
  destruct (String.eqb_spec name k) as [->|Hne].
  - split; [discriminate | tauto].
  - rewrite IH. split; [intros H [E|E]; [congruence | tauto] | tauto].
Qed.

Lemma agg_column_numeric (rl : rule) (groups ps : list Z) (c : column) :
  numeric c -> exists c', agg_column rl groups ps c = Ok c'.
Proof.
  intros [xs Hxs]. destruct rl; unfold agg_column; rewrite ?Hxs.
  - eauto.
  - destruct (as_int c); eauto.
Qed.

Lemma missing_column_Some (rules : list (string * rule)) (cols : list (string * column))
    (name : string) :
  In name (map fst rules) -> lookup name cols = None ->
  exists missing, missing_column rules cols = Some missing.
Proof.
  induction rules as [|[k rl] rules IH]; simpl; [tauto|].
  intros [->|Hin] Hnone.
  - rewrite Hnone. eauto.
  - destruct (lookup k cols); eauto.
Qed.

Lemma agg_columns_ok (rules : list (string * rule)) (groups ps : list Z)
    (cols : list (string * column)) :
  (forall name, In name (map fst rules) ->
                exists c, lookup name cols = Some c /\ numeric c) ->
  missing_column rules cols = None /\
  exists out,
    agg_columns rules groups ps cols = Ok out /\
    map fst out = map fst rules /\
    (NoDup (map fst rules) ->
     forall name rl,
       In (name, rl) rules ->
       exists c c',
         lookup name cols = Some c /\
         agg_column rl groups ps c = Ok c' /\
         lookup name out = Some c').
Proof.
  induction rules as [|[k rl] rules IH]; intros Hnum.
  - split; [reflexivity|]. exists []. repeat split. intros _ name rl' [].
  - destruct (Hnum k (or_introl eq_refl)) as (c & Hc & Hn).
    destruct (agg_column_numeric rl groups ps c Hn) as (c' & Hc').
    destruct IH as (Hmiss & out & Hout & Hnames & Hlook).
    { intros name Hin. apply Hnum. now right. }
    cbn [missing_column agg_columns]. rewrite Hc, Hc', Hout.
    split; [exact Hmiss|].
    exists ((k, c') :: out). split; [reflexivity|].
    split; [simpl; now rewrite Hnames|].
    intros Hnd name rl' [[= <- <-]|Hin].
    + exists c, c'. simpl. now rewrite String.eqb_refl.
    + inversion Hnd as [|? ? Hnotin Hnd']; subst.
      destruct (Hlook Hnd' name rl' Hin) as (c1 & c1' & H1 & H2 & H3).
      exists c1, c1'. repeat split; auto. simpl.
      destruct (String.eqb_spec name k) as [->|]; [|exact H3].
      exfalso. apply Hnotin. apply in_map_iff. now exists (k, rl').
Qed.

Lemma monthly_table_lookup (groups : list Z) (out : list (string * column)) :
  let t' := monthly_table groups out in
  nrows t' = List.length groups /\
  lookup "date" (columns t') = Some (DateCol (map period_start groups)) /\
  lookup "year" (columns t') = Some (IntCol (map period_year groups)) /\
  lookup "month" (columns t') = Some (IntCol (map period_month groups)) /\
  lookup "year_month" (columns t') = None /\
  (forall name, ~ In name derived_columns ->
                lookup name (columns t') = lookup name out).
Proof.
  unfold monthly_table. repeat split; try (use_lookups; reflexivity).
  intros name Hn. use_lookups. unfold derived_columns in Hn. other_name Hn.
  reflexivity.
Qed.

Lemma agg_rules_of_eq (t : DataFrame) :
  agg_rules_of t =
  base_rules
  ++ (if has_column "tmean_7d" t then rolling_rules else [])
  ++ (if has_column "temp_anomaly" t then [("temp_anomaly", Mean)] else []).
Proof.
  unfold agg_rules_of.
  destruct (has_column "tmean_7d" t), (has_column "temp_anomaly" t); reflexivity.
Qed.

Lemma agg_rules_nodup (t : DataFrame) : NoDup (map fst (agg_rules_of t)).
Proof.
  rewrite agg_rules_of_eq.
  destruct (has_column "tmean_7d" t), (has_column "temp_anomaly" t); cbn;
    repeat (constructor; [simpl; intuition discriminate|]); constructor.
Qed.

Lemma agg_rules_names (t : DataFrame) (name : string) :
  In name (map fst (agg_rules_of t)) <->
  In name base_columns \/
  (has_column "tmean_7d" t = true /\ In name rolling_columns) \/
  (has_column "temp_anomaly" t = true /\ name = "temp_anomaly").
Proof.
  rewrite agg_rules_of_eq, !map_app, !in_app_iff.
  change (map fst base_rules) with base_columns.
  destruct (has_column "tmean_7d" t), (has_column "temp_anomaly" t);
    cbn [map fst In]; change (map fst rolling_rules) with rolling_columns;
    intuition (try discriminate; auto).
Qed.

Lemma agg_rules_not_derived (t : DataFrame) (name : string) :
  In name (map fst (agg_rules_of t)) -> ~ In name derived_columns.
Proof.
  rewrite agg_rules_names. unfold base_columns, rolling_columns, derived_columns.
  cbn [In]. intros H Hd.
  repeat match goal with
         | H : _ \/ _ |- _ => destruct H
         | H : _ /\ _ |- _ => destruct H
         end; subst; try discriminate; auto.
Qed.

End AggregatedColumns.

Ltac run_or_raise :=
  repeat (first
            [ run_step
            | match goal with
              | |- context [match lookup ?n ?c with _ => _ end] =>
                  destruct (lookup n c) eqn:?
              | |- context [match ?x with Ok _ => _ | Raise _ => _ end] =>
                  destruct x eqn:?
              end ];
          cbn beta iota; try solve [eexists; reflexivity]).

Section MissingColumns.

Variables (h : store) (r : ref) (t : DataFrame).
Hypothesis Hr : nth_error h r = Some t.


Lemma add_temperature_anomalies_missing (name : string) :
  In name ["month"; "tmean"] ->
  lookup name (columns t) = None ->
  exists e, stage_result (add_temperature_anomalies r) h = Raise e.
Proof.
  intros Hin Hnone. unfold stage_result, add_temperature_anomalies.
  run_copy Hr.
  rewrite bind_run, groupby_transform_mean_last.
  destruct Hin as [<-|[<-|[]]]; rewrite Hnone.
  - eexists; reflexivity.
  - destruct (lookup "month" (columns t)); eexists; reflexivity.
Qed.

Lemma aggregate_monthly_missing (name : string) :
  In name ("date" :: map fst (agg_rules_of t)) ->
  lookup name (columns t) = None ->
  exists e, stage_result (aggregate_monthly r) h = Raise e.
Proof.
  intros [<-|Hin] Hnone.
  - unfold stage_result, aggregate_monthly. run_copy Hr. run_or_raise.
  - destruct (lookup "date" (columns t)) as [c|] eqn:Hd.
    + destruct c;
        try (unfold stage_result, aggregate_monthly; run_copy Hr;
             do 2 run_step; eexists; reflexivity).
      rewrite (aggregate_monthly_run h r t ds Hr Hd).
      destruct (missing_column_Some (agg_rules_of t)
                  (columns (set_column "year_month"
                              (PeriodCol (map period_ordinal ds)) t)) name Hin)
        as (missing & ->); [|eexists; reflexivity].
      rewrite lookup_set_column.
      destruct (String.eqb_spec name "year_month") as [->|]; [|exact Hnone].
      exfalso. apply (agg_rules_not_derived t "year_month" Hin).
      unfold derived_columns. simpl. tauto.
    + unfold stage_result, aggregate_monthly. run_copy Hr. run_or_raise.
Qed.





Hypothesis Hnum :
  forall name, In name (map fst (agg_rules_of t)) ->
               exists c, lookup name (columns t) = Some c /\ numeric c.

Lemma aggregate_monthly_ok (d : list Timestamp) :
  lookup "date" (columns t) = Some (DateCol d) ->
  let ps := map period_ordinal d in
  let groups := unique_sorted ps in
  exists out,
    stage_result (aggregate_monthly r) h = Ok (monthly_table groups out) /\
    map fst out = map fst (agg_rules_of t) /\
    (forall name rl,
        In (name, rl) (agg_rules_of t) ->
        exists c c',
          lookup name (columns t) = Some c /\
          agg_column rl groups ps c = Ok c' /\
          lookup name out = Some c').
Proof.
  intros Hd ps groups.
  rewrite (aggregate_monthly_run h r t d Hr Hd). fold ps. fold groups.
  set (copy1 := set_column "year_month" (PeriodCol ps) t).
  assert (Hsame : forall name, In name (map fst (agg_rules_of t)) ->
                               lookup name (columns copy1) = lookup name (columns t)).
  { intros name Hin. unfold copy1. rewrite lookup_set_column.
    destruct (String.eqb_spec name "year_month") as [->|]; [|reflexivity].
    exfalso. apply (agg_rules_not_derived t "year_month" Hin).
    unfold derived_columns. simpl. tauto. }
  destruct (agg_columns_ok (agg_rules_of t) groups ps (columns copy1))
    as (-> & out & -> & Hnames & Hlook).
  { intros name Hin. rewrite (Hsame name Hin). now apply Hnum. }
  exists out. split; [reflexivity|]. split; [exact Hnames|].
  intros name rl Hin.
  destruct (Hlook (agg_rules_nodup t) name rl Hin) as (c & c' & H1 & H2 & H3).
  exists c, c'. repeat split; auto. rewrite <- H1. symmetry. apply Hsame.
  apply in_map_iff. now exists (name, rl).
Qed.

End MissingColumns.

Section MonthlyRows.

Lemma sorted_map {A B} (R : A -> A -> Prop) (R' : B -> B -> Prop) (f : A -> B)
    (l : list A) :
  (forall x y, R x y -> R' (f x) (f y)) ->
  StronglySorted R l -> StronglySorted R' (map f l).
Proof.
  intros Hf. induction 1 as [|x l Hs IH Hall]; simpl; constructor; auto.
  rewrite Forall_forall in *. intros y Hy. apply in_map_iff in Hy.
  destruct Hy as (z & <- & Hz). auto.
Qed.

Lemma sorted_nodup {A} (R : A -> A -> Prop) (l : list A) :
  (forall x, ~ R x x) -> StronglySorted R l -> NoDup l.
Proof.
  intros Hirr. induction 1 as [|x l Hs IH Hall]; constructor; auto.
  intros Hin. rewrite Forall_forall in Hall. exact (Hirr x (Hall x Hin)).
Qed.

Lemma month_of_period (dt : Timestamp) :
  valid_month dt -> period_pair (period_ordinal dt) = month_of dt.
Proof.
  intros Hv. symmetry. now apply period_ordinal_pair.
Qed.

End MonthlyRows.

(** C4: on a table with valid dates and numeric aggregated columns,
    [aggregate_monthly] returns one row per distinct (year, month) pair
    present in the input, in chronological order; its [date] column is the
    first day of each pair and its [year] and [month] columns are the pair;
    and its [precipitation] is, row by row, the exact sum of the daily
    precipitation of the rows of that month (NaN skipped). *)
Theorem monthly_aggregation
    (h : store) (r : ref) (t : DataFrame) (d : list Timestamp) (xs : list (option Q)) :
  nth_error h r = Some t ->
  lookup "date" (columns t) = Some (DateCol d) ->
  Forall valid_month d ->
  lookup "precipitation" (columns t) = Some (NumCol xs) ->
  (forall name, In name (map fst (agg_rules_of t)) ->
                exists c, lookup name (columns t) = Some c /\ numeric c) ->
  exists t' months,
    stage_result (aggregate_monthly r) h = Ok t' /\
    nrows t' = List.length months /\
    (forall ym, In ym months <-> exists dt, In dt d /\ month_of dt = ym) /\
    NoDup months /\
    StronglySorted month_lt months /\
    lookup "date" (columns t') = Some (DateCol (map first_day months)) /\
    lookup "year" (columns t') = Some (IntCol (map fst months)) /\
    lookup "month" (columns t') = Some (IntCol (map snd months)) /\
    lookup "precipitation" (columns t') =
      Some (NumCol (map (fun ym => Some (Qsum (dropna (month_values ym d xs)))) months)).
Proof.
  intros Hr Hd Hv Hp Hnum.
  destruct (aggregate_monthly_ok h r t Hr Hnum d Hd) as (out & Hrun & _ & Hlook).
  set (ps := map period_ordinal d) in *. set (groups := unique_sorted ps) in *.
  destruct (monthly_table_lookup groups out)
    as (Hrows & Hdate & Hyear & Hmonth & _ & Hother).
  exists (monthly_table groups out), (map period_pair groups).
  assert (Hsorted : StronglySorted month_lt (map period_pair groups)).
  { apply (sorted_map Z.lt); [apply period_pair_lt | apply unique_sorted_sorted]. }
  split; [exact Hrun|]. split; [now rewrite length_map|]. split; [|split; [|split]].
  - intros ym. rewrite in_map_iff. split.
    + intros (k & <- & Hk). unfold groups in Hk.
      apply (proj1 (unique_sorted_In k ps)) in Hk. unfold ps in Hk.
      apply in_map_iff in Hk. destruct Hk as (dt & <- & Hdt). exists dt.
      split; [exact Hdt|]. symmetry. apply month_of_period.
      rewrite Forall_forall in Hv. now apply Hv.
    + intros (dt & Hdt & <-). exists (period_ordinal dt). split.
      * apply month_of_period. rewrite Forall_forall in Hv. now apply Hv.
      * unfold groups. apply (proj2 (unique_sorted_In _ ps)). unfold ps.
        now apply in_map.
  - apply (sorted_nodup month_lt); [apply month_lt_irrefl | exact Hsorted].
  - exact Hsorted.
  - rewrite !map_map. cbn [fst snd period_pair first_day].
    split; [exact Hdate|]. split; [exact Hyear|]. split; [exact Hmonth|].
    rewrite Hother by (unfold derived_columns; simpl; intuition discriminate).
    destruct (Hlook "precipitation" Sum) as (c & c' & H1 & H2 & H3).
    { rewrite agg_rules_of_eq. apply in_or_app. left. simpl. tauto. }
    rewrite Hp in H1. injection H1 as <-. cbn in H2. injection H2 as <-.
    rewrite H3. do 2 f_equal. apply map_ext. intros k.
    unfold nansum, ps. now rewrite (period_group_month k d xs Hv).
Qed.

(** C10: [aggregate_monthly] looks only at [tmean_7d] to decide about the
    four rolling columns.  If [tmean_7d] is present and one of the four is
    missing the call raises; when the call returns, the four are aggregated
    if [tmean_7d] is present and none of them is in the output if it is
    absent, whatever other rolling columns the input has; [temp_anomaly] is
    in the output exactly when it is in the input. *)
Theorem rolling_rules_follow_tmean_7d (h : store) (r : ref) (t : DataFrame) :
  nth_error h r = Some t ->
  (has_column "tmean_7d" t = true ->
   forall name, In name rolling_columns -> lookup name (columns t) = None ->
                exists e, stage_result (aggregate_monthly r) h = Raise e) /\
  (forall d,
      lookup "date" (columns t) = Some (DateCol d) ->
      (forall name, In name (map fst (agg_rules_of t)) ->
                    exists c, lookup name (columns t) = Some c /\ numeric c) ->
      let ps := map period_ordinal d in
      exists t',
        stage_result (aggregate_monthly r) h = Ok t' /\
        (has_column "tmean_7d" t = true ->
         forall name rl,
           In (name, rl) rolling_rules ->
           exists c c',
             lookup name (columns t) = Some c /\
             agg_column rl (unique_sorted ps) ps c = Ok c' /\
             lookup name (columns t') = Some c') /\
        (has_column "tmean_7d" t = false ->
         forall name, In name rolling_columns -> has_column name t' = false) /\
        has_column "temp_anomaly" t' = has_column "temp_anomaly" t).
Proof.
  intros Hr. split.
  - intros H7 name Hin Hnone. apply (aggregate_monthly_missing h r t Hr name); auto.
    right. apply agg_rules_names. right. left. auto.
  - intros d Hd Hnum ps.
    destruct (aggregate_monthly_ok h r t Hr Hnum d Hd) as (out & Hrun & Hnames & Hlook).
    fold ps in Hrun, Hlook.
    destruct (monthly_table_lookup (unique_sorted ps) out) as (_ & _ & _ & _ & _ & Hother).
    exists (monthly_table (unique_sorted ps) out).
    assert (Hout : forall name,
               In name (rolling_columns ++ ["temp_anomaly"]) ->
               lookup name (columns (monthly_table (unique_sorted ps) out))
               = lookup name out).
    { intros name Hin. apply Hother. unfold derived_columns.
      simpl in Hin. simpl. intuition (subst; discriminate). }
    split; [exact Hrun|]. split; [|split].
    + intros H7 name rl Hin.
      destruct (Hlook name rl) as (c & c' & H1 & H2 & H3).
      { rewrite agg_rules_of_eq, H7. apply in_or_app. right. apply in_or_app. now left. }
      exists c, c'. repeat split; auto. rewrite Hout; [exact H3|].
      apply in_or_app. left. change rolling_columns with (map fst rolling_rules).
      apply in_map_iff. now exists (name, rl).
    + intros H7 name Hin. unfold has_column.
      rewrite Hout by (apply in_or_app; now left).
      assert (Hnot : ~ In name (map fst out)).
      { rewrite Hnames, agg_rules_names, H7.
        unfold base_columns, rolling_columns in *. simpl in Hin. simpl.
        intuition (subst; discriminate). }
      apply lookup_None in Hnot. now rewrite Hnot.
    + unfold has_column at 1. rewrite Hout by (apply in_or_app; right; simpl; tauto).
      destruct (has_column "temp_anomaly" t) eqn:HA.
      * destruct (Hlook "temp_anomaly" Mean) as (c & c' & _ & _ & ->); [|reflexivity].
        rewrite agg_rules_of_eq, HA. apply in_or_app. right. apply in_or_app. right.
        simpl. tauto.
      * assert (Hnot : ~ In "temp_anomaly" (map fst out)).
        { rewrite Hnames, agg_rules_names, HA.
          unfold base_columns, rolling_columns. simpl.
          intuition (subst; discriminate). }
        apply lookup_None in Hnot. now rewrite Hnot.
Qed.




(** ** The extreme-event detector *)

Section Quantiles.

Lemma insert_sorted_perm (x : Q) (l : list Q) : Permutation (x :: l) (insert_sorted x l).
Proof.
  induction l as [|y l IH]; simpl; [reflexivity|].
  destruct (Qle_bool x y); [reflexivity|].
  rewrite perm_swap. now apply perm_skip.
Qed.

(** The quantile is read off the observations themselves, in increasing
    order. *)
Lemma sort_values_perm (l : list Q) : Permutation l (sort_values l).
Proof.
  unfold sort_values. induction l as [|x l IH]; simpl; [reflexivity|].
  rewrite <- insert_sorted_perm. now apply perm_skip.
Qed.

Lemma insert_sorted_sorted (x : Q) (l : list Q) :
  StronglySorted Qle l -> StronglySorted Qle (insert_sorted x l).
Proof.
  induction 1 as [|y l Hs IH Hall]; simpl.
  - repeat constructor.
  - destruct (Qle_bool x y) eqn:E.
    + apply Qle_bool_iff in E. constructor; [now constructor|].
      constructor; [exact E|].
      rewrite Forall_forall in *. intros z Hz. apply (Qle_trans _ y); auto.
    + constructor; [exact IH|].
      assert (Hyx : (y <= x)%Q).
      { apply Qlt_le_weak. apply Qnot_le_lt. intros Hle.
        apply Qle_bool_iff in Hle. congruence. }
      rewrite Forall_forall in *. intros z Hz.
      apply (Permutation_in _ (Permutation_sym (insert_sorted_perm x l))) in Hz.
      destruct Hz as [<-|Hz]; auto.
Qed.

Lemma sort_values_sorted (l : list Q) : StronglySorted Qle (sort_values l).
Proof.
  unfold sort_values. induction l as [|x l IH]; simpl; [constructor|].
  now apply insert_sorted_sorted.
Qed.

End Quantiles.

Section ExtremeEvents.

Lemma Qltb_true (x y : Q) : Qltb x y = true <-> (x < y)%Q.
Proof.
  unfold Qltb. rewrite negb_true_iff. apply Qle_bool_false.
Qed.

Lemma Qltb_false (x y : Q) : Qltb x y = false <-> (y <= x)%Q.
Proof.
  unfold Qltb. rewrite negb_false_iff. apply Qle_bool_iff.
Qed.

Lemma series_quantile_float (xs : list (option Q)) (q : Q) :
  (0 <= q)%Q -> (q <= 1)%Q ->
  series_quantile (NumCol xs) q = Ok (quantile_sorted (sort_values (dropna xs)) q).
Proof.
  intros H0 H1. unfold series_quantile.
  rewrite (proj2 (Qltb_false q (0 # 1)) H0), (proj2 (Qltb_false (1 # 1) q) H1).
  reflexivity.
Qed.

Lemma percent_in_range (p : Q) :
  (0 <= p)%Q -> (p <= 100 # 1)%Q -> (0 <= p / (100 # 1))%Q /\ (p / (100 # 1) <= 1)%Q.
Proof.
  intros H0 H1. split.
  - apply Qle_shift_div_l; [reflexivity|]. now rewrite Qmult_0_l.
  - apply Qle_shift_div_r; [reflexivity|]. now rewrite Qmult_1_l.
Qed.

Lemma bind_assoc {A B C} (c : M A) (k1 : A -> M B) (k2 : B -> M C) (h : store) :
  bind (bind c k1) k2 h = bind c (fun a => bind (k1 a) k2) h.
Proof. unfold bind. destruct (c h) as [[a|e] h']; reflexivity. Qed.

Variables (h : store) (r : ref) (t : DataFrame).
Variables (pv : list (option Q)) (temp_threshold precip_threshold : Q).
Hypothesis Hr : nth_error h r = Some t.
Hypothesis Hp : lookup "precipitation" (columns t) = Some (NumCol pv).
Hypothesis Hlo : (0 <= precip_threshold)%Q.
Hypothesis Hhi : (precip_threshold <= 100 # 1)%Q.

Lemma detect_extreme_events_anomaly (an : list (option Q)) :
  lookup "temp_anomaly" (columns t) = Some (NumCol an) ->
  exists t',
    stage_result (detect_extreme_events r temp_threshold precip_threshold) h = Ok t' /\
    nrows t' = nrows t /\
    lookup "extreme_heat" (columns t') =
      Some (BoolCol (map (gt_scalar (Some temp_threshold)) an)) /\
    lookup "extreme_cold" (columns t') =
      Some (BoolCol (map (lt_scalar (Some (- temp_threshold)%Q)) an)) /\
    lookup "extreme_precip" (columns t') =
      Some (BoolCol (map (gt_scalar (percentile pv (precip_threshold / (100 # 1))%Q)) pv)) /\
    (forall name, ~ In name extreme_columns ->
                  lookup name (columns t') = lookup name (columns t)).
Proof.
  intros Ha.
  assert (HA : has_column "temp_anomaly" t = true) by (unfold has_column; now rewrite Ha).
  destruct (percent_in_range _ Hlo Hhi) as [Hq0 Hq1].
  unfold stage_result, detect_extreme_events.
  run_copy Hr.
  repeat (first [ rewrite bind_assoc | run_step
                | rewrite (series_quantile_float _ _ Hq0 Hq1) ];
          cbn beta iota).
  unfold ret. cbn beta iota. rewrite nth_error_last.
  eexists. split; [reflexivity|].
  repeat split; try (use_lookups; reflexivity).
  intros name Hn. rewrite !lookup_set_column.
  unfold extreme_columns in Hn. other_name Hn. reflexivity.
Qed.

Lemma detect_extreme_events_percentile (tv : list (option Q)) :
  lookup "temp_anomaly" (columns t) = None ->
  lookup "tmean" (columns t) = Some (NumCol tv) ->
  exists t',
    stage_result (detect_extreme_events r temp_threshold precip_threshold) h = Ok t' /\
    nrows t' = nrows t /\
    lookup "extreme_heat" (columns t') =
      Some (BoolCol (map (gt_scalar (percentile tv (95 # 100))) tv)) /\
    lookup "extreme_cold" (columns t') =
      Some (BoolCol (map (lt_scalar (percentile tv (5 # 100))) tv)) /\
    lookup "extreme_precip" (columns t') =
      Some (BoolCol (map (gt_scalar (percentile pv (precip_threshold / (100 # 1))%Q)) pv)) /\
    (forall name, ~ In name extreme_columns ->
                  lookup name (columns t') = lookup name (columns t)).
Proof.
  intros Ha Ht.
  assert (HA : has_column "temp_anomaly" t = false) by (unfold has_column; now rewrite Ha).
  destruct (percent_in_range _ Hlo Hhi) as [Hq0 Hq1].
  assert (H95 : series_quantile (NumCol tv) (95 # 100) = Ok (percentile tv (95 # 100)))
    by (apply series_quantile_float; unfold Qle; simpl; lia).
  assert (H5 : series_quantile (NumCol tv) (5 # 100) = Ok (percentile tv (5 # 100)))
    by (apply series_quantile_float; unfold Qle; simpl; lia).
  unfold stage_result, detect_extreme_events.
  run_copy Hr.
  repeat (first [ rewrite bind_assoc | run_step | rewrite H95 | rewrite H5
                | rewrite (series_quantile_float _ _ Hq0 Hq1) ];
          cbn beta iota).
  unfold ret. cbn beta iota. rewrite nth_error_last.
  eexists. split; [reflexivity|].
  repeat split; try (use_lookups; reflexivity).
  intros name Hn. rewrite !lookup_set_column.
  unfold extreme_columns in Hn. other_name Hn. reflexivity.
Qed.

End ExtremeEvents.



Section QuantileBounds.

Lemma nth_head_In (v : list Q) (x0 : Q) (i : nat) : In (nth i (x0 :: v) x0) (x0 :: v).
Proof.
  destruct (Nat.ltb_spec i (List.length (x0 :: v))) as [Hlt|Hge].
  - now apply nth_In.
  - rewrite nth_overflow by exact Hge. now left.
Qed.

Lemma floor_fraction (x : Q) :
  (0 <= x - inject_Z (Qfloor x))%Q /\ (x - inject_Z (Qfloor x) <= 1)%Q.
Proof.
  pose proof (Qfloor_le x) as Hle. pose proof (Qlt_floor x) as Hlt.
  rewrite inject_Z_plus in Hlt. change (inject_Z 1) with (1 # 1)%Q in Hlt.
  split; lra.
Qed.

Lemma between_mix (a b f : Q) :
  (0 <= f)%Q -> (f <= 1)%Q ->
  let y := (a + (b - a) * f)%Q in
  ((a <= y)%Q /\ (y <= b)%Q) \/ ((b <= y)%Q /\ (y <= a)%Q).
Proof.
  intros H0 H1 y. unfold y.
  destruct (Qlt_le_dec b a) as [Hba|Hab]; [right | left]; split; nra.
Qed.

(** A quantile lies between two of the observations. *)
Lemma quantile_between (v : list Q) (q y : Q) :
  quantile_sorted v q = Some y ->
  exists a b, In a v /\ In b v /\
              (((a <= y)%Q /\ (y <= b)%Q) \/ ((b <= y)%Q /\ (y <= a)%Q)).
Proof.
  destruct v as [|x0 v]; [discriminate|]. unfold quantile_sorted. intros E.
  apply (f_equal (fun o => match o with Some x => x | None => x0 end)) in E.
  cbv beta iota zeta in E. rewrite <- E. clear E.
  set (pos := (q * inject_Z (Z.of_nat (List.length (x0 :: v) - 1)))%Q).
  destruct (floor_fraction pos) as [H0 H1].
  eexists _, _. split; [apply nth_head_In|]. split; [apply nth_head_In|].
  now apply between_mix.
Qed.

Lemma sort_values_In (x : Q) (l : list Q) : In x (sort_values l) <-> In x l.
Proof.
  split; apply Permutation_in; [symmetry|]; apply sort_values_perm.
Qed.

(** A percentile of a column is neither below all of its observations
    nor above all of them. *)
Lemma percentile_bounds (xs : list (option Q)) (q y : Q) :
  percentile xs q = Some y ->
  (forall m, (forall x, In (Some x) xs -> (m <= x)%Q) -> (m <= y)%Q) /\
  (forall m, (forall x, In (Some x) xs -> (x <= m)%Q) -> (y <= m)%Q).
Proof.
  unfold percentile. intros Hq.
  destruct (quantile_between _ _ _ Hq) as (a & b & Ha & Hb & Hy).
  apply sort_values_In, In_dropna in Ha. apply sort_values_In, In_dropna in Hb.
  split; intros m Hm; pose proof (Hm a Ha); pose proof (Hm b Hb); lra.
Qed.

End QuantileBounds.

Section QuantileOrder.

Lemma sorted_nth (v : list Q) (d : Q) (i j : nat) :
  StronglySorted Qle v -> (i <= j)%nat -> (j < List.length v)%nat ->
  (nth i v d <= nth j v d)%Q.
Proof.
  intros Hs. revert i j. induction Hs as [|x l Hs IH Hall]; intros i j Hij Hj.
  - simpl in Hj. lia.
  - destruct i as [|i], j as [|j]; simpl in *; try lia.
    + apply Qle_refl.
    + rewrite Forall_forall in Hall. apply Hall. apply nth_In. lia.
    + apply IH; lia.
Qed.

(** Over sorted observations a higher quantile is not below a lower one. *)
Lemma quantile_sorted_monotone (v : list Q) (q1 q2 y1 y2 : Q) :
  StronglySorted Qle v ->
  (0 <= q1)%Q -> (q1 <= q2)%Q -> (q2 <= 1)%Q ->
  quantile_sorted v q1 = Some y1 -> quantile_sorted v q2 = Some y2 ->
  (y1 <= y2)%Q.
Proof.
  intros Hs H0 H12 H1. destruct v as [|x0 v]; [discriminate|].
  unfold quantile_sorted. intros E1 E2.
  apply (f_equal (fun o => match o with Some x => x | None => x0 end)) in E1, E2.
  cbv beta iota zeta in E1, E2. rewrite <- E1, <- E2. clear E1 E2.
  set (n := List.length (x0 :: v)).
  set (N := inject_Z (Z.of_nat (n - 1))).
  assert (HN : (0 <= N)%Q).
  { unfold N. change (0 # 1)%Q with (inject_Z 0). rewrite <- Zle_Qle. lia. }
  set (p1 := (q1 * N)%Q). set (p2 := (q2 * N)%Q).
  assert (Hp1 : (0 <= p1)%Q) by (unfold p1; nra).
  assert (Hp12 : (p1 <= p2)%Q) by (unfold p1, p2; nra).
  assert (Hp2 : (p2 <= N)%Q) by (unfold p2; nra).
  assert (Hf1 : 0 <= Qfloor p1).
  { change 0 with (Qfloor (inject_Z 0)) at 1. now apply Qfloor_resp_le. }
  assert (Hf12 : Qfloor p1 <= Qfloor p2) by now apply Qfloor_resp_le.
  assert (Hf2 : Qfloor p2 <= Z.of_nat (n - 1)).
  { rewrite <- (Qfloor_Z (Z.of_nat (n - 1))). now apply Qfloor_resp_le. }
  destruct (floor_fraction p1) as [Ha1 Hb1].
  destruct (floor_fraction p2) as [Ha2 Hb2].
  set (l1 := Z.to_nat (Qfloor p1)) in *. set (l2 := Z.to_nat (Qfloor p2)) in *.
  assert (Hl : (l1 <= l2)%nat /\ (l2 <= n - 1)%nat) by (unfold l1, l2; lia).
  assert (Hn : (0 < n)%nat) by (unfold n; simpl; lia).
  assert (Hab1 : (nth l1 (x0 :: v) x0 <= nth (Nat.min (l1 + 1) (n - 1)) (x0 :: v) x0)%Q)
    by (apply sorted_nth; [exact Hs | lia | fold n; lia]).
  assert (Hab2 : (nth l2 (x0 :: v) x0 <= nth (Nat.min (l2 + 1) (n - 1)) (x0 :: v) x0)%Q)
    by (apply sorted_nth; [exact Hs | lia | fold n; lia]).
  destruct (Nat.eq_dec l1 l2) as [Heq|Hne].
  - assert (Hfl : Qfloor p1 = Qfloor p2) by (unfold l1, l2 in Heq; lia).
    rewrite <- Heq, <- Hfl.
    set (a := nth l1 (x0 :: v) x0) in *.
    set (b := nth (Nat.min (l1 + 1) (n - 1)) (x0 :: v) x0) in *.
    set (z := inject_Z (Qfloor p1)) in *.
    rewrite <- Hfl in Ha2, Hb2. fold z in Ha2, Hb2.
    nra.
  - assert (Hmid : (nth (Nat.min (l1 + 1) (n - 1)) (x0 :: v) x0 <= nth l2 (x0 :: v) x0)%Q)
      by (apply sorted_nth; [exact Hs | lia | fold n; lia]).
    set (a1 := nth l1 (x0 :: v) x0) in *.
    set (b1 := nth (Nat.min (l1 + 1) (n - 1)) (x0 :: v) x0) in *.
    set (a2 := nth l2 (x0 :: v) x0) in *.
    set (b2 := nth (Nat.min (l2 + 1) (n - 1)) (x0 :: v) x0) in *.
    set (f1 := (p1 - inject_Z (Qfloor p1))%Q) in *.
    set (f2 := (p2 - inject_Z (Qfloor p2))%Q) in *.
    nra.
Qed.

Lemma percentile_monotone (xs : list (option Q)) (q1 q2 y1 y2 : Q) :
  (0 <= q1)%Q -> (q1 <= q2)%Q -> (q2 <= 1)%Q ->
  percentile xs q1 = Some y1 -> percentile xs q2 = Some y2 -> (y1 <= y2)%Q.
Proof.
  unfold percentile. intros H0 H12 H1.
  apply quantile_sorted_monotone; auto. apply sort_values_sorted.
Qed.

End QuantileOrder.


Section QuantileRanks.








End QuantileRanks.



(** ** The theorems at concrete tables *)

Ltac numeric_rules :=
  let name := fresh "name" in
  let Hin := fresh "Hin" in
  intros name Hin; cbn in Hin;
  repeat (destruct Hin as [<-|Hin];
          [eexists; split; [reflexivity | eexists; reflexivity]|]);
  destruct Hin.

Lemma add_basic_features_rows_witness :
  exists t',
    add_basic_features 0%nat [raw_week_table] = (Ok 1%nat, [raw_week_table; t']) /\
    nrows t' = 7%nat /\
    lookup "tmean" (columns t') = Some (NumCol (repeat (Some (10 # 2)) 7)) /\
    lookup "temp_range" (columns t') = Some (NumCol (repeat (Some (10 # 1)) 7)).
Proof.
  destruct (add_basic_features_rows [raw_week_table] 0%nat raw_week_table
              (repeat (num 10) 7) (repeat (num 0) 7)
              (map (day 2023 1) [1; 2; 3; 4; 5; 6; 7])
              eq_refl eq_refl eq_refl eq_refl)
    as (t' & tmean & temp_range & Hrun & _).
  exists t'. split; [exact Hrun|].
  vm_compute in Hrun. injection Hrun as Hrun. subst t'.
  repeat split; reflexivity.
Defined.

Lemma season_of_month_witness :
  exists t',
    add_basic_features 0%nat [raw_week_table] = (Ok 1%nat, [raw_week_table; t']) /\
    lookup "season" (columns t') = Some (StrCol (repeat "Winter" 7)) /\
    map _get_season [1; 2; 3; 4; 5; 6; 7; 8; 9; 10; 11; 12] =
      ["Winter"; "Winter"; "Spring"; "Spring"; "Spring"; "Summer"; "Summer";
       "Summer"; "Fall"; "Fall"; "Fall"; "Winter"].
Proof.
  destruct (season_of_month [raw_week_table] 0%nat raw_week_table
              (repeat (num 10) 7) (repeat (num 0) 7)
              (map (day 2023 1) [1; 2; 3; 4; 5; 6; 7])
              eq_refl eq_refl eq_refl eq_refl)
    as (t' & season & Hrun & _).
  exists t'. split; [exact Hrun|].
  vm_compute in Hrun. injection Hrun as Hrun. subst t'.
  split; reflexivity.
Defined.

(** The scenario of fourteen constant days: the rolling mean is 5 on rows
    3 to 10 and absent on rows 0, 1, 2 and 11, 12, 13. *)
Lemma rolling_absent_entries_witness :
  exists t',
    add_rolling_averages 0%nat 7 [fortnight_table] = (Ok 1%nat, [fortnight_table; t']) /\
    lookup "tmean_7d" (columns t') =
      Some (NumCol (repeat None 3 ++ repeat (Some (35 # 7)) 8 ++ repeat None 3)) /\
    forall name,
      In name rolling_columns ->
      exists col, lookup name (columns t') = Some (NumCol col) /\
                  count_absent col = 6%nat.
Proof.
  destruct (rolling_absent_entries [fortnight_table] 0%nat fortnight_table
              (repeat (5 # 1)%Q 14) (repeat (10 # 1)%Q 14) (repeat (0 # 1)%Q 14)
              (repeat (1 # 1)%Q 14) 3
              eq_refl eq_refl eq_refl eq_refl eq_refl eq_refl eq_refl eq_refl eq_refl)
    as (t' & Hrun & _ & Hcols).
  exists t'. split; [exact Hrun|]. split.
  - vm_compute in Hrun. injection Hrun as Hrun. subst t'. reflexivity.
  - intros name Hin. destruct (Hcols name Hin) as (col & Hcol & _ & _ & Hcount & _).
    exists col. split; [exact Hcol|]. apply Hcount. simpl. lia.
Defined.

Lemma anomaly_category_bins_witness :
  exists t',
    add_temperature_anomalies 0%nat [two_day_table] = (Ok 1%nat, [two_day_table; t']) /\
    lookup "temp_anomaly" (columns t') = Some (NumCol [Some (-4 # 2); Some (4 # 2)]) /\
    lookup "anomaly_category" (columns t') = Some (CatCol [Some "Very Cold"; Some "Warm"]).
Proof.
  destruct (anomaly_category_bins [two_day_table] 0%nat two_day_table
              (IntCol [1; 1]) [num 0; num 4] eq_refl eq_refl eq_refl)
    as (t' & anomaly & category & Hrun & _).
  exists t'. split; [exact Hrun|].
  vm_compute in Hrun. injection Hrun as Hrun. subst t'.
  split; reflexivity.
Defined.

Lemma anomalies_cancel_by_month_witness :
  exists t' anomaly climate,
    add_temperature_anomalies 0%nat [two_day_table] = (Ok 1%nat, [two_day_table; t']) /\
    lookup "temp_anomaly" (columns t') = Some (NumCol anomaly) /\
    lookup "monthly_climate" (columns t') = Some (NumCol climate) /\
    List.length anomaly = 2%nat /\
    (exists m, nth_error climate 0 = Some (Some m) /\
               nth_error anomaly 0 = Some (Some (inject_Z 0 - m)%Q)) /\
    (Qsum (dropna (group_values (KInt 1%Z) (row_keys (IntCol [1; 1]%Z)) anomaly)) == 0)%Q /\
    (Qsum (dropna anomaly) == 0)%Q.
Proof.
  destruct (anomalies_cancel_by_month [two_day_table] 0%nat two_day_table
              (IntCol [1; 1]) [num 0; num 4] eq_refl eq_refl eq_refl eq_refl eq_refl)
    as (t' & anomaly & climate & Hrun & Hn & Hcol & Hclim & Hlen & _ & Hrow & _ & _
        & Hgroup & Htotal).
  exists t', anomaly, climate. split; [exact Hrun|]. split; [exact Hcol|].
  split; [exact Hclim|]. split; [now rewrite Hlen, Hn|].
  split.
  { destruct (Hrow 0%nat (KInt 1) (inject_Z 0) eq_refl eq_refl) as (m & Hm & Ha & _).
    now exists m. }
  split; [apply Hgroup | exact Htotal].
Defined.


(** Thirty days of precipitation 1.0 give one monthly row with
    precipitation 30.0, dated the first of the month. *)
Lemma monthly_aggregation_witness :
  exists t',
    stage_result (aggregate_monthly 0%nat) [april_table] = Ok t' /\
    nrows t' = 1%nat /\
    lookup "date" (columns t') = Some (DateCol [day 2023 4 1]) /\
    lookup "year" (columns t') = Some (IntCol [2023]) /\
    lookup "month" (columns t') = Some (IntCol [4]) /\
    lookup "precipitation" (columns t') = Some (NumCol [Some (30 # 1)]).
Proof.
  destruct (monthly_aggregation [april_table] 0%nat april_table
              (map (day 2023 4) (map Z.of_nat (seq 1 30))) (repeat (num 1) 30)
              eq_refl eq_refl)
    as (t' & months & Hrun & _).
  - apply Forall_forall. intros dt Hdt. apply in_map_iff in Hdt.
    destruct Hdt as (z & <- & _). unfold valid_month. simpl. lia.
  - reflexivity.
  - numeric_rules.
  - exists t'. split; [exact Hrun|].
    vm_compute in Hrun. injection Hrun as Hrun. subst t'.
    repeat split; reflexivity.
Defined.


Lemma rolling_rules_follow_tmean_7d_witness :
  (exists e, stage_result (aggregate_monthly 0%nat) [lone_tmean_7d_table] = Raise e) /\
  (exists t',
      stage_result (aggregate_monthly 0%nat) [stray_rolling_table] = Ok t' /\
      has_column "tmax_7d" stray_rolling_table = true /\
      has_column "tmax_7d" t' = false /\
      has_column "temp_anomaly" t' = false).
Proof.
  destruct (rolling_rules_follow_tmean_7d [lone_tmean_7d_table] 0%nat
              lone_tmean_7d_table eq_refl) as (Hraise & _).
  destruct (rolling_rules_follow_tmean_7d [stray_rolling_table] 0%nat
              stray_rolling_table eq_refl) as (_ & Hok).
  split.
  - apply (Hraise eq_refl "precip_7d"); [simpl; tauto | reflexivity].
  - destruct (Hok (map (day 2023 1) [1; 2; 3; 4; 5; 6; 7]) eq_refl)
      as (t' & Hrun & _ & Hnone & Hanomaly); [numeric_rules|].
    exists t'. split; [exact Hrun|]. split; [reflexivity|].
    split; [apply Hnone; [reflexivity | simpl; tauto]|].
    rewrite Hanomaly. reflexivity.
Defined.

(** * Beyond the claims: the pipeline *)

Section Pipeline.

Lemma process_data_frame (n : nat) (conv : column -> result column) (df : ref)
    (add_rolling add_anomalies monthly_agg : bool) :
  writes_above n (process_data conv df add_rolling add_anomalies monthly_agg)
    (fun r' => (n <= r')%nat).
Proof.
  unfold process_data. do 4 frame_step.
  eapply wa_bind; [apply add_basic_features_frame|]. intros p1 Hp1.
  eapply wa_bind;
    [destruct add_rolling; [apply add_rolling_averages_frame | now apply wa_ret]|].
  intros p2 Hp2.
  eapply wa_bind;
    [destruct add_anomalies; [apply add_temperature_anomalies_frame | now apply wa_ret]|].
  intros p3 Hp3.
  eapply wa_bind;
    [destruct monthly_agg; [apply aggregate_monthly_frame | now apply wa_ret]|].
  intros p4 Hp4. now apply wa_ret.
Qed.

End Pipeline.

(** X1: [process_data] leaves the table it is given as it was, whatever the
    three options and whether it returns or raises, and returns an object
    that did not exist before. *)
Theorem process_data_leaves_input
    (conv : column -> result column) (add_rolling add_anomalies monthly_agg : bool) :
  leaves_input (fun df => process_data conv df add_rolling add_anomalies monthly_agg).
Proof.
  apply writes_above_leaves_input. intros n df. apply process_data_frame.
Qed.

Section PipelineStages.

Lemma has_column_lookup (name : string) (t t' : DataFrame) :
  lookup name (columns t') = lookup name (columns t) ->
  has_column name t' = has_column name t.
Proof. unfold has_column. now intros ->. Qed.

Lemma float_column_has (name : string) (t : DataFrame) :
  float_column name t -> has_column name t = true.
Proof. intros [xs Hxs]. unfold has_column. now rewrite Hxs. Qed.

Lemma float_column_numeric (name : string) (t : DataFrame) :
  float_column name t -> exists c, lookup name (columns t) = Some c /\ numeric c.
Proof. intros [xs Hxs]. exists (NumCol xs). split; [exact Hxs | now exists xs]. Qed.

Lemma stage_result_inv (c : M ref) (h : store) (t' : DataFrame) :
  stage_result c h = Ok t' ->
  exists r' h', c h = (Ok r', h') /\ nth_error h' r' = Some t'.
Proof.
  unfold stage_result. destruct (c h) as [[r'|e] h']; [|discriminate].
  destruct (nth_error h' r') as [t1|] eqn:E; [|discriminate].
  intros [= <-]. now exists r', h'.
Qed.

Variables (h : store) (r : ref) (t : DataFrame) (d : list Timestamp).
Hypothesis Hr : nth_error h r = Some t.

Lemma add_basic_features_featured :
  raw_table t d ->
  exists t',
    add_basic_features r h = (Ok (List.length h), h ++ [t']) /\
    featured t' d /\
    nrows t' = nrows t /\
    (forall name, In name new_basic_columns -> has_column name t' = true) /\
    (forall name, ~ In name new_basic_columns -> has_column name t' = has_column name t).
Proof.
  intros (Hd & Hfloat & Hnone).
  destruct (Hfloat "tmax") as [a Ha]; [simpl; tauto|].
  destruct (Hfloat "tmin") as [b Hb]; [simpl; tauto|].
  destruct (add_basic_features_run h r t a b d Hr Ha Hb Hd)
    as (t' & Hrun & Hn & Htm & Htr & Hy & Hm & Hdoy & Hs & Hother).
  exists t'. split; [exact Hrun|].
  assert (Hsame : forall name, ~ In name new_basic_columns ->
                               has_column name t' = has_column name t).
  { intros name Hn'. apply has_column_lookup. now apply Hother. }
  split; [|split; [exact Hn|split; [|exact Hsame]]].
  - split; [rewrite Hother; [exact Hd | simpl; intuition discriminate]|].
    split; [|split; [exact Hm|split]].
    + intros name Hin. unfold base_columns in Hin. simpl in Hin.
      assert (Hraw : forall n, In n measurement_columns -> float_column n t').
      { intros n Hn'. destruct (Hfloat n Hn') as [xs Hxs]. exists xs.
        rewrite Hother; [exact Hxs|].
        unfold measurement_columns in Hn'. simpl in Hn'. simpl.
        intuition (subst; discriminate). }
      destruct Hin as [<-|[<-|[<-|[<-|[<-|[<-|[]]]]]]];
        try (eexists; eassumption); apply Hraw; simpl; tauto.
    + intros H7. rewrite Hsame in H7 by (simpl; intuition discriminate).
      rewrite Hnone in H7 by (simpl; tauto). discriminate.
    + intros HA. rewrite Hsame in HA by (simpl; intuition discriminate).
      rewrite Hnone in HA by (simpl; tauto). discriminate.
  - intros name Hin. unfold has_column. simpl in Hin.
    destruct Hin as [<-|[<-|[<-|[<-|[<-|[<-|[]]]]]]];
      match goal with H : lookup ?n _ = Some _ |- context [lookup ?n _] => now rewrite H end.
Qed.

Lemma add_rolling_averages_featured :
  featured t d ->
  exists t',
    add_rolling_averages r default_window h = (Ok (List.length h), h ++ [t']) /\
    featured t' d /\
    nrows t' = nrows t /\
    (forall name, In name rolling_columns -> has_column name t' = true) /\
    (forall name, ~ In name rolling_columns -> has_column name t' = has_column name t).
Proof.
  intros (Hd & Hfloat & Hm & H7 & HA).
  destruct (Hfloat "tmean") as [x1 H1]; [simpl; tauto|].
  destruct (Hfloat "tmax") as [x2 H2]; [simpl; tauto|].
  destruct (Hfloat "tmin") as [x3 H3]; [simpl; tauto|].
  destruct (Hfloat "precipitation") as [x4 H4]; [simpl; tauto|].
  destruct (add_rolling_averages_run h r t x1 x2 x3 x4 default_window Hr H1 H2 H3 H4)
    as (t' & Hrun & Hn & C1 & C2 & C3 & C4 & Hother); [unfold default_window; lia|].
  exists t'. split; [exact Hrun|].
  assert (Hsame : forall name, ~ In name rolling_columns ->
                               has_column name t' = has_column name t).
  { intros name Hn'. apply has_column_lookup. now apply Hother. }
  assert (Hroll : forall name, In name rolling_columns -> float_column name t').
  { intros name Hin. simpl in Hin.
    destruct Hin as [<-|[<-|[<-|[<-|[]]]]]; eexists; eassumption. }
  split; [|split; [exact Hn|split; [|exact Hsame]]].
  - split; [rewrite Hother; [exact Hd | simpl; intuition discriminate]|].
    split; [|split; [|split]].
    + intros name Hin. destruct (Hfloat name Hin) as [xs Hxs]. exists xs.
      rewrite Hother; [exact Hxs|].
      unfold base_columns in Hin. simpl in Hin. simpl. intuition (subst; discriminate).
    + rewrite Hother; [exact Hm | simpl; intuition discriminate].
    + intros _. exact Hroll.
    + intros HA'. rewrite Hsame in HA' by (simpl; intuition discriminate).
      destruct (HA HA') as [xs Hxs]. exists xs.
      rewrite Hother; [exact Hxs | simpl; intuition discriminate].
  - intros name Hin. apply float_column_has. now apply Hroll.
Qed.

Lemma add_temperature_anomalies_featured :
  featured t d ->
  exists t',
    add_temperature_anomalies r h = (Ok (List.length h), h ++ [t']) /\
    featured t' d /\
    nrows t' = nrows t /\
    (forall name, In name anomaly_columns -> has_column name t' = true) /\
    (forall name, ~ In name anomaly_columns -> has_column name t' = has_column name t).
Proof.
  intros (Hd & Hfloat & Hm & H7 & HA).
  destruct (Hfloat "tmean") as [xs Hx]; [simpl; tauto|].
  destruct (add_temperature_anomalies_run h r t _ xs Hr Hm Hx)
    as (t' & Hrun & Hn & Hc & Ha & Hcat & Hother).
  exists t'. split; [exact Hrun|].
  assert (Hsame : forall name, ~ In name anomaly_columns ->
                               has_column name t' = has_column name t).
  { intros name Hn'. apply has_column_lookup. now apply Hother. }
  split; [|split; [exact Hn|split; [|exact Hsame]]].
  - split; [rewrite Hother; [exact Hd | simpl; intuition discriminate]|].
    split; [|split; [|split]].
    + intros name Hin. destruct (Hfloat name Hin) as [ys Hys]. exists ys.
      rewrite Hother; [exact Hys|].
      unfold base_columns in Hin. simpl in Hin. simpl. intuition (subst; discriminate).
    + rewrite Hother; [exact Hm | simpl; intuition discriminate].
    + intros H7'. rewrite Hsame in H7' by (simpl; intuition discriminate).
      intros name Hin. destruct (H7 H7' name Hin) as [ys Hys]. exists ys.
      rewrite Hother; [exact Hys|].
      simpl in Hin. simpl. intuition (subst; discriminate).
    + intros _. eexists. exact Ha.
  - intros name Hin. unfold has_column. simpl in Hin.
    destruct Hin as [<-|[<-|[<-|[]]]];
      match goal with H : lookup ?n _ = Some _ |- context [lookup ?n _] => now rewrite H end.
Qed.

End PipelineStages.

Section MonthlyColumns.

Lemma assign_fresh (name : string) (c : column) (cols : list (string * column)) :
  ~ In name (map fst cols) -> assign name c cols = cols ++ [(name, c)].
Proof.
  induction cols as [|[k c0] cols IH]; simpl; intros Hn; [reflexivity|].
  destruct (String.eqb_spec name k) as [->|Hne]; [tauto|].
  rewrite IH; tauto.
Qed.

Lemma remove_fresh (name : string) (cols : list (string * column)) :
  ~ In name (map fst cols) -> remove name cols = cols.
Proof.
  induction cols as [|[k c0] cols IH]; simpl; intros Hn; [reflexivity|].
  destruct (String.eqb_spec name k) as [->|Hne]; [tauto|].
  rewrite IH; tauto.
Qed.

(** The columns of the monthly table, in order: the aggregated columns,
    then [date], [year] and [month]. *)
Lemma monthly_table_names (groups : list Z) (out : list (string * column)) :
  (forall name, In name derived_columns -> ~ In name (map fst out)) ->
  map fst (columns (monthly_table groups out)) = map fst out ++ ["date"; "year"; "month"].
Proof.
  intros Hfresh. unfold monthly_table, set_column. cbn [columns assign String.eqb Ascii.eqb Bool.eqb].
  rewrite (assign_fresh "date") by (apply Hfresh; simpl; tauto).
  cbn [remove String.eqb Ascii.eqb Bool.eqb].
  rewrite remove_fresh.
  2:{ rewrite map_app, in_app_iff. simpl.
      intros [Hin|[E|[]]]; [|discriminate]. revert Hin. apply Hfresh. simpl; tauto. }
  rewrite (assign_fresh "year").
  2:{ rewrite map_app, in_app_iff. simpl.
      intros [Hin|[E|[]]]; [|discriminate]. revert Hin. apply Hfresh. simpl; tauto. }
  rewrite (assign_fresh "month").
  2:{ rewrite !map_app, !in_app_iff. simpl.
      intros [[Hin|[E|[]]]|[E|[]]]; try discriminate.
      revert Hin. apply Hfresh. simpl; tauto. }
  rewrite !map_app, <- !app_assoc. reflexivity.
Qed.

Lemma aggregate_monthly_featured (h : store) (r : ref) (t : DataFrame) (d : list Timestamp) :
  nth_error h r = Some t ->
  featured t d ->
  exists r' h' t',
    aggregate_monthly r h = (Ok r', h') /\
    nth_error h' r' = Some t' /\
    nrows t' = List.length (unique_sorted (map period_ordinal d)) /\
    map fst (columns t') =
      base_columns
      ++ (if has_column "tmean_7d" t then rolling_columns else [])
      ++ (if has_column "temp_anomaly" t then ["temp_anomaly"] else [])
      ++ ["date"; "year"; "month"].
Proof.
  intros Hr (Hd & Hfloat & Hm & H7 & HA).
  assert (Hnum : forall name, In name (map fst (agg_rules_of t)) ->
                              exists c, lookup name (columns t) = Some c /\ numeric c).
  { intros name Hin. apply float_column_numeric. apply agg_rules_names in Hin.
    destruct Hin as [Hin|[[E Hin]|[E ->]]]; auto. }
  destruct (aggregate_monthly_ok h r t Hr Hnum d Hd) as (out & Hrun & Hnames & _).
  destruct (stage_result_inv _ _ _ Hrun) as (r' & h' & Hrun' & Hget).
  exists r', h', (monthly_table (unique_sorted (map period_ordinal d)) out).
  split; [exact Hrun'|]. split; [exact Hget|].
  split; [apply monthly_table_lookup|].
  rewrite monthly_table_names.
  - rewrite Hnames, agg_rules_of_eq, !map_app, <- !app_assoc.
    destruct (has_column "tmean_7d" t), (has_column "temp_anomaly" t); reflexivity.
  - intros name Hin Hout. rewrite Hnames in Hout.
    exact (agg_rules_not_derived t name Hout Hin).
Qed.

End MonthlyColumns.

Section PipelineRun.

Lemma stage_result_bind {A} (c : M A) (k : A -> M ref) (h h' : store) (a : A) :
  c h = (Ok a, h') -> stage_result (bind c k) h = stage_result (k a) h'.
Proof. intros Hc. unfold stage_result, bind. now rewrite Hc. Qed.

Lemma stage_result_bind_ret (c : M ref) (h : store) :
  stage_result (bind c (fun p => ret p)) h = stage_result c h.
Proof.
  unfold stage_result, bind. destruct (c h) as [[r'|e] h']; reflexivity.
Qed.

Lemma stage_result_ret (r : ref) (h : store) (t : DataFrame) :
  nth_error h r = Some t -> stage_result (ret r) h = Ok t.
Proof. intros Hr. unfold stage_result, ret. now rewrite Hr. Qed.

Variables (h : store) (r : ref) (t : DataFrame) (d : list Timestamp).
Variable parse : column -> result column.
Variables add_rolling add_anomalies monthly_agg : bool.
Hypothesis Hr : nth_error h r = Some t.
Hypothesis Hraw : raw_table t d.

(** The table that reaches the last, optional stage. *)
Lemma process_data_daily :
  exists r3 h3 t3,
    stage_result (process_data (to_datetime parse) r add_rolling add_anomalies monthly_agg) h
    = stage_result (if monthly_agg then aggregate_monthly r3 else ret r3) h3 /\
    nth_error h3 r3 = Some t3 /\
    featured t3 d /\
    nrows t3 = nrows t /\
    (forall name, In name new_basic_columns -> has_column name t3 = true) /\
    (forall name, In name rolling_columns -> has_column name t3 = add_rolling) /\
    (forall name, In name anomaly_columns -> has_column name t3 = add_anomalies).
Proof.
  destruct Hraw as (Hd & Hfloat & Hnone).
  set (t0 := set_column "date" (DateCol d) t).
  assert (Hraw0 : raw_table t0 d).
  { split; [|split].
    - unfold t0. now rewrite lookup_set_column.
    - intros name Hin. destruct (Hfloat name Hin) as [xs Hxs]. exists xs.
      unfold t0. rewrite lookup_set_column.
      destruct (String.eqb_spec name "date") as [->|]; [|exact Hxs].
      simpl in Hin. intuition discriminate.
    - intros name Hin. unfold t0. rewrite has_column_set_column.
      destruct (String.eqb_spec name "date") as [->|]; [|now apply Hnone].
      simpl in Hin. intuition discriminate. }
  destruct (add_basic_features_featured (h ++ [t0]) (List.length h) t0 d
              (nth_error_last h t0) Hraw0)
    as (t1 & Hrun1 & Hf1 & Hn1 & Hnew1 & Hsame1).
  set (h1 := (h ++ [t0]) ++ [t1]) in *.
  set (r1 := List.length (h ++ [t0])) in *.
  assert (Hget1 : nth_error h1 r1 = Some t1) by apply nth_error_last.
  (* the rolling stage, or nothing *)
  assert (Hstep2 : exists r2 h2 t2,
             (if add_rolling then add_rolling_averages r1 default_window else ret r1) h1
             = (Ok r2, h2) /\
             nth_error h2 r2 = Some t2 /\ featured t2 d /\ nrows t2 = nrows t1 /\
             (forall name, In name rolling_columns -> has_column name t2 = add_rolling) /\
             (forall name, ~ In name rolling_columns ->
                           has_column name t2 = has_column name t1)).
  { destruct add_rolling.
    - destruct (add_rolling_averages_featured h1 r1 t1 d Hget1 Hf1)
        as (t2 & Hrun2 & Hf2 & Hn2 & Hnew2 & Hsame2).
      exists (List.length h1), (h1 ++ [t2]), t2.
      split; [exact Hrun2|]. split; [apply nth_error_last|]. split; [exact Hf2|].
      split; [exact Hn2|]. split; [exact Hnew2 | exact Hsame2].
    - exists r1, h1, t1.
      split; [reflexivity|]. split; [exact Hget1|]. split; [exact Hf1|].
      split; [reflexivity|]. split; [|reflexivity].
      intros name Hin. rewrite Hsame1 by (simpl in Hin; simpl; intuition (subst; discriminate)).
      unfold t0. rewrite has_column_set_column.
      destruct (String.eqb_spec name "date") as [->|];
        [simpl in Hin; intuition discriminate|].
      apply Hnone. apply in_or_app. now left. }
  destruct Hstep2 as (r2 & h2 & t2 & Hrun2 & Hget2 & Hf2 & Hn2 & Hroll2 & Hsame2).
  (* the anomaly stage, or nothing *)
  assert (Hstep3 : exists r3 h3 t3,
             (if add_anomalies then add_temperature_anomalies r2 else ret r2) h2
             = (Ok r3, h3) /\
             nth_error h3 r3 = Some t3 /\ featured t3 d /\ nrows t3 = nrows t2 /\
             (forall name, In name anomaly_columns -> has_column name t3 = add_anomalies) /\
             (forall name, ~ In name anomaly_columns ->
                           has_column name t3 = has_column name t2)).
  { destruct add_anomalies.
    - destruct (add_temperature_anomalies_featured h2 r2 t2 d Hget2 Hf2)
        as (t3 & Hrun3 & Hf3 & Hn3 & Hnew3 & Hsame3).
      exists (List.length h2), (h2 ++ [t3]), t3.
      split; [exact Hrun3|]. split; [apply nth_error_last|]. split; [exact Hf3|].
      split; [exact Hn3|]. split; [exact Hnew3 | exact Hsame3].
    - exists r2, h2, t2.
      split; [reflexivity|]. split; [exact Hget2|]. split; [exact Hf2|].
      split; [reflexivity|]. split; [|reflexivity].
      intros name Hin.
      rewrite Hsame2 by (simpl in Hin; simpl; intuition (subst; discriminate)).
      rewrite Hsame1 by (simpl in Hin; simpl; intuition (subst; discriminate)).
      unfold t0. rewrite has_column_set_column.
      destruct (String.eqb_spec name "date") as [->|];
        [simpl in Hin; intuition discriminate|].
      apply Hnone. apply in_or_app. now right. }
  destruct Hstep3 as (r3 & h3 & t3 & Hrun3 & Hget3 & Hf3 & Hn3 & Han3 & Hsame3).
  exists r3, h3, t3. split; [|split; [exact Hget3|split; [exact Hf3|split; [|split; [|split]]]]].
  - unfold process_data.
    rewrite (stage_result_bind _ _ h (h ++ [t]) (List.length h) (copy_ok h r t Hr)).
    rewrite (stage_result_bind _ _ (h ++ [t]) (h ++ [t]) (DateCol d))
      by (rewrite getitem_last, Hd; reflexivity).
    rewrite (stage_result_bind _ _ (h ++ [t]) (h ++ [t]) (DateCol d)) by reflexivity.
    rewrite (stage_result_bind _ _ (h ++ [t]) (h ++ [t0]) tt) by apply setitem_last.
    rewrite (stage_result_bind _ _ _ _ _ Hrun1).
    rewrite (stage_result_bind _ _ _ _ _ Hrun2).
    rewrite (stage_result_bind _ _ _ _ _ Hrun3).
    apply stage_result_bind_ret.
  - rewrite Hn3, Hn2, Hn1. reflexivity.
  - intros name Hin.
    rewrite Hsame3 by (simpl in Hin; simpl; intuition (subst; discriminate)).
    rewrite Hsame2 by (simpl in Hin; simpl; intuition (subst; discriminate)).
    now apply Hnew1.
  - intros name Hin.
    rewrite Hsame3 by (simpl in Hin; simpl; intuition (subst; discriminate)).
    now apply Hroll2.
  - exact Han3.
Qed.

End PipelineRun.

(** X2: on a table as the weather API delivers it, [process_data] without
    monthly aggregation returns, for either setting of the other two
    options, a table with the rows of the input and the basic features;
    it has the four rolling columns exactly when [add_rolling] is set and
    the three anomaly columns exactly when [add_anomalies] is set. *)
Theorem process_data_daily_schema
    (h : store) (r : ref) (t : DataFrame) (d : list Timestamp)
    (parse : column -> result column) (add_rolling add_anomalies : bool) :
  nth_error h r = Some t ->
  raw_table t d ->
  exists t',
    stage_result (process_data (to_datetime parse) r add_rolling add_anomalies false) h
    = Ok t' /\
    nrows t' = nrows t /\
    lookup "date" (columns t') = Some (DateCol d) /\
    (forall name, In name new_basic_columns -> has_column name t' = true) /\
    (forall name, In name rolling_columns -> has_column name t' = add_rolling) /\
    (forall name, In name anomaly_columns -> has_column name t' = add_anomalies).
Proof.
  intros Hr Hraw.
  destruct (process_data_daily h r t d parse add_rolling add_anomalies false Hr Hraw)
    as (r3 & h3 & t3 & Hrun & Hget & Hf & Hn & Hnew & Hroll & Han).
  exists t3. split; [now rewrite Hrun; apply stage_result_ret|].
  split; [exact Hn|]. split; [apply Hf|]. auto.
Qed.

(** X3: with monthly aggregation [process_data] returns, on such a table,
    one row per month and exactly these columns in this order: the six
    aggregated measurements, the four rolling columns if [add_rolling] is
    set, [temp_anomaly] if [add_anomalies] is set, then [date], [year] and
    [month].  The season, the day of the year, the climatology and the
    anomaly category are not in the monthly table. *)
Theorem process_data_monthly_columns
    (h : store) (r : ref) (t : DataFrame) (d : list Timestamp)
    (parse : column -> result column) (add_rolling add_anomalies : bool) :
  nth_error h r = Some t ->
  raw_table t d ->
  exists t',
    stage_result (process_data (to_datetime parse) r add_rolling add_anomalies true) h
    = Ok t' /\
    nrows t' = List.length (unique_sorted (map period_ordinal d)) /\
    map fst (columns t') =
      base_columns
      ++ (if add_rolling then rolling_columns else [])
      ++ (if add_anomalies then ["temp_anomaly"] else [])
      ++ ["date"; "year"; "month"].
Proof.
  intros Hr Hraw.
  destruct (process_data_daily h r t d parse add_rolling add_anomalies true Hr Hraw)
    as (r3 & h3 & t3 & Hrun & Hget & Hf & Hn & Hnew & Hroll & Han).
  destruct (aggregate_monthly_featured h3 r3 t3 d Hget Hf)
    as (r4 & h4 & t4 & Hrun4 & Hget4 & Hn4 & Hcols).
  exists t4. split; [|split; [exact Hn4|]].
  - rewrite Hrun. unfold stage_result. now rewrite Hrun4, Hget4.
  - rewrite Hcols, (Hroll "tmean_7d"), (Han "temp_anomaly") by (simpl; tauto).
    reflexivity.
Qed.

(** * Beyond the claims: the statistics summarizer *)

Section ReadingAnyObject.

Variables (h : store) (r : ref) (t : DataFrame).
Hypothesis Hr : nth_error h r = Some t.

Lemma deref_at : deref r h = (Ok t, h).
Proof. unfold deref. now rewrite Hr. Qed.

Lemma getitem_at (name : string) :
  getitem r name h =
  (match lookup name (columns t) with
   | Some c => Ok c
   | None => Raise (KeyError name)
   end, h).
Proof.
  unfold getitem. rewrite bind_run, deref_at.
  destruct (lookup name (columns t)); reflexivity.
Qed.

Lemma contains_at (name : string) : contains r name h = (Ok (has_column name t), h).
Proof. unfold contains. now rewrite bind_run, deref_at. Qed.

Lemma len_at : len r h = (Ok (nrows t), h).
Proof. unfold len. now rewrite bind_run, deref_at. Qed.

End ReadingAnyObject.

Ltac read_step Hr :=
  first
    [ rewrite bind_lift
    | rewrite bind_run;
      first [ rewrite (getitem_at _ _ _ Hr) | rewrite (len_at _ _ _ Hr)
            | rewrite (contains_at _ _ _ Hr) ] ];
  repeat match goal with
         | H : lookup _ (columns _) = _ |- _ => rewrite H
         | H : has_column _ _ = _ |- _ => rewrite H
         end;
  cbn [series_mean series_sum series_max series_min series_gt series_date_min
       series_date_max count_true as_float];
  cbn beta iota.

Ltac read_or_raise Hr :=
  repeat (first
            [ read_step Hr
            | match goal with
              | |- context [match lookup ?n ?c with _ => _ end] =>
                  destruct (lookup n c) eqn:?
              | |- context [match ?x with Ok _ => _ | Raise _ => _ end] =>
                  destruct x eqn:?
              end ];
          cbn beta iota; try solve [eexists; reflexivity]).

Section Statistics.

Variables (h : store) (r : ref) (t : DataFrame).
Hypothesis Hr : nth_error h r = Some t.

Lemma calculate_statistics_missing (name : string) :
  In name ["date"; "tmean"; "tmax"; "tmin"; "precipitation"; "windspeed_max"] ->
  lookup name (columns t) = None ->
  exists e, fst (calculate_statistics r h) = Raise e.
Proof.
  intros Hin Hnone. unfold calculate_statistics.
  destruct Hin as [<-|[<-|[<-|[<-|[<-|[<-|[]]]]]]]; read_or_raise Hr.
Qed.

Lemma calculate_statistics_empty :
  lookup "date" (columns t) = Some (DateCol []) ->
  calculate_statistics r h = (Raise ValueError, h).
Proof.
  intros Hd. unfold calculate_statistics.
  do 3 (read_step Hr). cbn [date_min]. read_step Hr. reflexivity.
Qed.

Variables (d : list Timestamp) (d0 : Timestamp).
Variables (tmean tmax tmin precipitation windspeed_max : list (option Q)).
Hypothesis Hd : lookup "date" (columns t) = Some (DateCol (d0 :: d)).
Hypothesis H1 : lookup "tmean" (columns t) = Some (NumCol tmean).
Hypothesis H2 : lookup "tmax" (columns t) = Some (NumCol tmax).
Hypothesis H3 : lookup "tmin" (columns t) = Some (NumCol tmin).
Hypothesis H4 : lookup "precipitation" (columns t) = Some (NumCol precipitation).
Hypothesis H5 : lookup "windspeed_max" (columns t) = Some (NumCol windspeed_max).

Lemma calculate_statistics_run :
  exists start stop,
    date_min (d0 :: d) = Some start /\ date_max (d0 :: d) = Some stop /\
    exists s_start s_stop,
      strftime_ymd (Some start) = Ok s_start /\ strftime_ymd (Some stop) = Ok s_stop /\
      calculate_statistics r h =
      (Ok (mkStatistics (nrows t) s_start s_stop
             (nanmean tmean) (nanmean tmax) (nanmean tmin)
             (Qmaxl (dropna tmax)) (Qminl (dropna tmin))
             (nansum precipitation) (nanmean precipitation) (Qmaxl (dropna precipitation))
             (Zsum (map bool_to_Z (map (gt_scalar (Some (0 # 1))) precipitation)))
             (nanmean windspeed_max) (Qmaxl (dropna windspeed_max))), h).
Proof.
  eexists _, _. split; [reflexivity|]. split; [reflexivity|].
  eexists _, _. split; [reflexivity|]. split; [reflexivity|].
  unfold calculate_statistics.
  repeat (read_step Hr; cbn [date_min date_max strftime_ymd]; cbn beta iota).
  reflexivity.
Qed.

End Statistics.

Section Extremes.

Lemma Qltb_cases (x y : Q) : (Qltb x y = true /\ (x < y)%Q) \/ (Qltb x y = false /\ (y <= x)%Q).
Proof.
  destruct (Qltb x y) eqn:E.
  - left. split; [reflexivity | now apply Qltb_true].
  - right. split; [reflexivity | now apply Qltb_false].
Qed.

Lemma fold_max_spec (l : list Q) (x : Q) :
  let m := fold_left (fun m y => if Qltb m y then y else m) l x in
  In m (x :: l) /\ (x <= m)%Q /\ forall y, In y l -> (y <= m)%Q.
Proof.
  revert x. induction l as [|y l IH]; intros x; cbn [fold_left].
  - split; [now left|]. split; [apply Qle_refl | intros y []].
  - destruct (Qltb_cases x y) as [[-> Hlt]|[-> Hle]].
    + destruct (IH y) as (Hin & Hge & Hall).
      split; [now right|]. split; [|intros z [<-|Hz]; auto].
      apply (Qle_trans _ y); [now apply Qlt_le_weak | exact Hge].
    + destruct (IH x) as (Hin & Hge & Hall).
      split; [destruct Hin as [<-|Hin]; [now left | right; now right]|].
      split; [exact Hge|]. intros z [<-|Hz]; auto.
      now apply (Qle_trans _ x).
Qed.

Lemma fold_min_spec (l : list Q) (x : Q) :
  let m := fold_left (fun m y => if Qltb y m then y else m) l x in
  In m (x :: l) /\ (m <= x)%Q /\ forall y, In y l -> (m <= y)%Q.
Proof.
  revert x. induction l as [|y l IH]; intros x; cbn [fold_left].
  - split; [now left|]. split; [apply Qle_refl | intros y []].
  - destruct (Qltb_cases y x) as [[-> Hlt]|[-> Hle]].
    + destruct (IH y) as (Hin & Hge & Hall).
      split; [now right|]. split; [|intros z [<-|Hz]; auto].
      apply (Qle_trans _ y); [exact Hge | now apply Qlt_le_weak].
    + destruct (IH x) as (Hin & Hge & Hall).
      split; [destruct Hin as [<-|Hin]; [now left | right; now right]|].
      split; [exact Hge|]. intros z [<-|Hz]; auto.
      now apply (Qle_trans _ x).
Qed.

(** [max()] of a column with an observation is one of its observations
    and no observation is above it. *)
Lemma Qmaxl_spec (l : list Q) :
  l <> [] ->
  exists m, Qmaxl l = Some m /\ In m l /\ forall y, In y l -> (y <= m)%Q.
Proof.
  destruct l as [|x l]; [congruence|]. intros _.
  destruct (fold_max_spec l x) as (Hin & Hge & Hall).
  eexists. split; [reflexivity|]. split; [exact Hin|].
  intros y [<-|Hy]; auto.
Qed.

Lemma Qminl_spec (l : list Q) :
  l <> [] ->
  exists m, Qminl l = Some m /\ In m l /\ forall y, In y l -> (m <= y)%Q.
Proof.
  destruct l as [|x l]; [congruence|]. intros _.
  destruct (fold_min_spec l x) as (Hin & Hge & Hall).
  eexists. split; [reflexivity|]. split; [exact Hin|].
  intros y [<-|Hy]; auto.
Qed.

End Extremes.

Section DatesInOrder.

Lemma timestamp_ltb_lt (a b : Timestamp) :
  timestamp_ltb a b = true <->
  ts_year a < ts_year b \/
  (ts_year a = ts_year b /\
   (ts_month a < ts_month b \/ (ts_month a = ts_month b /\ ts_day a < ts_day b))).
Proof.
  unfold timestamp_ltb.
  rewrite !orb_true_iff, !andb_true_iff, !orb_true_iff, !andb_true_iff,
    !Z.ltb_lt, !Z.eqb_eq.
  tauto.
Qed.

Lemma timestamp_ltb_ge (a b : Timestamp) :
  timestamp_ltb a b = false <->
  ts_year b < ts_year a \/
  (ts_year b = ts_year a /\
   (ts_month b < ts_month a \/ (ts_month b = ts_month a /\ ts_day b <= ts_day a))).
Proof.
  pose proof (timestamp_ltb_lt a b) as Hlt.
  destruct (timestamp_ltb a b).
  - split; [discriminate|]. intros Hge. destruct Hlt as [Hlt _].
    specialize (Hlt eq_refl). lia.
  - split; [|reflexivity]. intros _.
    assert (Hn : ~ (ts_year a < ts_year b \/
                    (ts_year a = ts_year b /\
                     (ts_month a < ts_month b \/
                      (ts_month a = ts_month b /\ ts_day a < ts_day b)))))
      by (intros H; apply Hlt in H; discriminate).
    lia.
Qed.

Lemma date_min_spec (ds : list Timestamp) (x : Timestamp) :
  let m := fold_left (fun m y => if timestamp_ltb y m then y else m) ds x in
  In m (x :: ds) /\ timestamp_ltb x m = false /\
  forall y, In y ds -> timestamp_ltb y m = false.
Proof.
  revert x. induction ds as [|y ds IH]; intros x; cbn [fold_left].
  - split; [now left|]. split; [|intros y []].
    apply timestamp_ltb_ge. lia.
  - destruct (timestamp_ltb y x) eqn:E.
    + destruct (IH y) as (Hin & Hge & Hall).
      split; [now right|]. split; [|intros z [<-|Hz]; auto].
      apply timestamp_ltb_lt in E. apply timestamp_ltb_ge in Hge.
      apply timestamp_ltb_ge. lia.
    + destruct (IH x) as (Hin & Hge & Hall).
      split; [destruct Hin as [<-|Hin]; [now left | right; now right]|].
      split; [exact Hge|]. intros z [<-|Hz]; auto.
      apply timestamp_ltb_ge in E. apply timestamp_ltb_ge in Hge.
      apply timestamp_ltb_ge. lia.
Qed.

Lemma date_max_spec (ds : list Timestamp) (x : Timestamp) :
  let m := fold_left (fun m y => if timestamp_ltb m y then y else m) ds x in
  In m (x :: ds) /\ timestamp_ltb m x = false /\
  forall y, In y ds -> timestamp_ltb m y = false.
Proof.
  revert x. induction ds as [|y ds IH]; intros x; cbn [fold_left].
  - split; [now left|]. split; [|intros y []].
    apply timestamp_ltb_ge. lia.
  - destruct (timestamp_ltb x y) eqn:E.
    + destruct (IH y) as (Hin & Hge & Hall).
      split; [now right|]. split; [|intros z [<-|Hz]; auto].
      apply timestamp_ltb_lt in E. apply timestamp_ltb_ge in Hge.
      apply timestamp_ltb_ge. lia.
    + destruct (IH x) as (Hin & Hge & Hall).
      split; [destruct Hin as [<-|Hin]; [now left | right; now right]|].
      split; [exact Hge|]. intros z [<-|Hz]; auto.
      apply timestamp_ltb_ge in E. apply timestamp_ltb_ge in Hge.
      apply timestamp_ltb_ge. lia.
Qed.

End DatesInOrder.

Section CountingRain.

Lemma count_true_filter (bs : list bool) :
  Zsum (map bool_to_Z bs) = Z.of_nat (List.length (filter (fun b => b) bs)).
Proof.
  induction bs as [|[|] bs IH]; cbn [map Zsum fold_right filter List.length bool_to_Z].
  - reflexivity.
  - fold (Zsum (map bool_to_Z bs)). rewrite IH. lia.
  - fold (Zsum (map bool_to_Z bs)). rewrite IH. lia.
Qed.

Lemma mean_times_count (xs : list (option Q)) (m : Q) :
  nanmean xs = Some m -> (m * Qcount (dropna xs) == Qsum (dropna xs))%Q.
Proof.
  unfold nanmean. destruct (dropna xs) as [|x v] eqn:E; [discriminate|].
  intros Hm. injection Hm as Hm. rewrite <- Hm.
  assert (Hc : ~ (Qcount (x :: v) == 0)%Q) by (unfold Qcount, Qeq; simpl; lia).
  change (Qsum (x :: v)) with (x + Qsum v)%Q.
  field. exact Hc.
Qed.

End CountingRain.

(** X4: on a table with no rows [calculate_statistics] raises ValueError
    (the earliest of no dates cannot be formatted) and changes nothing. *)
Theorem statistics_of_empty_table (h : store) (r : ref) (t : DataFrame) :
  nth_error h r = Some t ->
  lookup "date" (columns t) = Some (DateCol []) ->
  calculate_statistics r h = (Raise ValueError, h).
Proof. intros Hr Hd. now apply (calculate_statistics_empty h r t). Qed.

(** X5: [calculate_statistics] raises when any of the six columns it reads
    is missing; a table without the basic features has no [tmean]. *)
Theorem statistics_need_every_column (h : store) (r : ref) (t : DataFrame) (name : string) :
  nth_error h r = Some t ->
  In name ["date"; "tmean"; "tmax"; "tmin"; "precipitation"; "windspeed_max"] ->
  lookup name (columns t) = None ->
  exists e, fst (calculate_statistics r h) = Raise e.
Proof. intros Hr. now apply calculate_statistics_missing. Qed.

Section StatisticsValues.

Variables (h : store) (r : ref) (t : DataFrame).
Variables (d : list Timestamp) (d0 : Timestamp).
Variables (tmean tmax tmin precipitation windspeed_max : list (option Q)).
Hypothesis Hr : nth_error h r = Some t.
Hypothesis Hd : lookup "date" (columns t) = Some (DateCol (d0 :: d)).
Hypothesis H1 : lookup "tmean" (columns t) = Some (NumCol tmean).
Hypothesis H2 : lookup "tmax" (columns t) = Some (NumCol tmax).
Hypothesis H3 : lookup "tmin" (columns t) = Some (NumCol tmin).
Hypothesis H4 : lookup "precipitation" (columns t) = Some (NumCol precipitation).
Hypothesis H5 : lookup "windspeed_max" (columns t) = Some (NumCol windspeed_max).

(** X6: the absolute maximum that [calculate_statistics] reports is one of
    the [tmax] observations, verbatim, and none is above it; the absolute
    minimum is one of the [tmin] observations and none is below it; the
    count is the number of rows. *)
Theorem statistics_extremes :
  dropna tmax <> [] -> dropna tmin <> [] ->
  exists s hi lo,
    calculate_statistics r h = (Ok s, h) /\
    count s = nrows t /\
    temperature_absolute_max s = Some hi /\
    In (Some hi) tmax /\ (forall x, In (Some x) tmax -> (x <= hi)%Q) /\
    temperature_absolute_min s = Some lo /\
    In (Some lo) tmin /\ (forall x, In (Some x) tmin -> (lo <= x)%Q).
Proof.
  intros Hmax Hmin.
  destruct (calculate_statistics_run h r t Hr d d0 _ _ _ _ _ Hd H1 H2 H3 H4 H5)
    as (start & stop & _ & _ & s1 & s2 & _ & _ & Hrun).
  destruct (Qmaxl_spec _ Hmax) as (hi & Ehi & Hin_hi & Hall_hi).
  destruct (Qminl_spec _ Hmin) as (lo & Elo & Hin_lo & Hall_lo).
  eexists _, hi, lo. split; [exact Hrun|]. cbn.
  split; [reflexivity|]. split; [exact Ehi|]. split; [now apply In_dropna|].
  split; [intros x Hx; apply Hall_hi; now apply In_dropna|].
  split; [exact Elo|]. split; [now apply In_dropna|].
  intros x Hx. apply Hall_lo. now apply In_dropna.
Qed.

(** X7: the precipitation figures: the total is the sum of the
    observations; the daily mean is that total divided by the number of
    observations, and NaN exactly when there is none; the rainy days are
    the rows with precipitation above 0, never more than the rows of the
    column. *)
Theorem statistics_precipitation :
  exists s total,
    calculate_statistics r h = (Ok s, h) /\
    precipitation_total s = Some total /\
    (total == Qsum (dropna precipitation))%Q /\
    (forall m, precipitation_mean_daily s = Some m ->
               (m == total / Qcount (dropna precipitation))%Q) /\
    (precipitation_mean_daily s = None <-> dropna precipitation = []) /\
    precipitation_days_with_rain s =
      Z.of_nat (List.length (filter (gt_scalar (Some (0 # 1))) precipitation)) /\
    0 <= precipitation_days_with_rain s <= Z.of_nat (List.length precipitation).
Proof.
  destruct (calculate_statistics_run h r t Hr d d0 _ _ _ _ _ Hd H1 H2 H3 H4 H5)
    as (start & stop & _ & _ & s1 & s2 & _ & _ & Hrun).
  eexists _, _. split; [exact Hrun|]. cbn.
  split; [reflexivity|]. split; [reflexivity|].
  split.
  { intros m Hm. unfold nanmean in Hm.
    destruct (dropna precipitation) as [|x v]; [discriminate|].
    injection Hm as Hm. rewrite <- Hm. reflexivity. }
  split.
  { unfold nanmean. destruct (dropna precipitation) as [|x v].
    - split; reflexivity.
    - split; discriminate. }
  rewrite count_true_filter, filter_map_comm, length_map.
  split; [reflexivity|].
  split; [lia | apply Nat2Z.inj_le, filter_length_le].
Qed.

(** X8: the date range that [calculate_statistics] reports is the earliest
    and the latest date of the table, whatever the order of its rows, each
    formatted as year-month-day. *)
Theorem statistics_date_range :
  exists s first last,
    calculate_statistics r h = (Ok s, h) /\
    In first (d0 :: d) /\ In last (d0 :: d) /\
    (forall x, In x (d0 :: d) ->
               timestamp_ltb x first = false /\ timestamp_ltb last x = false) /\
    strftime_ymd (Some first) = Ok (date_range_start s) /\
    strftime_ymd (Some last) = Ok (date_range_end s).
Proof.
  destruct (calculate_statistics_run h r t Hr d d0 _ _ _ _ _ Hd H1 H2 H3 H4 H5)
    as (start & stop & Hstart & Hstop & s1 & s2 & Hs1 & Hs2 & Hrun).
  cbn [date_min date_max] in Hstart, Hstop.
  injection Hstart as Hstart. injection Hstop as Hstop.
  destruct (date_min_spec d d0) as (Hin1 & Hge1 & Hall1).
  destruct (date_max_spec d d0) as (Hin2 & Hge2 & Hall2).
  cbv zeta in Hin1, Hge1, Hall1, Hin2, Hge2, Hall2.
  rewrite Hstart in Hin1, Hge1, Hall1. rewrite Hstop in Hin2, Hge2, Hall2.
  eexists _, start, stop. split; [exact Hrun|].
  split; [exact Hin1|]. split; [exact Hin2|].
  split; [|split; [exact Hs1 | exact Hs2]].
  intros x [<-|Hx]; split; auto.
Qed.

End StatisticsValues.

Section HalfSums.

Lemma map2_Some (f : Q -> Q -> Q) (a b : list Q) :
  map2 (lift2 f) (map Some a) (map Some b) = map Some (map2 f a b).
Proof.
  unfold map2. revert b. induction a as [|x a IH]; intros [|y b]; simpl; try reflexivity.
  now rewrite IH.
Qed.

Lemma halves_Some (l : list Q) :
  map (fun v => lift2 Qdiv v (Some (2 # 1))) (map Some l) =
  map Some (map (fun x => x / (2 # 1))%Q l).
Proof. rewrite !map_map. reflexivity. Qed.

(** The sum of the row-wise means of two columns is the mean of their
    sums. *)
Lemma Qsum_half_sum (a b : list Q) :
  List.length a = List.length b ->
  (Qsum (map (fun x => x / (2 # 1)) (map2 Qplus a b)) == (Qsum a + Qsum b) / (2 # 1))%Q.
Proof.
  unfold map2. revert b. induction a as [|x a IH]; intros [|y b] Hlen;
    try discriminate.
  - simpl. reflexivity.
  - injection Hlen as Hlen. specialize (IH b Hlen).
    cbn [combine map Qsum fold_right fst snd].
    fold (Qsum (map (fun x => x / (2 # 1))%Q
                  (map (fun p => fst p + snd p)%Q (combine a b)))).
    fold (Qsum a). fold (Qsum b). rewrite IH. field.
Qed.

Lemma nanmean_Some (l : list Q) :
  l <> [] -> nanmean (map Some l) = Some (Qsum l / Qcount l)%Q.
Proof.
  intros Hne. unfold nanmean. rewrite dropna_map_Some.
  destruct l; [congruence | reflexivity].
Qed.

End HalfSums.

(** X9: over complete observations, the statistics of a table with its
    basic features report a mean temperature that is the midpoint of the
    mean maximum and the mean minimum. *)
Theorem mean_temperature_is_midpoint
    (h : store) (r : ref) (t : DataFrame) (d : list Timestamp) (d0 : Timestamp)
    (a b : list Q) (precipitation windspeed_max : list (option Q)) :
  nth_error h r = Some t ->
  lookup "date" (columns t) = Some (DateCol (d0 :: d)) ->
  lookup "tmax" (columns t) = Some (NumCol (map Some a)) ->
  lookup "tmin" (columns t) = Some (NumCol (map Some b)) ->
  lookup "precipitation" (columns t) = Some (NumCol precipitation) ->
  lookup "windspeed_max" (columns t) = Some (NumCol windspeed_max) ->
  List.length a = List.length b ->
  a <> [] ->
  exists s h' mean_avg mean_max mean_min,
    bind (add_basic_features r) calculate_statistics h = (Ok s, h') /\
    temperature_mean_avg s = Some mean_avg /\
    temperature_mean_max s = Some mean_max /\
    temperature_mean_min s = Some mean_min /\
    (mean_avg == (mean_max + mean_min) / (2 # 1))%Q.
Proof.
  intros Hr Hd Ha Hb Hp Hw Hlen Hne.
  destruct (add_basic_features_run h r t _ _ _ Hr Ha Hb Hd)
    as (t1 & Hrun1 & _ & Htm & _ & _ & _ & _ & _ & Hother).
  rewrite map2_Some, halves_Some in Htm.
  assert (Hd1 : lookup "date" (columns t1) = Some (DateCol (d0 :: d)))
    by (rewrite Hother; [exact Hd | simpl; intuition discriminate]).
  assert (Ha1 : lookup "tmax" (columns t1) = Some (NumCol (map Some a)))
    by (rewrite Hother; [exact Ha | simpl; intuition discriminate]).
  assert (Hb1 : lookup "tmin" (columns t1) = Some (NumCol (map Some b)))
    by (rewrite Hother; [exact Hb | simpl; intuition discriminate]).
  assert (Hp1 : lookup "precipitation" (columns t1) = Some (NumCol precipitation))
    by (rewrite Hother; [exact Hp | simpl; intuition discriminate]).
  assert (Hw1 : lookup "windspeed_max" (columns t1) = Some (NumCol windspeed_max))
    by (rewrite Hother; [exact Hw | simpl; intuition discriminate]).
  destruct (calculate_statistics_run (h ++ [t1]) (List.length h) t1
              (nth_error_last h t1) d d0 _ _ _ _ _ Hd1 Htm Ha1 Hb1 Hp1 Hw1)
    as (start & stop & _ & _ & s1 & s2 & _ & _ & Hrun2).
  assert (Hb_ne : b <> []) by (destruct a, b; simpl in Hlen; congruence).
  assert (Hm_ne : map (fun x => x / (2 # 1))%Q (map2 Qplus a b) <> []).
  { destruct a, b; simpl in *; congruence. }
  eexists _, _, _, _, _. split.
  - rewrite bind_run, Hrun1. exact Hrun2.
  - cbn. rewrite !nanmean_Some by assumption.
    repeat (split; [reflexivity|]).
    rewrite Qsum_half_sum by exact Hlen.
    assert (Hc : Qcount (map (fun x => x / (2 # 1))%Q (map2 Qplus a b)) = Qcount a).
    { unfold Qcount. now rewrite length_map, map2_length, <- Hlen, Nat.min_id. }
    assert (Hc' : Qcount b = Qcount a) by (unfold Qcount; now rewrite Hlen).
    rewrite Hc, Hc'.
    assert (Hn : ~ (Qcount a == 0)%Q).
    { unfold Qcount, Qeq. destruct a; [congruence | simpl; lia]. }
    field. exact Hn.
Qed.

(** * Beyond the claims: the rolling smoother *)

Section RollingValues.

(** The [2k+1] values centred on row [i]. *)
Lemma window_slice (v : list Q) (k i : nat) :
  (k <= i)%nat -> (i + k < List.length v)%nat ->
  window_values (map Some v) (2 * k + 1) i = map Some (centred k i v) /\
  List.length (centred k i v) = (2 * k + 1)%nat.
Proof.
  intros Hk Hn. unfold window_values, window_bounds, centred.
  rewrite odd_offset, length_map.
  replace (Nat.min (i + 1 + k - (2 * k + 1)) (List.length v)) with (i - k)%nat by lia.
  replace (Nat.min (i + 1 + k) (List.length v)) with (i + 1 + k)%nat by lia.
  replace (i + 1 + k - (i - k))%nat with (2 * k + 1)%nat by lia.
  split; [now rewrite skipn_map, firstn_map|].
  rewrite length_firstn, length_skipn. lia.
Qed.

Lemma roll_mean_full (k : nat) (w : list Q) :
  List.length w = (2 * k + 1)%nat ->
  roll_mean (2 * k + 1) (map Some w) = Some (Qsum w / Qcount w)%Q.
Proof.
  intros Hlen. unfold roll_mean. rewrite dropna_map_Some, Hlen, Nat.leb_refl.
  replace (0 <? 2 * k + 1)%nat with true by (symmetry; apply Nat.ltb_lt; lia).
  reflexivity.
Qed.

Lemma roll_sum_full (k : nat) (w : list Q) :
  List.length w = (2 * k + 1)%nat ->
  roll_sum (2 * k + 1) (map Some w) = Some (Qsum w).
Proof.
  intros Hlen. unfold roll_sum. rewrite dropna_map_Some, Hlen, Nat.leb_refl.
  replace (2 * k + 1 =? 0)%nat with false by (symmetry; apply Nat.eqb_neq; lia).
  now rewrite andb_false_r.
Qed.

Lemma rolling_apply_nth (f : nat -> list (option Q) -> option Q)
    (xs : list (option Q)) (window i : nat) :
  (i < List.length xs)%nat ->
  nth_error (rolling_apply f xs window) i = Some (f window (window_values xs window i)).
Proof.
  intros Hi. unfold rolling_apply. rewrite nth_error_map, nth_error_seq.
  destruct (Nat.ltb_spec i (List.length xs)); [reflexivity | lia].
Qed.

Lemma Qsum_repeat (c : Q) (n : nat) :
  (Qsum (repeat c n) == inject_Z (Z.of_nat n) * c)%Q.
Proof.
  induction n as [|n IH].
  - simpl. ring.
  - cbn [repeat Qsum fold_right]. fold (Qsum (repeat c n)).
    rewrite IH, Nat2Z.inj_succ. unfold Z.succ. rewrite inject_Z_plus. ring.
Qed.

Lemma firstn_repeat {A} (x : A) (m n : nat) :
  firstn m (repeat x n) = repeat x (Nat.min m n).
Proof.
  revert n. induction m as [|m IH]; intros [|n]; simpl; try reflexivity.
  now rewrite IH.
Qed.

Lemma skipn_repeat {A} (x : A) (m n : nat) :
  skipn m (repeat x n) = repeat x (n - m).
Proof.
  revert n. induction m as [|m IH]; intros [|n]; simpl; try reflexivity.
  apply IH.
Qed.

End RollingValues.

(** X10: over complete observations and an odd window [2k+1], every row
    that is at least [k] rows from both ends gets, in [tmean_7d], [tmax_7d]
    and [tmin_7d], the mean of the [2k+1] values centred on it, and in
    [precip_7d] their sum. *)
Theorem rolling_values
    (h : store) (r : ref) (t : DataFrame) (v1 v2 v3 v4 : list Q) (k i : nat) :
  nth_error h r = Some t ->
  lookup "tmean" (columns t) = Some (NumCol (map Some v1)) ->
  lookup "tmax" (columns t) = Some (NumCol (map Some v2)) ->
  lookup "tmin" (columns t) = Some (NumCol (map Some v3)) ->
  lookup "precipitation" (columns t) = Some (NumCol (map Some v4)) ->
  List.length v1 = nrows t -> List.length v2 = nrows t ->
  List.length v3 = nrows t -> List.length v4 = nrows t ->
  (k <= i)%nat -> (i + k < nrows t)%nat ->
  exists t' c1 c2 c3 c4,
    add_rolling_averages r (2 * Z.of_nat k + 1) h = (Ok (List.length h), h ++ [t']) /\
    lookup "tmean_7d" (columns t') = Some (NumCol c1) /\
    lookup "tmax_7d" (columns t') = Some (NumCol c2) /\
    lookup "tmin_7d" (columns t') = Some (NumCol c3) /\
    lookup "precip_7d" (columns t') = Some (NumCol c4) /\
    nth_error c1 i = Some (Some (Qsum (centred k i v1) / inject_Z (2 * Z.of_nat k + 1))%Q) /\
    nth_error c2 i = Some (Some (Qsum (centred k i v2) / inject_Z (2 * Z.of_nat k + 1))%Q) /\
    nth_error c3 i = Some (Some (Qsum (centred k i v3) / inject_Z (2 * Z.of_nat k + 1))%Q) /\
    nth_error c4 i = Some (Some (Qsum (centred k i v4))).
Proof.
  intros Hr H1 H2 H3 H4 L1 L2 L3 L4 Hk Hn.
  assert (Hw : 0 <= 2 * Z.of_nat k + 1) by lia.
  destruct (add_rolling_averages_run h r t _ _ _ _ _ Hr H1 H2 H3 H4 Hw)
    as (t' & Hrun & _ & C1 & C2 & C3 & C4 & _).
  replace (Z.to_nat (2 * Z.of_nat k + 1)) with (2 * k + 1)%nat in * by lia.
  assert (Hmean : forall v, List.length v = nrows t ->
             nth_error (rolling_apply roll_mean (map Some v) (2 * k + 1)) i
             = Some (Some (Qsum (centred k i v) / inject_Z (2 * Z.of_nat k + 1))%Q)).
  { intros v L. rewrite rolling_apply_nth by (rewrite length_map; lia).
    destruct (window_slice v k i Hk ltac:(lia)) as [-> Hlen].
    rewrite (roll_mean_full k _ Hlen). unfold Qcount. rewrite Hlen.
    do 4 f_equal. lia. }
  eexists t', _, _, _, _. split; [exact Hrun|].
  split; [exact C1|]. split; [exact C2|]. split; [exact C3|]. split; [exact C4|].
  split; [now apply Hmean|]. split; [now apply Hmean|]. split; [now apply Hmean|].
  rewrite rolling_apply_nth by (rewrite length_map; lia).
  destruct (window_slice v4 k i Hk ltac:(lia)) as [-> Hlen].
  now rewrite (roll_sum_full k _ Hlen).
Qed.

Section RollingMidpoint.

Lemma skipn_combine_both {A B} (n : nat) (l : list A) (l' : list B) :
  skipn n (combine l l') = combine (skipn n l) (skipn n l').
Proof.
  revert l l'. induction n as [|n IH]; intros [|x l] [|y l']; simpl; try reflexivity.
  - now destruct (skipn n l).
  - apply IH.
Qed.

Lemma centred_map2 {A B C} (f : A -> B -> C) (k i : nat) (a : list A) (b : list B) :
  centred k i (map2 f a b) = map2 f (centred k i a) (centred k i b).
Proof.
  unfold centred, map2. now rewrite skipn_map, firstn_map, skipn_combine_both, combine_firstn.
Qed.

Lemma centred_map {A B} (f : A -> B) (k i : nat) (a : list A) :
  centred k i (map f a) = map f (centred k i a).
Proof. unfold centred. now rewrite skipn_map, firstn_map. Qed.

Lemma centred_length {A} (k i : nat) (v : list A) :
  (k <= i)%nat -> (i + k < List.length v)%nat ->
  List.length (centred k i v) = (2 * k + 1)%nat.
Proof.
  intros Hk Hn. unfold centred. rewrite length_firstn, length_skipn. lia.
Qed.

End RollingMidpoint.

(** X11: smoothing after the basic features, over complete observations:
    on every row that has a full window, the rolling mean of [tmean] is the
    midpoint of the rolling means of [tmax] and [tmin]. *)
Theorem rolling_mean_is_midpoint
    (h : store) (r : ref) (t : DataFrame) (d : list Timestamp)
    (a b : list Q) (precipitation : list (option Q)) (k i : nat) :
  nth_error h r = Some t ->
  lookup "date" (columns t) = Some (DateCol d) ->
  lookup "tmax" (columns t) = Some (NumCol (map Some a)) ->
  lookup "tmin" (columns t) = Some (NumCol (map Some b)) ->
  lookup "precipitation" (columns t) = Some (NumCol precipitation) ->
  List.length a = List.length b ->
  (k <= i)%nat -> (i + k < List.length a)%nat ->
  exists r' h' t' c1 c2 c3 m hi lo,
    bind (add_basic_features r)
      (fun df => add_rolling_averages df (2 * Z.of_nat k + 1)) h = (Ok r', h') /\
    nth_error h' r' = Some t' /\
    lookup "tmean_7d" (columns t') = Some (NumCol c1) /\
    lookup "tmax_7d" (columns t') = Some (NumCol c2) /\
    lookup "tmin_7d" (columns t') = Some (NumCol c3) /\
    nth_error c1 i = Some (Some m) /\
    nth_error c2 i = Some (Some hi) /\
    nth_error c3 i = Some (Some lo) /\
    (m == (hi + lo) / (2 # 1))%Q.
Proof.
  intros Hr Hd Ha Hb Hp Hlen Hk Hn.
  destruct (add_basic_features_run h r t _ _ _ Hr Ha Hb Hd)
    as (t1 & Hrun1 & _ & Htm & _ & _ & _ & _ & _ & Hother).
  rewrite map2_Some, halves_Some in Htm.
  assert (Ha1 : lookup "tmax" (columns t1) = Some (NumCol (map Some a)))
    by (rewrite Hother; [exact Ha | simpl; intuition discriminate]).
  assert (Hb1 : lookup "tmin" (columns t1) = Some (NumCol (map Some b)))
    by (rewrite Hother; [exact Hb | simpl; intuition discriminate]).
  assert (Hp1 : lookup "precipitation" (columns t1) = Some (NumCol precipitation))
    by (rewrite Hother; [exact Hp | simpl; intuition discriminate]).
  assert (Hw : 0 <= 2 * Z.of_nat k + 1) by lia.
  destruct (add_rolling_averages_run (h ++ [t1]) (List.length h) t1 _ _ _ _ _
              (nth_error_last h t1) Htm Ha1 Hb1 Hp1 Hw)
    as (t2 & Hrun2 & _ & C1 & C2 & C3 & _ & _).
  replace (Z.to_nat (2 * Z.of_nat k + 1)) with (2 * k + 1)%nat in * by lia.
  set (mid := map (fun x => x / (2 # 1))%Q (map2 Qplus a b)) in *.
  assert (Lmid : List.length mid = List.length a).
  { unfold mid. now rewrite length_map, map2_length, <- Hlen, Nat.min_id. }
  assert (Hmean : forall v, List.length v = List.length a ->
             nth_error (rolling_apply roll_mean (map Some v) (2 * k + 1)) i
             = Some (Some (Qsum (centred k i v) / Qcount (centred k i v))%Q)).
  { intros v L. rewrite rolling_apply_nth by (rewrite length_map; lia).
    destruct (window_slice v k i Hk ltac:(lia)) as [-> Hl].
    now rewrite (roll_mean_full k _ Hl). }
  eexists _, _, t2, _, _, _, _, _, _. split.
  - rewrite bind_run, Hrun1. exact Hrun2.
  - split; [apply nth_error_last|].
    split; [exact C1|]. split; [exact C2|]. split; [exact C3|].
    split; [now apply Hmean|]. split; [now apply Hmean|].
    split; [apply Hmean; now symmetry|].
    unfold mid. rewrite centred_map, centred_map2.
    assert (La : List.length (centred k i a) = (2 * k + 1)%nat)
      by (apply centred_length; lia).
    assert (Lb : List.length (centred k i b) = (2 * k + 1)%nat)
      by (apply centred_length; lia).
    rewrite Qsum_half_sum by congruence.
    unfold Qcount. rewrite length_map, map2_length, La, Lb, Nat.min_id.
    assert (Hc : ~ (inject_Z (Z.of_nat (2 * k + 1)) == 0)%Q).
    { unfold Qeq. simpl. lia. }
    field. exact Hc.
Qed.

(** * Beyond the claims: the extreme-event detector *)

Section FlagFacts.

Lemma gt_scalar_true (thr x : option Q) :
  gt_scalar thr x = true -> exists v q, x = Some v /\ thr = Some q /\ (q < v)%Q.
Proof.
  destruct x as [v|], thr as [q|]; simpl; try discriminate.
  intros H. exists v, q. repeat split. now apply Qltb_true.
Qed.

Lemma lt_scalar_true (thr x : option Q) :
  lt_scalar thr x = true -> exists v q, x = Some v /\ thr = Some q /\ (v < q)%Q.
Proof.
  destruct x as [v|], thr as [q|]; simpl; try discriminate.
  intros H. exists v, q. repeat split. now apply Qltb_true.
Qed.

Lemma flags_exclude (hi lo : option Q) (xs : list (option Q)) (i : nat) :
  (forall a b, hi = Some a -> lo = Some b -> (b <= a)%Q) ->
  ~ (nth_error (map (gt_scalar hi) xs) i = Some true /\
     nth_error (map (lt_scalar lo) xs) i = Some true).
Proof.
  intros Hord [Hheat Hcold]. rewrite nth_error_map in Hheat, Hcold.
  destruct (nth_error xs i) as [x|]; [|discriminate].
  cbn [option_map] in Hheat, Hcold.
  injection Hheat as Hheat. injection Hcold as Hcold.
  destruct (gt_scalar_true _ _ Hheat) as (v & a & -> & Ha & Hlt).
  destruct (lt_scalar_true _ _ Hcold) as (v' & b & [= <-] & Hb & Hgt).
  specialize (Hord a b Ha Hb). lra.
Qed.

End FlagFacts.

(** X12: no row is flagged both extreme heat and extreme cold: with
    anomalies, for every temperature threshold that is not negative;
    without them, always, because the 5th percentile of [tmean] is never
    above its 95th. *)
Theorem heat_and_cold_exclude
    (h : store) (r : ref) (t : DataFrame) (pv : list (option Q))
    (temp_threshold precip_threshold : Q) :
  nth_error h r = Some t ->
  lookup "precipitation" (columns t) = Some (NumCol pv) ->
  (0 <= precip_threshold)%Q ->
  (precip_threshold <= 100 # 1)%Q ->
  (forall an,
      lookup "temp_anomaly" (columns t) = Some (NumCol an) ->
      (0 <= temp_threshold)%Q ->
      exists t' heat cold,
        stage_result (detect_extreme_events r temp_threshold precip_threshold) h = Ok t' /\
        lookup "extreme_heat" (columns t') = Some (BoolCol heat) /\
        lookup "extreme_cold" (columns t') = Some (BoolCol cold) /\
        forall i, ~ (nth_error heat i = Some true /\ nth_error cold i = Some true)) /\
  (forall tv,
      lookup "temp_anomaly" (columns t) = None ->
      lookup "tmean" (columns t) = Some (NumCol tv) ->
      exists t' heat cold,
        stage_result (detect_extreme_events r temp_threshold precip_threshold) h = Ok t' /\
        lookup "extreme_heat" (columns t') = Some (BoolCol heat) /\
        lookup "extreme_cold" (columns t') = Some (BoolCol cold) /\
        forall i, ~ (nth_error heat i = Some true /\ nth_error cold i = Some true)).
Proof.
  intros Hr Hp Hlo Hhi. split.
  - intros an Ha Hthr.
    destruct (detect_extreme_events_anomaly h r t pv temp_threshold precip_threshold
                Hr Hp Hlo Hhi an Ha) as (t' & Hrun & _ & H1 & H2 & _).
    eexists t', _, _. split; [exact Hrun|]. split; [exact H1|]. split; [exact H2|].
    intros i. apply flags_exclude. intros a b [= <-] [= <-]. lra.
  - intros tv Ha Ht.
    destruct (detect_extreme_events_percentile h r t pv temp_threshold precip_threshold
                Hr Hp Hlo Hhi tv Ha Ht) as (t' & Hrun & _ & H1 & H2 & _).
    eexists t', _, _. split; [exact Hrun|]. split; [exact H1|]. split; [exact H2|].
    intros i. apply flags_exclude. intros a b Ea Eb.
    apply (percentile_monotone tv (5 # 100) (95 # 100) b a); auto;
      unfold Qle; simpl; lia.
Qed.

(** X13: a row whose precipitation is at most every observation of the
    table, or is NaN, is never flagged extreme precipitation, whatever the
    percentile; a table with the same precipitation on every day has no
    extreme precipitation day. *)
Theorem driest_rows_not_extreme
    (h : store) (r : ref) (t : DataFrame) (pv : list (option Q))
    (temp_threshold precip_threshold : Q) :
  nth_error h r = Some t ->
  lookup "precipitation" (columns t) = Some (NumCol pv) ->
  (0 <= precip_threshold)%Q ->
  (precip_threshold <= 100 # 1)%Q ->
  (exists an, lookup "temp_anomaly" (columns t) = Some (NumCol an)) \/
  (lookup "temp_anomaly" (columns t) = None /\
   exists tv, lookup "tmean" (columns t) = Some (NumCol tv)) ->
  exists t' flags,
    stage_result (detect_extreme_events r temp_threshold precip_threshold) h = Ok t' /\
    lookup "extreme_precip" (columns t') = Some (BoolCol flags) /\
    List.length flags = List.length pv /\
    (forall i x,
        nth_error pv i = Some (Some x) ->
        (forall y, In (Some y) pv -> (x <= y)%Q) ->
        nth_error flags i = Some false) /\
    (forall i, nth_error pv i = Some None -> nth_error flags i = Some false).
Proof.
  intros Hr Hp Hlo Hhi Hbranch.
  assert (Hrun : exists t',
             stage_result (detect_extreme_events r temp_threshold precip_threshold) h
             = Ok t' /\
             lookup "extreme_precip" (columns t') =
             Some (BoolCol (map (gt_scalar (percentile pv (precip_threshold / (100 # 1))%Q))
                              pv))).
  { destruct Hbranch as [[an Ha]|[Ha [tv Ht]]].
    - destruct (detect_extreme_events_anomaly h r t pv temp_threshold precip_threshold
                  Hr Hp Hlo Hhi an Ha) as (t' & Hrun & _ & _ & _ & H3 & _).
      now exists t'.
    - destruct (detect_extreme_events_percentile h r t pv temp_threshold precip_threshold
                  Hr Hp Hlo Hhi tv Ha Ht) as (t' & Hrun & _ & _ & _ & H3 & _).
      now exists t'. }
  destruct Hrun as (t' & Hrun & Hflags).
  eexists t', _. split; [exact Hrun|]. split; [exact Hflags|].
  split; [apply length_map|]. split.
  - intros i x Hi Hmin. rewrite nth_error_map, Hi. cbn [option_map]. f_equal.
    destruct (gt_scalar _ (Some x)) eqn:E; [|reflexivity].
    destruct (gt_scalar_true _ _ E) as (v & q & [= <-] & Hq & Hlt).
    destruct (percentile_bounds _ _ _ Hq) as [Hlow _].
    specialize (Hlow x Hmin). lra.
  - intros i Hi. now rewrite nth_error_map, Hi.
Qed.


Lemma series_quantile_out_of_range (c : column) (q : Q) :
  (q < 0)%Q \/ (1 < q)%Q -> series_quantile c q = Raise ValueError.
Proof.
  intros Hq. unfold series_quantile.
  assert (Qltb q (0 # 1) || Qltb (1 # 1) q = true) as ->; [|reflexivity].
  apply orb_true_iff. destruct Hq; [left | right]; now apply Qltb_true.
Qed.

(** X14: a precipitation percentile below 0 or above 100 makes
    [detect_extreme_events] raise ValueError, after the temperature flags
    were computed on the copy. *)
Theorem percentile_out_of_range_raises
    (h : store) (r : ref) (t : DataFrame) (precipitation : column)
    (temp_threshold precip_threshold : Q) :
  nth_error h r = Some t ->
  lookup "precipitation" (columns t) = Some precipitation ->
  (precip_threshold < 0)%Q \/ (100 # 1 < precip_threshold)%Q ->
  (exists an, lookup "temp_anomaly" (columns t) = Some (NumCol an)) \/
  (lookup "temp_anomaly" (columns t) = None /\
   exists tv, lookup "tmean" (columns t) = Some (NumCol tv)) ->
  stage_result (detect_extreme_events r temp_threshold precip_threshold) h
  = Raise ValueError.
Proof.
  intros Hr Hp Hrange Hbranch.
  assert (Hq : series_quantile precipitation (precip_threshold / (100 # 1))%Q
               = Raise ValueError).
  { apply series_quantile_out_of_range. destruct Hrange as [Hlt|Hgt]; [left | right].
    - apply Qlt_shift_div_r; [reflexivity | now rewrite Qmult_0_l].
    - apply Qlt_shift_div_l; [reflexivity | now rewrite Qmult_1_l]. }
  unfold stage_result, detect_extreme_events. run_copy Hr.
  destruct Hbranch as [[an Ha]|[Ha [tv Ht]]].
  - assert (HA : has_column "temp_anomaly" t = true)
      by (unfold has_column; now rewrite Ha).
    repeat (first [ rewrite bind_assoc | run_step | rewrite Hq ]; cbn beta iota).
    reflexivity.
  - assert (HA : has_column "temp_anomaly" t = false)
      by (unfold has_column; now rewrite Ha).
    assert (H95 : series_quantile (NumCol tv) (95 # 100) = Ok (percentile tv (95 # 100)))
      by (apply series_quantile_float; unfold Qle; simpl; lia).
    assert (H5 : series_quantile (NumCol tv) (5 # 100) = Ok (percentile tv (5 # 100)))
      by (apply series_quantile_float; unfold Qle; simpl; lia).
    repeat (first [ rewrite bind_assoc | run_step | rewrite H95 | rewrite H5
                  | rewrite Hq ]; cbn beta iota).
    reflexivity.
Qed.

(** * Beyond the claims: the monthly aggregator *)

Section Conservation.

Lemma Qsum_ext {A} (f g : A -> Q) (l : list A) :
  (forall k, In k l -> (f k == g k)%Q) -> (Qsum (map f l) == Qsum (map g l))%Q.
Proof.
  induction l as [|k l IH]; intros Hfg; [reflexivity|].
  cbn [map Qsum fold_right]. fold (Qsum (map f l)). fold (Qsum (map g l)).
  rewrite (Hfg k (or_introl eq_refl)), IH; [reflexivity|].
  intros k' Hk'. apply Hfg. now right.
Qed.

Lemma Qsum_map_plus {A} (f g : A -> Q) (l : list A) :
  (Qsum (map (fun k => f k + g k) l) == Qsum (map f l) + Qsum (map g l))%Q.
Proof.
  induction l as [|k l IH]; [simpl; ring|].
  cbn [map Qsum fold_right]. fold (Qsum (map (fun k => f k + g k)%Q l)).
  fold (Qsum (map f l)). fold (Qsum (map g l)). rewrite IH. ring.
Qed.

Lemma Qsum_zero {A} (l : list A) : (Qsum (map (fun _ => 0 # 1) l) == 0)%Q.
Proof.
  induction l as [|k l IH]; [reflexivity|].
  cbn [map Qsum fold_right]. fold (Qsum (map (fun _ : A => (0 # 1)%Q) l)).
  rewrite IH. ring.
Qed.

(** Each row counts in exactly one group. *)
Lemma Qsum_indicator (p : Z) (c : Q) (groups : list Z) :
  NoDup groups -> In p groups ->
  (Qsum (map (fun k => if k =? p then c else 0 # 1) groups) == c)%Q.
Proof.
  induction 1 as [|k groups Hnot Hnd IH]; intros Hin; [destruct Hin|].
  cbn [map Qsum fold_right].
  fold (Qsum (map (fun k => if k =? p then c else (0 # 1)%Q) groups)).
  destruct Hin as [->|Hin].
  - rewrite Z.eqb_refl.
    rewrite (Qsum_ext _ (fun _ => (0 # 1)%Q)), Qsum_zero; [ring|].
    intros k Hk. destruct (Z.eqb_spec k p) as [->|]; [tauto | reflexivity].
  - destruct (Z.eqb_spec k p) as [->|]; [tauto|]. rewrite IH by exact Hin. ring.
Qed.

Lemma Qsum_dropna_cons (x : option Q) (l : list (option Q)) :
  (Qsum (dropna (x :: l)) == observed x + Qsum (dropna l))%Q.
Proof.
  destruct x as [q|]; unfold dropna; cbn [flat_map app observed Qsum fold_right].
  - reflexivity.
  - fold (Qsum (flat_map (fun x => match x with Some q => [q] | None => [] end) l)).
    ring.
Qed.

Lemma period_group_step {A} (k p : Z) (ps : list Z) (x : A) (xs : list A) :
  period_group k (p :: ps) (x :: xs) =
  if k =? p then x :: period_group k ps xs else period_group k ps xs.
Proof.
  unfold period_group, group_values.
  cbn [map combine filter fst in_group key_eqb].
  destruct (k =? p); reflexivity.
Qed.

Lemma period_group_cons (k p : Z) (ps : list Z) (x : option Q) (xs : list (option Q)) :
  (Qsum (dropna (period_group k (p :: ps) (x :: xs))) ==
   (if k =? p then observed x else 0 # 1) + Qsum (dropna (period_group k ps xs)))%Q.
Proof.
  rewrite period_group_step. destruct (k =? p).
  - apply Qsum_dropna_cons.
  - ring.
Qed.

(** The group sums of a column add up to the sum of the column. *)
Lemma group_sums_total (groups ps : list Z) (xs : list (option Q)) :
  NoDup groups -> (forall p, In p ps -> In p groups) ->
  List.length xs = List.length ps ->
  (Qsum (map (fun k => Qsum (dropna (period_group k ps xs))) groups) ==
   Qsum (dropna xs))%Q.
Proof.
  intros Hnd. revert xs. induction ps as [|p ps IH]; intros [|x xs] Hcover Hlen;
    try discriminate.
  - apply Qsum_zero.
  - injection Hlen as Hlen.
    rewrite (Qsum_ext _ (fun k => (if k =? p then observed x else 0 # 1)
                                  + Qsum (dropna (period_group k ps xs)))%Q)
      by (intros k _; apply period_group_cons).
    rewrite Qsum_map_plus, Qsum_indicator, IH; auto.
    + symmetry. apply Qsum_dropna_cons.
    + intros p' Hp'. apply Hcover. now right.
    + apply Hcover. now left.
Qed.

End Conservation.

(** X15: in exact arithmetic, monthly aggregation conserves precipitation:
    the monthly precipitation values add up to the sum of the daily
    precipitation of the input (NaN skipped), whatever the order of the
    rows.  The sums are those of the rationals of this file: float64 rounds
    the monthly sums and the daily sum differently. *)
Theorem monthly_precipitation_conserved
    (h : store) (r : ref) (t : DataFrame) (d : list Timestamp) (xs : list (option Q)) :
  nth_error h r = Some t ->
  lookup "date" (columns t) = Some (DateCol d) ->
  lookup "precipitation" (columns t) = Some (NumCol xs) ->
  List.length xs = List.length d ->
  (forall name, In name (map fst (agg_rules_of t)) ->
                exists c, lookup name (columns t) = Some c /\ numeric c) ->
  exists t' monthly,
    stage_result (aggregate_monthly r) h = Ok t' /\
    lookup "precipitation" (columns t') = Some (NumCol monthly) /\
    List.length monthly = nrows t' /\
    (Qsum (dropna monthly) == Qsum (dropna xs))%Q.
Proof.
  intros Hr Hd Hp Hlen Hnum.
  destruct (aggregate_monthly_ok h r t Hr Hnum d Hd) as (out & Hrun & _ & Hlook).
  set (ps := map period_ordinal d) in *. set (groups := unique_sorted ps) in *.
  destruct (monthly_table_lookup groups out) as (Hrows & _ & _ & _ & _ & Hother).
  destruct (Hlook "precipitation" Sum) as (c & c' & H1 & H2 & H3).
  { rewrite agg_rules_of_eq. apply in_or_app. left. simpl. tauto. }
  rewrite Hp in H1. injection H1 as <-. cbn in H2. injection H2 as <-.
  eexists _, _. split; [exact Hrun|]. split.
  - rewrite Hother by (unfold derived_columns; simpl; intuition discriminate).
    exact H3.
  - split; [now rewrite length_map, Hrows|].
    unfold nansum.
    replace (dropna (map (fun k => Some (Qsum (dropna (period_group k ps xs)))) groups))
      with (map (fun k => Qsum (dropna (period_group k ps xs))) groups)
      by (rewrite <- (dropna_map_Some (map _ groups)), map_map; reflexivity).
    apply group_sums_total.
    + apply (sorted_nodup Z.lt); [intros x; lia | apply unique_sorted_sorted].
    + intros p Hin. now apply unique_sorted_In.
    + unfold ps. now rewrite length_map.
Qed.

(** * Beyond the claims: the anomaly engine *)

Section AnomalyRows.

Lemma cut_value_label (x : Q) :
  exists label, cut_value anomaly_bins anomaly_labels (Some x) = Some label /\
                In label anomaly_labels.
Proof.
  rewrite cut_value_anomaly. eexists. split; [reflexivity|].
  unfold anomaly_labels.
  repeat match goal with
         | |- context [if ?c then _ else _] => destruct c
         end; simpl; tauto.
Qed.

Lemma Qsum_uniform (v : list Q) (x : Q) :
  (forall y, In y v -> (y == x)%Q) -> (Qsum v == Qcount v * x)%Q.
Proof.
  unfold Qcount. induction v as [|y v IH]; intros Hall.
  - simpl. ring.
  - cbn [Qsum fold_right List.length]. fold (Qsum v).
    rewrite (Hall y (or_introl eq_refl)), IH by (intros z Hz; apply Hall; now right).
    rewrite Nat2Z.inj_succ. unfold Z.succ. rewrite inject_Z_plus. ring.
Qed.

Lemma nanmean_uniform (g : list (option Q)) (x : Q) :
  In (Some x) g -> (forall y, In (Some y) g -> (y == x)%Q) ->
  exists m, nanmean g = Some m /\ (m == x)%Q.
Proof.
  intros Hin Hall. apply In_dropna in Hin. unfold nanmean.
  destruct (dropna g) as [|y v] eqn:E; [destruct Hin|].
  eexists. split; [reflexivity|].
  rewrite (Qsum_uniform (y :: v) x).
  - assert (Hc : ~ (Qcount (y :: v) == 0)%Q) by (unfold Qcount, Qeq; simpl; lia).
    field. exact Hc.
  - intros z Hz. apply Hall. apply In_dropna. now rewrite E.
Qed.

Lemma cut_value_zero (a : Q) :
  (a == 0)%Q -> cut_value anomaly_bins anomaly_labels (Some a) = Some "Normal".
Proof.
  intros Ha. rewrite cut_value_anomaly.
  assert (E1 : Qle_bool a (-2 # 1) = false) by (apply Qle_bool_false; lra).
  assert (E2 : Qle_bool a (-1 # 1) = false) by (apply Qle_bool_false; lra).
  assert (E3 : Qle_bool a (1 # 1) = true) by (apply Qle_bool_iff; lra).
  now rewrite E1, E2, E3.
Qed.

End AnomalyRows.

(** X16: when [tmean] has no missing value and [month] is the integer
    column of the basic features, every row gets an anomaly and one of the
    five categories: no row is left without a category. *)
Theorem every_row_has_a_category
    (h : store) (r : ref) (t : DataFrame) (ms : list Z) (v : list Q) :
  nth_error h r = Some t ->
  lookup "month" (columns t) = Some (IntCol ms) ->
  lookup "tmean" (columns t) = Some (NumCol (map Some v)) ->
  List.length ms = List.length v ->
  exists t' anomaly category,
    add_temperature_anomalies r h = (Ok (List.length h), h ++ [t']) /\
    lookup "temp_anomaly" (columns t') = Some (NumCol anomaly) /\
    lookup "anomaly_category" (columns t') = Some (CatCol category) /\
    forall i, (i < List.length v)%nat ->
              exists x label,
                nth_error anomaly i = Some (Some x) /\
                nth_error category i = Some (Some label) /\
                In label anomaly_labels.
Proof.
  intros Hr Hm Hx Hlen.
  destruct (add_temperature_anomalies_run h r t _ _ Hr Hm Hx)
    as (t' & Hrun & _ & _ & Ha & Hc & _).
  eexists t', _, _. split; [exact Hrun|]. split; [exact Ha|]. split; [exact Hc|].
  intros i Hi.
  destruct (nth_error v i) as [x|] eqn:Ev; [|apply nth_error_None in Ev; lia].
  destruct (nth_error ms i) as [m|] eqn:Em; [|apply nth_error_None in Em; lia].
  assert (Hkey : nth_error (row_keys (IntCol ms)) i = Some (Some (KInt m)))
    by (cbn [row_keys]; now rewrite nth_error_map, Em).
  assert (Hval : nth_error (map Some v) i = Some (Some x))
    by now rewrite nth_error_map, Ev.
  destruct (nanmean_observed (group_values (KInt m) (row_keys (IntCol ms)) (map Some v)) x)
    as [mean Hmean].
  { apply (group_values_In _ (KInt m) _ _ i); auto. apply key_eqb_refl. }
  destruct (cut_value_label (x - mean)) as (label & Hlabel & Hin).
  exists (x - mean)%Q, label.
  assert (Hrow : nth_error (map2 (lift2 Qminus) (map Some v)
                              (transform_mean (row_keys (IntCol ms)) (map Some v))) i
                 = Some (Some (x - mean)%Q)).
  { rewrite nth_error_map2, Hval, (transform_mean_nth _ _ i (KInt m) Hkey), Hmean.
    reflexivity. }
  split; [exact Hrow|]. split; [|exact Hin].
  rewrite nth_error_map, Hrow. cbn [option_map]. now rewrite Hlabel.
Qed.

(** X17: a row whose mean temperature is the only observation of its month
    has anomaly zero and category Normal: the mean of one value is that
    value, also in float64. *)
Theorem lone_observation_is_normal
    (h : store) (r : ref) (t : DataFrame) (months : column) (xs : list (option Q))
    (i : nat) (k : key) (x : Q) :
  nth_error h r = Some t ->
  lookup "month" (columns t) = Some months ->
  lookup "tmean" (columns t) = Some (NumCol xs) ->
  nth_error (row_keys months) i = Some (Some k) ->
  nth_error xs i = Some (Some x) ->
  dropna (group_values k (row_keys months) xs) = [x] ->
  exists t' anomaly category a,
    add_temperature_anomalies r h = (Ok (List.length h), h ++ [t']) /\
    lookup "temp_anomaly" (columns t') = Some (NumCol anomaly) /\
    lookup "anomaly_category" (columns t') = Some (CatCol category) /\
    nth_error anomaly i = Some (Some a) /\ (a == 0)%Q /\
    nth_error category i = Some (Some "Normal").
Proof.
  intros Hr Hm Hx Hkey Hval Hlone.
  destruct (add_temperature_anomalies_run h r t _ _ Hr Hm Hx)
    as (t' & Hrun & _ & _ & Ha & Hc & _).
  destruct (nanmean_uniform (group_values k (row_keys months) xs) x)
    as (mean & Hmean & Hmx).
  { apply (group_values_In _ k _ _ i); auto. apply key_eqb_refl. }
  { intros y Hy. apply In_dropna in Hy. rewrite Hlone in Hy.
    destruct Hy as [<-|[]]. reflexivity. }
  assert (Hrow : nth_error (map2 (lift2 Qminus) xs (transform_mean (row_keys months) xs)) i
                 = Some (Some (x - mean)%Q)).
  { rewrite nth_error_map2, Hval, (transform_mean_nth _ _ i k Hkey), Hmean.
    reflexivity. }
  assert (Hzero : (x - mean == 0)%Q) by lra.
  eexists t', _, _, _. split; [exact Hrun|]. split; [exact Ha|]. split; [exact Hc|].
  split; [exact Hrow|]. split; [exact Hzero|].
  rewrite nth_error_map, Hrow. cbn [option_map]. now rewrite cut_value_zero.
Qed.

(** * The properties beyond the claims at sample tables *)

(** One week as the weather API delivers it, smoothed but without
    anomalies. *)
Lemma process_data_daily_schema_witness :
  exists t',
    stage_result
      (process_data (to_datetime (fun _ => Raise TypeError)) 0%nat true false false)
      [raw_week_table] = Ok t' /\
    nrows t' = 7%nat /\
    has_column "season" t' = true /\
    has_column "tmean_7d" t' = true /\
    has_column "temp_anomaly" t' = false.
Proof.
  assert (Hraw : raw_table raw_week_table (map (day 2023 1) [1; 2; 3; 4; 5; 6; 7])).
  { split; [reflexivity|]. split; intros name Hin; simpl in Hin;
      repeat (destruct Hin as [<-|Hin]; [try reflexivity; eexists; reflexivity|]);
      destruct Hin. }
  destruct (process_data_daily_schema [raw_week_table] 0%nat raw_week_table _
              (fun _ => Raise TypeError) true false eq_refl Hraw)
    as (t' & Hrun & Hn & _ & Hbasic & Hroll & Han).
  exists t'. split; [exact Hrun|]. split; [exact Hn|].
  split; [apply Hbasic; simpl; tauto|].
  split; [apply Hroll; simpl; tauto | apply Han; simpl; tauto].
Defined.

(** The same week aggregated: one row for January and thirteen columns. *)
Lemma process_data_monthly_columns_witness :
  exists t',
    stage_result
      (process_data (to_datetime (fun _ => Raise TypeError)) 0%nat true false true)
      [raw_week_table] = Ok t' /\
    nrows t' = 1%nat /\
    map fst (columns t') =
      ["tmax"; "tmin"; "tmean"; "precipitation"; "windspeed_max"; "temp_range";
       "tmean_7d"; "tmax_7d"; "tmin_7d"; "precip_7d"; "date"; "year"; "month"].
Proof.
  assert (Hraw : raw_table raw_week_table (map (day 2023 1) [1; 2; 3; 4; 5; 6; 7])).
  { split; [reflexivity|]. split; intros name Hin; simpl in Hin;
      repeat (destruct Hin as [<-|Hin]; [try reflexivity; eexists; reflexivity|]);
      destruct Hin. }
  destruct (process_data_monthly_columns [raw_week_table] 0%nat raw_week_table _
              (fun _ => Raise TypeError) true false eq_refl Hraw)
    as (t' & Hrun & Hn & Hcols).
  exists t'. split; [exact Hrun|]. split; [exact Hn | exact Hcols].
Defined.

(** A table with a [date] column and no rows. *)
Lemma statistics_of_empty_table_witness :
  calculate_statistics 0%nat [mkDF 0 [("date", DateCol [])]]
  = (Raise ValueError, [mkDF 0 [("date", DateCol [])]]).
Proof.
  exact (statistics_of_empty_table [mkDF 0 [("date", DateCol [])]] 0%nat
           (mkDF 0 [("date", DateCol [])]) eq_refl eq_refl).
Defined.

(** The week as the API delivers it has no [tmean]. *)
Lemma statistics_need_every_column_witness :
  exists e, fst (calculate_statistics 0%nat [raw_week_table]) = Raise e.
Proof.
  apply (statistics_need_every_column [raw_week_table] 0%nat raw_week_table "tmean").
  - reflexivity.
  - simpl. tauto.
  - reflexivity.
Defined.

Lemma statistics_extremes_witness :
  exists s,
    calculate_statistics 0%nat [week_table] = (Ok s, [week_table]) /\
    count s = 7%nat /\
    temperature_absolute_max s = Some (inject_Z 10) /\
    temperature_absolute_min s = Some (inject_Z 0).
Proof.
  destruct (statistics_extremes [week_table] 0%nat week_table
              (map (day 2023 1) [2; 3; 4; 5; 6; 7]) (day 2023 1 1)
              (repeat (num 5) 7) (repeat (num 10) 7) (repeat (num 0) 7)
              (repeat (num 1) 7) (repeat (num 3) 7)
              eq_refl eq_refl eq_refl eq_refl eq_refl eq_refl eq_refl)
    as (s & hi & lo & Hrun & Hn & Hhi & _ & _ & Hlo & _).
  - simpl. discriminate.
  - simpl. discriminate.
  - exists s. split; [exact Hrun|]. split; [exact Hn|].
    vm_compute in Hrun. injection Hrun as Hrun. subst s. split; reflexivity.
Defined.

(** Seven days of 1.0 mm: 7.0 mm in total on seven rainy days. *)
Lemma statistics_precipitation_witness :
  exists s total,
    calculate_statistics 0%nat [week_table] = (Ok s, [week_table]) /\
    precipitation_total s = Some total /\
    (total == 7 # 1)%Q /\
    precipitation_days_with_rain s = 7.
Proof.
  destruct (statistics_precipitation [week_table] 0%nat week_table
              (map (day 2023 1) [2; 3; 4; 5; 6; 7]) (day 2023 1 1)
              (repeat (num 5) 7) (repeat (num 10) 7) (repeat (num 0) 7)
              (repeat (num 1) 7) (repeat (num 3) 7)
              eq_refl eq_refl eq_refl eq_refl eq_refl eq_refl eq_refl)
    as (s & total & Hrun & Htotal & Hsum & _ & _ & Hrain & _).
  exists s, total. split; [exact Hrun|]. split; [exact Htotal|].
  split; [rewrite Hsum; reflexivity | rewrite Hrain; reflexivity].
Defined.

Lemma statistics_date_range_witness :
  exists s,
    calculate_statistics 0%nat [week_table] = (Ok s, [week_table]) /\
    date_range_start s = "2023-01-01" /\
    date_range_end s = "2023-01-07".
Proof.
  destruct (statistics_date_range [week_table] 0%nat week_table
              (map (day 2023 1) [2; 3; 4; 5; 6; 7]) (day 2023 1 1)
              (repeat (num 5) 7) (repeat (num 10) 7) (repeat (num 0) 7)
              (repeat (num 1) 7) (repeat (num 3) 7)
              eq_refl eq_refl eq_refl eq_refl eq_refl eq_refl eq_refl)
    as (s & first & last & Hrun & _).
  exists s. split; [exact Hrun|].
  vm_compute in Hrun. injection Hrun as Hrun. subst s. split; reflexivity.
Defined.

(** Maxima of 10 and minima of 0: the mean temperature is 5. *)
Lemma mean_temperature_is_midpoint_witness :
  exists s h' mean_avg mean_max mean_min,
    bind (add_basic_features 0%nat) calculate_statistics [raw_week_table] = (Ok s, h') /\
    temperature_mean_avg s = Some mean_avg /\
    temperature_mean_max s = Some mean_max /\
    temperature_mean_min s = Some mean_min /\
    (mean_avg == (mean_max + mean_min) / (2 # 1))%Q.
Proof.
  apply (mean_temperature_is_midpoint [raw_week_table] 0%nat raw_week_table
           (map (day 2023 1) [2; 3; 4; 5; 6; 7]) (day 2023 1 1)
           (repeat (inject_Z 10) 7) (repeat (inject_Z 0) 7)
           (repeat (num 1) 7) (repeat (num 3) 7));
    try reflexivity.
  simpl. discriminate.
Defined.

(** The middle day of the week with the default window of seven days. *)
Lemma rolling_values_witness :
  exists t' c1 c4,
    add_rolling_averages 0%nat 7 [week_table] = (Ok 1%nat, [week_table; t']) /\
    lookup "tmean_7d" (columns t') = Some (NumCol c1) /\
    lookup "precip_7d" (columns t') = Some (NumCol c4) /\
    nth_error c1 3 = Some (Some (Qsum (repeat (inject_Z 5) 7) / inject_Z 7)%Q) /\
    nth_error c4 3 = Some (Some (Qsum (repeat (inject_Z 1) 7))).
Proof.
  destruct (rolling_values [week_table] 0%nat week_table
              (repeat (inject_Z 5) 7) (repeat (inject_Z 10) 7)
              (repeat (inject_Z 0) 7) (repeat (inject_Z 1) 7) 3%nat 3%nat
              eq_refl eq_refl eq_refl eq_refl eq_refl
              eq_refl eq_refl eq_refl eq_refl)
    as (t' & c1 & c2 & c3 & c4 & Hrun & H1 & _ & _ & H4 & Hv1 & _ & _ & Hv4).
  - simpl. lia.
  - simpl. lia.
  - exists t', c1, c4. split; [exact Hrun|]. split; [exact H1|]. split; [exact H4|].
    split; [exact Hv1 | exact Hv4].
Defined.

Lemma rolling_mean_is_midpoint_witness :
  exists r' h' t' c1 c2 c3 m hi lo,
    bind (add_basic_features 0%nat)
      (fun df => add_rolling_averages df 7) [raw_week_table] = (Ok r', h') /\
    nth_error h' r' = Some t' /\
    lookup "tmean_7d" (columns t') = Some (NumCol c1) /\
    lookup "tmax_7d" (columns t') = Some (NumCol c2) /\
    lookup "tmin_7d" (columns t') = Some (NumCol c3) /\
    nth_error c1 3 = Some (Some m) /\
    nth_error c2 3 = Some (Some hi) /\
    nth_error c3 3 = Some (Some lo) /\
    (m == (hi + lo) / (2 # 1))%Q.
Proof.
  apply (rolling_mean_is_midpoint [raw_week_table] 0%nat raw_week_table
           (map (day 2023 1) [1; 2; 3; 4; 5; 6; 7])
           (repeat (inject_Z 10) 7) (repeat (inject_Z 0) 7)
           (repeat (num 1) 7) 3%nat 3%nat);
    try reflexivity; simpl; lia.
Defined.

(** With anomalies 3, -3 and 0 and the default thresholds. *)
Lemma heat_and_cold_exclude_witness :
  exists t' heat cold,
    stage_result (detect_extreme_events 0%nat (2 # 1) (95 # 1)) [anomaly_table] = Ok t' /\
    lookup "extreme_heat" (columns t') = Some (BoolCol heat) /\
    lookup "extreme_cold" (columns t') = Some (BoolCol cold) /\
    forall i, ~ (nth_error heat i = Some true /\ nth_error cold i = Some true).
Proof.
  assert (Hlo : (0 <= 95 # 1)%Q) by (unfold Qle; simpl; lia).
  assert (Hhi : (95 # 1 <= 100 # 1)%Q) by (unfold Qle; simpl; lia).
  assert (Htemp : (0 <= 2 # 1)%Q) by (unfold Qle; simpl; lia).
  destruct (heat_and_cold_exclude [anomaly_table] 0%nat anomaly_table
              [num 0; num 4; num 10] (2 # 1) (95 # 1) eq_refl eq_refl Hlo Hhi)
    as (Hanomaly & _).
  exact (Hanomaly [num 3; num (-3); num 0] eq_refl Htemp).
Defined.

(** The driest of the three days, with no precipitation. *)
Lemma driest_rows_not_extreme_witness :
  exists t' flags,
    stage_result (detect_extreme_events 0%nat (2 # 1) (95 # 1)) [anomaly_table] = Ok t' /\
    lookup "extreme_precip" (columns t') = Some (BoolCol flags) /\
    nth_error flags 0 = Some false.
Proof.
  assert (Hlo : (0 <= 95 # 1)%Q) by (unfold Qle; simpl; lia).
  assert (Hhi : (95 # 1 <= 100 # 1)%Q) by (unfold Qle; simpl; lia).
  destruct (driest_rows_not_extreme [anomaly_table] 0%nat anomaly_table
              [num 0; num 4; num 10] (2 # 1) (95 # 1) eq_refl eq_refl Hlo Hhi)
    as (t' & flags & Hrun & Hflags & _ & Hdry & _).
  - left. eexists. reflexivity.
  - exists t', flags. split; [exact Hrun|]. split; [exact Hflags|].
    apply (Hdry 0%nat (inject_Z 0) eq_refl).
    intros y Hy. simpl in Hy.
    destruct Hy as [Hy|[Hy|[Hy|[]]]]; injection Hy as <-; unfold Qle; simpl; lia.
Defined.

(** The 101st percentile. *)
Lemma percentile_out_of_range_raises_witness :
  stage_result (detect_extreme_events 0%nat (2 # 1) (101 # 1)) [anomaly_table]
  = Raise ValueError.
Proof.
  apply (percentile_out_of_range_raises [anomaly_table] 0%nat anomaly_table
           (NumCol [num 0; num 4; num 10]) (2 # 1) (101 # 1) eq_refl eq_refl).
  - right. unfold Qlt. simpl. lia.
  - left. eexists. reflexivity.
Defined.

(** Thirty April days of 1.0 mm. *)
Lemma monthly_precipitation_conserved_witness :
  exists t' monthly,
    stage_result (aggregate_monthly 0%nat) [april_table] = Ok t' /\
    lookup "precipitation" (columns t') = Some (NumCol monthly) /\
    List.length monthly = nrows t' /\
    (Qsum (dropna monthly) == 30 # 1)%Q.
Proof.
  destruct (monthly_precipitation_conserved [april_table] 0%nat april_table
              (map (day 2023 4) (map Z.of_nat (seq 1 30))) (repeat (num 1) 30)
              eq_refl eq_refl eq_refl eq_refl)
    as (t' & monthly & Hrun & Hp & Hlen & Hsum).
  - numeric_rules.
  - exists t', monthly. split; [exact Hrun|]. split; [exact Hp|]. split; [exact Hlen|].
    rewrite Hsum. reflexivity.
Defined.

(** Two January days with mean temperatures 0 and 4. *)
Lemma every_row_has_a_category_witness :
  exists t' anomaly category,
    add_temperature_anomalies 0%nat [two_day_table] = (Ok 1%nat, [two_day_table; t']) /\
    lookup "temp_anomaly" (columns t') = Some (NumCol anomaly) /\
    lookup "anomaly_category" (columns t') = Some (CatCol category) /\
    forall i, (i < 2)%nat ->
              exists x label,
                nth_error anomaly i = Some (Some x) /\
                nth_error category i = Some (Some label) /\
                In label anomaly_labels.
Proof.
  exact (every_row_has_a_category [two_day_table] 0%nat two_day_table [1; 1]
           [inject_Z 0; inject_Z 4] eq_refl eq_refl eq_refl eq_refl).
Defined.

(** The only day of December in a table of two days. *)
Lemma lone_observation_is_normal_witness :
  exists t' anomaly category a,
    add_temperature_anomalies 0%nat [new_year_table] = (Ok 1%nat, [new_year_table; t']) /\
    lookup "temp_anomaly" (columns t') = Some (NumCol anomaly) /\
    lookup "anomaly_category" (columns t') = Some (CatCol category) /\
    nth_error anomaly 0 = Some (Some a) /\ (a == 0)%Q /\
    nth_error category 0 = Some (Some "Normal").
Proof.
  exact (lone_observation_is_normal [new_year_table] 0%nat new_year_table
           (IntCol [12; 1]) [num 3; num 5] 0%nat (KInt 12) (inject_Z 3)
           eq_refl eq_refl eq_refl eq_refl eq_refl eq_refl).
Defined.

(** * Beyond the claims: anomalies, categories and extreme events together *)

Section CategoriesAndFlags.

Lemma very_warm_iff (x : option Q) :
  gt_scalar (Some default_temp_threshold) x = true <->
  cut_value anomaly_bins anomaly_labels x = Some "Very Warm".
Proof.
  destruct x as [a|]; [|simpl; split; discriminate].
  rewrite cut_value_anomaly. unfold gt_scalar, default_temp_threshold, Qltb.
  destruct (Qle_bool a (2 # 1)) eqn:E2; cbn [negb].
  - split; [discriminate|].
    repeat match goal with
           | |- context [if ?c then _ else _] => destruct c
           end; discriminate.
  - apply Qle_bool_false in E2.
    assert (E1 : Qle_bool a (-2 # 1) = false) by (apply Qle_bool_false; lra).
    assert (E3 : Qle_bool a (-1 # 1) = false) by (apply Qle_bool_false; lra).
    assert (E4 : Qle_bool a (1 # 1) = false) by (apply Qle_bool_false; lra).
    now rewrite E1, E3, E4.
Qed.

Lemma very_cold_iff (x : option Q) :
  cut_value anomaly_bins anomaly_labels x = Some "Very Cold" <->
  exists a, x = Some a /\ (a <= -2 # 1)%Q.
Proof.
  destruct x as [a|].
  - rewrite cut_value_anomaly. destruct (Qle_bool a (-2 # 1)) eqn:E1.
    + apply Qle_bool_iff in E1. split; [intros _; now exists a | reflexivity].
    + apply Qle_bool_false in E1. split.
      * repeat match goal with
               | |- context [if ?c then _ else _] => destruct c
               end; discriminate.
      * intros (b & [= <-] & Hb). lra.
  - simpl. split; [discriminate | intros (a & Ha & _); discriminate].
Qed.

Lemma extreme_cold_iff (x : option Q) :
  lt_scalar (Some (- default_temp_threshold)%Q) x = true <->
  exists a, x = Some a /\ (a < -2 # 1)%Q.
Proof.
  unfold default_temp_threshold. split.
  - intros H. destruct (lt_scalar_true _ _ H) as (v & q & -> & [= <-] & Hlt).
    exists v. split; [reflexivity|]. lra.
  - intros (a & -> & Ha). cbn [lt_scalar]. apply Qltb_true. lra.
Qed.

End CategoriesAndFlags.

(** X18: anomalies, then extreme events with the default thresholds: the
    rows flagged extreme heat are exactly the rows of category Very Warm;
    every row flagged extreme cold is Very Cold, and the only Very Cold
    rows that are not flagged are those whose anomaly is exactly -2. *)
Theorem extreme_flags_match_categories
    (h : store) (r : ref) (t : DataFrame) (months : column) (xs pv : list (option Q)) :
  nth_error h r = Some t ->
  lookup "month" (columns t) = Some months ->
  lookup "tmean" (columns t) = Some (NumCol xs) ->
  lookup "precipitation" (columns t) = Some (NumCol pv) ->
  exists t' heat cold category anomaly,
    stage_result
      (bind (add_temperature_anomalies r)
         (fun df => detect_extreme_events df default_temp_threshold default_precip_threshold))
      h = Ok t' /\
    lookup "extreme_heat" (columns t') = Some (BoolCol heat) /\
    lookup "extreme_cold" (columns t') = Some (BoolCol cold) /\
    lookup "anomaly_category" (columns t') = Some (CatCol category) /\
    lookup "temp_anomaly" (columns t') = Some (NumCol anomaly) /\
    forall i,
      (nth_error heat i = Some true <-> nth_error category i = Some (Some "Very Warm")) /\
      (nth_error cold i = Some true -> nth_error category i = Some (Some "Very Cold")) /\
      (nth_error category i = Some (Some "Very Cold") ->
       nth_error cold i = Some false <->
       exists a, nth_error anomaly i = Some (Some a) /\ (a == -2 # 1)%Q).
Proof.
  intros Hr Hm Hx Hp.
  destruct (add_temperature_anomalies_run h r t _ _ Hr Hm Hx)
    as (t1 & Hrun1 & _ & _ & Han & Hcat & Hother1).
  set (an := map2 (lift2 Qminus) xs (transform_mean (row_keys months) xs)) in *.
  assert (Hp1 : lookup "precipitation" (columns t1) = Some (NumCol pv)).
  { rewrite Hother1; [exact Hp|]. unfold anomaly_columns. simpl.
    intuition discriminate. }
  assert (Hlo : (0 <= default_precip_threshold)%Q) by (unfold Qle; simpl; lia).
  assert (Hhi : (default_precip_threshold <= 100 # 1)%Q) by (unfold Qle; simpl; lia).
  destruct (detect_extreme_events_anomaly (h ++ [t1]) (List.length h) t1 pv
              default_temp_threshold default_precip_threshold
              (nth_error_last h t1) Hp1 Hlo Hhi an Han)
    as (t2 & Hrun2 & _ & Hheat & Hcold & _ & Hother2).
  exists t2, (map (gt_scalar (Some default_temp_threshold)) an),
    (map (lt_scalar (Some (- default_temp_threshold)%Q)) an),
    (map (cut_value anomaly_bins anomaly_labels) an), an.
  split; [rewrite (stage_result_bind _ _ _ _ _ Hrun1); exact Hrun2|].
  split; [exact Hheat|]. split; [exact Hcold|].
  split.
  { rewrite Hother2; [exact Hcat|]. unfold extreme_columns. simpl.
    intuition discriminate. }
  split.
  { rewrite Hother2; [exact Han|]. unfold extreme_columns. simpl.
    intuition discriminate. }
  intros i. rewrite !nth_error_map.
  destruct (nth_error an i) as [x|]; cbn [option_map].
  - split; [|split].
    + split; intros [= H]; f_equal; now apply very_warm_iff.
    + intros [= H]. f_equal. apply very_cold_iff.
      apply extreme_cold_iff in H. destruct H as (a & -> & Ha).
      exists a. split; [reflexivity | lra].
    + intros [= Hvc]. apply very_cold_iff in Hvc. destruct Hvc as (a & -> & Ha).
      split.
      * intros Hnot. exists a. split; [reflexivity|].
        destruct (Qlt_le_dec a (-2 # 1)) as [Hlt|Hge]; [|lra].
        assert (Ht : lt_scalar (Some (- default_temp_threshold)%Q) (Some a) = true)
          by (apply extreme_cold_iff; now exists a).
        rewrite Ht in Hnot. discriminate.
      * intros (b & [= <-] & Hb). f_equal.
        destruct (lt_scalar (Some (- default_temp_threshold)%Q) (Some a)) eqn:E;
          [|reflexivity].
        apply extreme_cold_iff in E. destruct E as (c & [= <-] & Hc). lra.
  - split; [split; discriminate|]. split; discriminate.
Qed.

(** * Beyond the claims: the calendar features *)

Section Calendar.

Lemma days_before_month_cases (y m : Z) :
  1 <= m <= 12 ->
  days_before_month y m =
    nth (Z.to_nat (m - 1))
      (let l := if is_leap y then 1 else 0 in
       [0; 31; 59 + l; 90 + l; 120 + l; 151 + l; 181 + l; 212 + l; 243 + l;
        273 + l; 304 + l; 334 + l]) 0.
Proof.
  intros Hm.
  assert (Hc : m = 1 \/ m = 2 \/ m = 3 \/ m = 4 \/ m = 5 \/ m = 6 \/ m = 7 \/
               m = 8 \/ m = 9 \/ m = 10 \/ m = 11 \/ m = 12) by lia.
  unfold days_before_month, days_in_month.
  repeat (destruct Hc as [->|Hc]; [destruct (is_leap y); reflexivity|]).
  subst m. destruct (is_leap y); reflexivity.
Qed.

Ltac month_offsets :=
  repeat match goal with
         | |- context [nth ?n ?l 0] =>
             let v := eval vm_compute in (nth n l 0) in
             change (nth n l 0) with v
         end.

Lemma dayofyear_range (dt : Timestamp) :
  valid_date dt ->
  1 <= dayofyear dt <= days_in_year (ts_year dt) /\
  (dayofyear dt = 1 <-> ts_month dt = 1 /\ ts_day dt = 1) /\
  (dayofyear dt = days_in_year (ts_year dt) <-> ts_month dt = 12 /\ ts_day dt = 31).
Proof.
  destruct dt as [y m dd]. unfold valid_date, dayofyear, days_in_year.
  cbn [ts_year ts_month ts_day]. intros [Hm Hd].
  rewrite (days_before_month_cases _ _ Hm).
  unfold days_in_month in Hd.
  assert (Hc : m = 1 \/ m = 2 \/ m = 3 \/ m = 4 \/ m = 5 \/ m = 6 \/ m = 7 \/
               m = 8 \/ m = 9 \/ m = 10 \/ m = 11 \/ m = 12) by lia.
  repeat (destruct Hc as [Hc|Hc];
          [subst m; destruct (is_leap y); cbn in Hd; month_offsets; lia|]).
  subst m. destruct (is_leap y); cbn in Hd; month_offsets; lia.
Qed.

Lemma dayofyear_increasing (a b : Timestamp) :
  valid_date a -> valid_date b ->
  ts_year a = ts_year b ->
  timestamp_ltb a b = true ->
  dayofyear a < dayofyear b.
Proof.
  destruct a as [y m1 d1], b as [y2 m2 d2]. unfold valid_date, dayofyear.
  cbn [ts_year ts_month ts_day]. intros [Hma Hda] [Hmb Hdb] <- Hlt.
  apply timestamp_ltb_lt in Hlt. cbn [ts_year ts_month ts_day] in Hlt.
  rewrite (days_before_month_cases _ _ Hma), (days_before_month_cases _ _ Hmb).
  unfold days_in_month in Hda, Hdb.
  assert (Hca : m1 = 1 \/ m1 = 2 \/ m1 = 3 \/ m1 = 4 \/ m1 = 5 \/ m1 = 6 \/
                m1 = 7 \/ m1 = 8 \/ m1 = 9 \/ m1 = 10 \/ m1 = 11 \/ m1 = 12) by lia.
  assert (Hcb : m2 = 1 \/ m2 = 2 \/ m2 = 3 \/ m2 = 4 \/ m2 = 5 \/ m2 = 6 \/
                m2 = 7 \/ m2 = 8 \/ m2 = 9 \/ m2 = 10 \/ m2 = 11 \/ m2 = 12) by lia.
  destruct (is_leap y);
    repeat (destruct Hca as [Hca|Hca]);
    repeat (destruct Hcb as [Hcb|Hcb]);
    subst m1 m2; cbn in Hda, Hdb; month_offsets; lia.
Qed.

End Calendar.

(** X19: on calendar dates, [day_of_year] is between 1 and the number of
    days of the year (366 in a leap year, 365 otherwise); it is 1 exactly
    on 1 January and the last day number exactly on 31 December. *)
Theorem day_of_year_in_range
    (h : store) (r : ref) (t : DataFrame) (a b : list (option Q)) (d : list Timestamp) :
  nth_error h r = Some t ->
  lookup "tmax" (columns t) = Some (NumCol a) ->
  lookup "tmin" (columns t) = Some (NumCol b) ->
  lookup "date" (columns t) = Some (DateCol d) ->
  Forall valid_date d ->
  exists t' doy,
    add_basic_features r h = (Ok (List.length h), h ++ [t']) /\
    lookup "day_of_year" (columns t') = Some (IntCol doy) /\
    List.length doy = List.length d /\
    forall i dt n,
      nth_error d i = Some dt -> nth_error doy i = Some n ->
      1 <= n <= days_in_year (ts_year dt) /\
      (n = 1 <-> ts_month dt = 1 /\ ts_day dt = 1) /\
      (n = days_in_year (ts_year dt) <-> ts_month dt = 12 /\ ts_day dt = 31).
Proof.
  intros Hr Ha Hb Hd Hvalid.
  destruct (add_basic_features_run h r t a b d Hr Ha Hb Hd)
    as (t' & Hrun & _ & _ & _ & _ & _ & Hdoy & _).
  exists t', (map dayofyear d). split; [exact Hrun|]. split; [exact Hdoy|].
  split; [apply length_map|].
  intros i dt n Hdt Hn. rewrite nth_error_map, Hdt in Hn. injection Hn as <-.
  apply dayofyear_range.
  rewrite Forall_forall in Hvalid. apply Hvalid. eapply nth_error_In, Hdt.
Qed.

(** X20: within one year [day_of_year] follows the calendar: of two rows
    with calendar dates of the same year, the one with the earlier date has
    the smaller [day_of_year], so different dates of a year never share
    one. *)
Theorem day_of_year_follows_calendar
    (h : store) (r : ref) (t : DataFrame) (a b : list (option Q)) (d : list Timestamp) :
  nth_error h r = Some t ->
  lookup "tmax" (columns t) = Some (NumCol a) ->
  lookup "tmin" (columns t) = Some (NumCol b) ->
  lookup "date" (columns t) = Some (DateCol d) ->
  Forall valid_date d ->
  exists t' doy,
    add_basic_features r h = (Ok (List.length h), h ++ [t']) /\
    lookup "day_of_year" (columns t') = Some (IntCol doy) /\
    forall i j di dj ni nj,
      nth_error d i = Some di -> nth_error d j = Some dj ->
      nth_error doy i = Some ni -> nth_error doy j = Some nj ->
      ts_year di = ts_year dj ->
      (timestamp_ltb di dj = true -> ni < nj) /\
      (ni = nj -> di = dj).
Proof.
  intros Hr Ha Hb Hd Hvalid.
  destruct (add_basic_features_run h r t a b d Hr Ha Hb Hd)
    as (t' & Hrun & _ & _ & _ & _ & _ & Hdoy & _).
  exists t', (map dayofyear d). split; [exact Hrun|]. split; [exact Hdoy|].
  intros i j di dj ni nj Hi Hj Hni Hnj Hy.
  rewrite nth_error_map, Hi in Hni. rewrite nth_error_map, Hj in Hnj.
  injection Hni as <-. injection Hnj as <-.
  rewrite Forall_forall in Hvalid.
  assert (Hvi : valid_date di) by (apply Hvalid; eapply nth_error_In, Hi).
  assert (Hvj : valid_date dj) by (apply Hvalid; eapply nth_error_In, Hj).
  split; [now apply dayofyear_increasing|].
  intros Heq.
  destruct (timestamp_ltb di dj) eqn:E1.
  { pose proof (dayofyear_increasing di dj Hvi Hvj Hy E1). lia. }
  destruct (timestamp_ltb dj di) eqn:E2.
  { pose proof (dayofyear_increasing dj di Hvj Hvi (eq_sym Hy) E2). lia. }
  apply timestamp_ltb_ge in E1. apply timestamp_ltb_ge in E2.
  destruct di as [y1 m1 d1], dj as [y2 m2 d2]. cbn in *. f_equal; lia.
Qed.

(** X21: on a row where both extremes were observed, [tmean] lies between
    [tmin] and [tmax] and [temp_range] is not negative whenever [tmin] is
    not above [tmax]; a row with [tmin] above [tmax] has a negative
    [temp_range].  These are order facts, which rounding preserves. *)
Theorem mean_lies_between_extremes
    (h : store) (r : ref) (t : DataFrame) (a b : list (option Q)) (d : list Timestamp)
    (i : nat) (hi lo : Q) :
  nth_error h r = Some t ->
  lookup "tmax" (columns t) = Some (NumCol a) ->
  lookup "tmin" (columns t) = Some (NumCol b) ->
  lookup "date" (columns t) = Some (DateCol d) ->
  nth_error a i = Some (Some hi) ->
  nth_error b i = Some (Some lo) ->
  exists t' tmean temp_range m w,
    add_basic_features r h = (Ok (List.length h), h ++ [t']) /\
    lookup "tmean" (columns t') = Some (NumCol tmean) /\
    lookup "temp_range" (columns t') = Some (NumCol temp_range) /\
    nth_error tmean i = Some (Some m) /\
    nth_error temp_range i = Some (Some w) /\
    ((lo <= hi)%Q -> (lo <= m)%Q /\ (m <= hi)%Q /\ (0 <= w)%Q) /\
    ((hi < lo)%Q -> (w < 0)%Q).
Proof.
  intros Hr Ha Hb Hd Hhi Hlo.
  destruct (add_basic_features_run h r t a b d Hr Ha Hb Hd)
    as (t' & Hrun & _ & Hmean & Hrange & _).
  eexists t', _, _, ((hi + lo) / (2 # 1))%Q, (hi - lo)%Q.
  split; [exact Hrun|]. split; [exact Hmean|]. split; [exact Hrange|].
  split; [rewrite nth_error_map, nth_error_map2, Hhi, Hlo; reflexivity|].
  split; [rewrite nth_error_map2, Hhi, Hlo; reflexivity|].
  split.
  - intros Hle. split; [|split].
    + apply Qle_shift_div_l; lra.
    + apply Qle_shift_div_r; lra.
    + lra.
  - intros Hlt. lra.
Qed.

(** * Beyond the claims: monthly means *)

(** X22: each monthly value of a column aggregated by mean ([tmax],
    [tmin], [tmean], [windspeed_max], [temp_range]) is the mean over the
    rows of that month of the input, NaN skipped: the sum of that month's
    daily observations divided by their number, and NaN exactly for a
    month without observations.  The months are those of the dates of the
    input, one row each. *)
Theorem monthly_means_over_month_rows
    (h : store) (r : ref) (t : DataFrame) (d : list Timestamp)
    (name : string) (xs : list (option Q)) :
  nth_error h r = Some t ->
  lookup "date" (columns t) = Some (DateCol d) ->
  Forall valid_month d ->
  In name ["tmax"; "tmin"; "tmean"; "windspeed_max"; "temp_range"] ->
  lookup name (columns t) = Some (NumCol xs) ->
  (forall name, In name (map fst (agg_rules_of t)) ->
                exists c, lookup name (columns t) = Some c /\ numeric c) ->
  exists t' months monthly,
    stage_result (aggregate_monthly r) h = Ok t' /\
    (forall ym, In ym months <-> exists dt, In dt d /\ month_of dt = ym) /\
    lookup "date" (columns t') = Some (DateCol (map first_day months)) /\
    lookup name (columns t') = Some (NumCol monthly) /\
    List.length monthly = List.length months /\
    forall j ym,
      nth_error months j = Some ym ->
      (dropna (month_values ym d xs) = [] <-> nth_error monthly j = Some None) /\
      (dropna (month_values ym d xs) <> [] ->
       nth_error monthly j =
         Some (Some (Qsum (dropna (month_values ym d xs))
                     / Qcount (dropna (month_values ym d xs)))%Q)).
Proof.
  intros Hr Hd Hv Hname Hx Hnum.
  destruct (aggregate_monthly_ok h r t Hr Hnum d Hd) as (out & Hrun & _ & Hlook).
  set (ps := map period_ordinal d) in *. set (groups := unique_sorted ps) in *.
  destruct (monthly_table_lookup groups out) as (_ & Hdate & _ & _ & _ & Hother).
  destruct (Hlook name Mean) as (c & c' & H1 & H2 & H3).
  { rewrite agg_rules_of_eq. apply in_or_app. left. simpl in Hname |- *.
    repeat (destruct Hname as [<-|Hname]; [tauto|]). destruct Hname. }
  rewrite Hx in H1. injection H1 as <-. cbn in H2. injection H2 as <-.
  exists (monthly_table groups out), (map period_pair groups),
    (map (fun k => nanmean (period_group k ps xs)) groups).
  split; [exact Hrun|].
  split.
  { intros ym. rewrite in_map_iff. split.
    - intros (k & <- & Hk). unfold groups in Hk.
      apply (proj1 (unique_sorted_In k ps)) in Hk. unfold ps in Hk.
      apply in_map_iff in Hk. destruct Hk as (dt & <- & Hdt). exists dt.
      split; [exact Hdt|]. symmetry. apply month_of_period.
      rewrite Forall_forall in Hv. now apply Hv.
    - intros (dt & Hdt & <-). exists (period_ordinal dt). split.
      + apply month_of_period. rewrite Forall_forall in Hv. now apply Hv.
      + unfold groups. apply (proj2 (unique_sorted_In _ ps)). unfold ps.
        now apply in_map. }
  split; [rewrite map_map; exact Hdate|].
  split.
  { rewrite Hother; [exact H3|]. unfold derived_columns. simpl in Hname |- *.
    repeat (destruct Hname as [<-|Hname]; [intuition discriminate|]).
    destruct Hname. }
  split; [now rewrite !length_map|].
  intros j ym Hj. rewrite nth_error_map in Hj |- *.
  destruct (nth_error groups j) as [k|]; [|discriminate].
  cbn [option_map] in Hj |- *. injection Hj as <-.
  unfold ps. rewrite (period_group_month k d xs Hv).
  unfold nanmean.
  destruct (dropna (month_values (period_pair k) d xs)) as [|x v].
  - split; [split; reflexivity | congruence].
  - split; [split; discriminate | reflexivity].
Qed.

(** * Beyond the claims: the date-range check *)

Section DateRange.

Import WeatherAPI.

Variable to_datetime : string -> result scalar_time.
Variable str : exn -> string.
Variable wide_span : Z -> result (option Z).

Lemma min_date_text : strftime (Naive min_date_ns) = Ok "1940-01-01".
Proof. vm_compute. reflexivity. Qed.

Lemma day_ns_pos : 0 < day_ns.
Proof. reflexivity. Qed.

(** What the check makes of two timezone-naive timestamps. *)
Lemma validate_naive (start_date end_date : string) (a b : Z) :
  to_datetime "1940-01-01" = Ok (Naive min_date_ns) ->
  to_datetime start_date = Ok (Naive a) ->
  to_datetime end_date = Ok (Naive b) ->
  validate_date_range to_datetime str wide_span start_date end_date =
  if a >=? b then (false, [st_error "Start date must be before end date"])
  else if a <? min_date_ns then
    (false, [st_error "Historical data only available from 1940-01-01"])
  else
    match (if b - a <=? int64_max then Ok (Some ((b - a) / day_ns))
           else wide_span (b - a)) with
    | Ok days =>
        (true, if days_gt days 3650
               then [st_warning "Large date ranges may take longer to process"]
               else [])
    | Raise e => (false, [st_error ("Invalid date format: " ++ str e)])
    end.
Proof.
  intros Hmin Ha Hb. unfold validate_date_range, validate_date_range_try.
  rewrite Ha, Hb. cbn [and_then compare_times].
  destruct (Z.geb_spec a b) as [Hge|Hlt]; [reflexivity|].
  rewrite Hmin. cbn [and_then compare_times].
  destruct (Z.ltb_spec a min_date_ns) as [Hearly|Hlate].
  - rewrite min_date_text. reflexivity.
  - cbn [days_between].
    assert (Hlow : (- int64_max <=? b - a) = true).
    { apply Z.leb_le. unfold int64_max. lia. }
    rewrite Hlow. cbn [andb].
    destruct (b - a <=? int64_max); [reflexivity|].
    destruct (wide_span (b - a)); reflexivity.
Qed.

End DateRange.

(** X23: for two timezone-naive timestamps, [validate_date_range] accepts
    the range exactly when the start is before the end, the start is not
    before 1940-01-01 and the day count of the span can be computed: that
    is so for every span that 64-bit nanoseconds hold (about 292 years),
    and for a wider one it is what pandas makes of the subtraction.  An
    accepted range of at most that width shows the warning about large
    ranges exactly when it spans more than 3650 whole days, and nothing
    else; a wider one shows it when the day count that pandas computes is
    more than 3650. *)
Theorem date_range_accepted_iff
    (to_datetime : string -> result WeatherAPI.scalar_time) (str : exn -> string)
    (wide_span : Z -> result (option Z))
    (start_date end_date : string) (a b : Z) :
  to_datetime "1940-01-01" = Ok (WeatherAPI.Naive min_date_ns) ->
  to_datetime start_date = Ok (WeatherAPI.Naive a) ->
  to_datetime end_date = Ok (WeatherAPI.Naive b) ->
  let outcome :=
    WeatherAPI.validate_date_range to_datetime str wide_span start_date end_date in
  (fst outcome = true <->
   a < b /\ min_date_ns <= a /\
   (b - a <= WeatherAPI.int64_max \/ exists days, wide_span (b - a) = Ok days)) /\
  (fst outcome = true ->
   b - a <= WeatherAPI.int64_max ->
   snd outcome =
     if 3651 * WeatherAPI.day_ns <=? b - a
     then [WeatherAPI.st_warning "Large date ranges may take longer to process"]
     else []) /\
  (forall days,
      a < b -> min_date_ns <= a -> WeatherAPI.int64_max < b - a ->
      wide_span (b - a) = Ok days ->
      outcome =
        (true,
         if WeatherAPI.days_gt days 3650
         then [WeatherAPI.st_warning "Large date ranges may take longer to process"]
         else [])).
Proof.
  intros Hmin Ha Hb outcome. unfold outcome.
  rewrite (validate_naive to_datetime str wide_span _ _ a b Hmin Ha Hb).
  assert (Hdays : (3650 <? (b - a) / WeatherAPI.day_ns)
                  = (3651 * WeatherAPI.day_ns <=? b - a)).
  { pose proof day_ns_pos as Hpos.
    destruct (Z.ltb_spec 3650 ((b - a) / WeatherAPI.day_ns)) as [H|H];
      destruct (Z.leb_spec (3651 * WeatherAPI.day_ns) (b - a)) as [H'|H'];
      try reflexivity; exfalso.
    - assert (3651 <= (b - a) / WeatherAPI.day_ns) by lia.
      pose proof (Z.mul_div_le (b - a) WeatherAPI.day_ns Hpos). nia.
    - assert (3651 <= (b - a) / WeatherAPI.day_ns)
        by (apply Z.div_le_lower_bound; lia).
      lia. }
  destruct (Z.geb_spec a b) as [Hge|Hlt]; cbn [fst snd].
  { split; [split; [discriminate | lia]|].
    split; [discriminate | intros; lia]. }
  destruct (Z.ltb_spec a min_date_ns) as [Hearly|Hlate]; cbn [fst snd].
  { split; [split; [discriminate | lia]|].
    split; [discriminate | intros; lia]. }
  destruct (Z.leb_spec (b - a) WeatherAPI.int64_max) as [Hfit|Hover]; cbn [fst snd].
  - split; [split; [intros _; repeat split; [lia | lia | now left] | reflexivity]|].
    split; [|intros; lia].
    intros _ _. cbn [WeatherAPI.days_gt]. now rewrite Hdays.
  - split; [|split; [intros _ Hfit; lia|]].
    + destruct (wide_span (b - a)) as [days|e]; cbn [fst snd].
      * split; [intros _; repeat split; [lia | lia | right; now exists days]
               | reflexivity].
      * split; [discriminate|]. intros (_ & _ & [Hfit|[days Hdays']]);
          [lia | discriminate].
    + intros days _ _ _ Hwide. now rewrite Hwide.
Qed.

(** X24: whatever the dates and whatever [pd.to_datetime] makes of them,
    when [validate_date_range] returns False it has shown exactly one
    message, an error, and when it returns True it has shown no error:
    nothing, or the one warning about large ranges. *)
Theorem rejection_shows_one_error
    (to_datetime : string -> result WeatherAPI.scalar_time) (str : exn -> string)
    (wide_span : Z -> result (option Z))
    (start_date end_date : string) :
  let outcome := WeatherAPI.validate_date_range to_datetime str wide_span start_date end_date in
  (fst outcome = false -> exists text, snd outcome = [WeatherAPI.st_error text]) /\
  (fst outcome = true ->
   snd outcome = [] \/
   snd outcome = [WeatherAPI.st_warning "Large date ranges may take longer to process"]).
Proof.
  intros outcome. unfold outcome, WeatherAPI.validate_date_range,
    WeatherAPI.validate_date_range_try.
  destruct (to_datetime start_date) as [start|e]; cbn [WeatherAPI.and_then fst snd];
    [|split; [eauto | discriminate]].
  destruct (to_datetime end_date) as [end_|e]; cbn [WeatherAPI.and_then fst snd];
    [|split; [eauto | discriminate]].
  destruct (WeatherAPI.compare_times Z.geb start end_) as [[|]|e];
    cbn [WeatherAPI.and_then fst snd]; try (split; [eauto | discriminate]).
  destruct (to_datetime "1940-01-01") as [min_date|e]; cbn [WeatherAPI.and_then fst snd];
    [|split; [eauto | discriminate]].
  destruct (WeatherAPI.compare_times Z.ltb start min_date) as [[|]|e];
    cbn [WeatherAPI.and_then fst snd]; try (split; [eauto | discriminate]).
  - destruct (WeatherAPI.strftime min_date) as [text|e];
      cbn [WeatherAPI.and_then fst snd]; split; eauto; discriminate.
  - destruct (WeatherAPI.days_between wide_span end_ start) as [days|e];
      cbn [WeatherAPI.and_then fst snd]; [|split; [eauto | discriminate]].
    split; [discriminate|]. intros _.
    destruct (WeatherAPI.days_gt days 3650); [now right | now left].
Qed.

(** X25: the error names the first check that fails, for two
    timezone-naive timestamps: a start that is not before the end is
    reported as such even when it is also before 1940; otherwise a start
    before 1940-01-01 is reported with that date. *)
Theorem first_failed_check_is_reported
    (to_datetime : string -> result WeatherAPI.scalar_time) (str : exn -> string)
    (wide_span : Z -> result (option Z))
    (start_date end_date : string) (a b : Z) :
  to_datetime "1940-01-01" = Ok (WeatherAPI.Naive min_date_ns) ->
  to_datetime start_date = Ok (WeatherAPI.Naive a) ->
  to_datetime end_date = Ok (WeatherAPI.Naive b) ->
  (b <= a ->
   WeatherAPI.validate_date_range to_datetime str wide_span start_date end_date
   = (false, [WeatherAPI.st_error "Start date must be before end date"])) /\
  (a < b -> a < min_date_ns ->
   WeatherAPI.validate_date_range to_datetime str wide_span start_date end_date
   = (false, [WeatherAPI.st_error "Historical data only available from 1940-01-01"])).
Proof.
  intros Hmin Ha Hb.
  rewrite (validate_naive to_datetime str wide_span _ _ a b Hmin Ha Hb).
  split.
  - intros Hge. destruct (Z.geb_spec a b); [reflexivity | lia].
  - intros Hlt Hearly. destruct (Z.geb_spec a b); [lia|].
    destruct (Z.ltb_spec a min_date_ns); [reflexivity | lia].
Qed.

(** X26: a date that [pd.to_datetime] cannot parse, as start or as end, is
    rejected with the message Invalid date format and the text of the
    exception; so is a range of one timezone-naive and one timezone-aware
    timestamp, which pandas refuses to compare. *)
Theorem unusable_dates_are_rejected
    (to_datetime : string -> result WeatherAPI.scalar_time) (str : exn -> string)
    (wide_span : Z -> result (option Z))
    (start_date end_date : string) (e : exn) :
  (to_datetime start_date = Raise e \/
   (exists start, to_datetime start_date = Ok start) /\ to_datetime end_date = Raise e) \/
  (e = TypeError /\
   ((exists a b off, to_datetime start_date = Ok (WeatherAPI.Naive a) /\
                     to_datetime end_date = Ok (WeatherAPI.Aware b off)) \/
    (exists a b off, to_datetime start_date = Ok (WeatherAPI.Aware a off) /\
                     to_datetime end_date = Ok (WeatherAPI.Naive b)))) ->
  WeatherAPI.validate_date_range to_datetime str wide_span start_date end_date
  = (false, [WeatherAPI.st_error ("Invalid date format: " ++ str e)]).
Proof.
  unfold WeatherAPI.validate_date_range, WeatherAPI.validate_date_range_try.
  intros [[Hs|[[start Hs] He]]|[-> [(a & b & off & Hs & He)|(a & b & off & Hs & He)]]].
  - now rewrite Hs.
  - now rewrite Hs, He.
  - now rewrite Hs, He.
  - now rewrite Hs, He.
Qed.

(** X27: a missing date passes the check: when the start parses to NaT,
    the range is accepted without any message, whatever the end; so is a
    range from a start not before 1940 to an end that is NaT.  Every
    comparison with NaT is False and the day count of the difference is
    nan. *)
Theorem missing_date_is_accepted
    (to_datetime : string -> result WeatherAPI.scalar_time) (str : exn -> string)
    (wide_span : Z -> result (option Z))
    (start_date end_date : string) (min_date : WeatherAPI.scalar_time) :
  to_datetime "1940-01-01" = Ok min_date ->
  (to_datetime start_date = Ok WeatherAPI.NaT /\
   exists end_, to_datetime end_date = Ok end_) \/
  (to_datetime end_date = Ok WeatherAPI.NaT /\
   exists a, to_datetime start_date = Ok (WeatherAPI.Naive a) /\
             min_date = WeatherAPI.Naive min_date_ns /\ min_date_ns <= a) ->
  WeatherAPI.validate_date_range to_datetime str wide_span start_date end_date = (true, []).
Proof.
  unfold WeatherAPI.validate_date_range, WeatherAPI.validate_date_range_try.
  intros Hmin [[Hs [end_ He]]|[He (a & Hs & -> & Hlate)]]; rewrite Hs, He.
  - cbn [WeatherAPI.and_then WeatherAPI.compare_times]. rewrite Hmin.
    destruct end_; reflexivity.
  - cbn [WeatherAPI.and_then WeatherAPI.compare_times]. rewrite Hmin.
    cbn [WeatherAPI.and_then WeatherAPI.compare_times].
    destruct (Z.ltb_spec a min_date_ns); [lia | reflexivity].
Qed.

(** The calendar year 2023 of the test-suite: accepted, and short enough
    to go without the warning. *)
Lemma date_range_accepted_iff_witness :
  WeatherAPI.validate_date_range sample_to_datetime sample_str sample_wide_span "2023-01-01" "2023-12-31"
  = (true, []).
Proof.
  destruct (date_range_accepted_iff sample_to_datetime sample_str sample_wide_span
              "2023-01-01" "2023-12-31"
              (19358 * WeatherAPI.day_ns) (19722 * WeatherAPI.day_ns)
              eq_refl eq_refl eq_refl)
    as (Hiff & Hlog & _).
  assert (Hok : fst (WeatherAPI.validate_date_range sample_to_datetime sample_str
                       sample_wide_span "2023-01-01" "2023-12-31") = true).
  { apply Hiff. split; [reflexivity|]. split; [vm_compute; discriminate|].
    left. vm_compute. discriminate. }
  assert (Hfit : 19722 * WeatherAPI.day_ns - 19358 * WeatherAPI.day_ns
                 <= WeatherAPI.int64_max) by (vm_compute; discriminate).
  specialize (Hlog Hok Hfit).
  destruct (WeatherAPI.validate_date_range sample_to_datetime sample_str
              sample_wide_span "2023-01-01" "2023-12-31") as [ok notices].
  cbn [fst snd] in Hok, Hlog. now rewrite Hok, Hlog.
Defined.

(** The reversed year of the test-suite. *)
Lemma first_failed_check_is_reported_witness :
  WeatherAPI.validate_date_range sample_to_datetime sample_str sample_wide_span "2023-12-31" "2023-01-01"
  = (false, [WeatherAPI.st_error "Start date must be before end date"]).
Proof.
  apply (first_failed_check_is_reported sample_to_datetime sample_str sample_wide_span
           "2023-12-31" "2023-01-01"
           (19722 * WeatherAPI.day_ns) (19358 * WeatherAPI.day_ns)
           eq_refl eq_refl eq_refl).
  vm_compute. discriminate.
Defined.

(** A string that is no date. *)
Lemma unusable_dates_are_rejected_witness :
  WeatherAPI.validate_date_range sample_to_datetime sample_str sample_wide_span "yesterday" "2023-01-01"
  = (false, [WeatherAPI.st_error "Invalid date format: ValueError"]).
Proof.
  apply (unusable_dates_are_rejected sample_to_datetime sample_str sample_wide_span
           "yesterday" "2023-01-01" ValueError).
  left. left. reflexivity.
Defined.

(** The text NaT as start date. *)
Lemma missing_date_is_accepted_witness :
  WeatherAPI.validate_date_range sample_to_datetime sample_str sample_wide_span "NaT" "2023-01-01"
  = (true, []).
Proof.
  apply (missing_date_is_accepted sample_to_datetime sample_str sample_wide_span "NaT" "2023-01-01"
           (midnight (-10958)) eq_refl).
  left. split; [reflexivity|]. eexists. reflexivity.
Defined.

(** Two January days with anomalies -2 and 2: the first is Very Cold and
    not flagged, the second is Warm. *)
Lemma extreme_flags_match_categories_witness :
  exists t' heat cold category anomaly,
    stage_result
      (bind (add_temperature_anomalies 0%nat)
         (fun df => detect_extreme_events df default_temp_threshold default_precip_threshold))
      [two_day_table] = Ok t' /\
    lookup "extreme_heat" (columns t') = Some (BoolCol heat) /\
    lookup "extreme_cold" (columns t') = Some (BoolCol cold) /\
    lookup "anomaly_category" (columns t') = Some (CatCol category) /\
    lookup "temp_anomaly" (columns t') = Some (NumCol anomaly) /\
    forall i,
      (nth_error heat i = Some true <-> nth_error category i = Some (Some "Very Warm")) /\
      (nth_error cold i = Some true -> nth_error category i = Some (Some "Very Cold")) /\
      (nth_error category i = Some (Some "Very Cold") ->
       nth_error cold i = Some false <->
       exists a, nth_error anomaly i = Some (Some a) /\ (a == -2 # 1)%Q).
Proof.
  exact (extreme_flags_match_categories [two_day_table] 0%nat two_day_table
           (IntCol [1; 1]) [num 0; num 4] [num 0; num 1]
           eq_refl eq_refl eq_refl eq_refl).
Defined.

(** The first week of 2023. *)
Lemma day_of_year_in_range_witness :
  exists t' doy,
    add_basic_features 0%nat [raw_week_table] = (Ok 1%nat, [raw_week_table; t']) /\
    lookup "day_of_year" (columns t') = Some (IntCol doy) /\
    List.length doy = 7%nat /\
    forall i dt n,
      nth_error (map (day 2023 1) [1; 2; 3; 4; 5; 6; 7]) i = Some dt ->
      nth_error doy i = Some n ->
      1 <= n <= days_in_year (ts_year dt) /\
      (n = 1 <-> ts_month dt = 1 /\ ts_day dt = 1) /\
      (n = days_in_year (ts_year dt) <-> ts_month dt = 12 /\ ts_day dt = 31).
Proof.
  apply (day_of_year_in_range [raw_week_table] 0%nat raw_week_table
           (repeat (num 10) 7) (repeat (num 0) 7)
           (map (day 2023 1) [1; 2; 3; 4; 5; 6; 7])
           eq_refl eq_refl eq_refl eq_refl).
  cbn [map]. repeat (apply Forall_cons; [split; vm_compute; split; discriminate|]).
  apply Forall_nil.
Defined.

Lemma day_of_year_follows_calendar_witness :
  exists t' doy,
    add_basic_features 0%nat [raw_week_table] = (Ok 1%nat, [raw_week_table; t']) /\
    lookup "day_of_year" (columns t') = Some (IntCol doy) /\
    forall i j di dj ni nj,
      nth_error (map (day 2023 1) [1; 2; 3; 4; 5; 6; 7]) i = Some di ->
      nth_error (map (day 2023 1) [1; 2; 3; 4; 5; 6; 7]) j = Some dj ->
      nth_error doy i = Some ni -> nth_error doy j = Some nj ->
      ts_year di = ts_year dj ->
      (timestamp_ltb di dj = true -> ni < nj) /\
      (ni = nj -> di = dj).
Proof.
  apply (day_of_year_follows_calendar [raw_week_table] 0%nat raw_week_table
           (repeat (num 10) 7) (repeat (num 0) 7)
           (map (day 2023 1) [1; 2; 3; 4; 5; 6; 7])
           eq_refl eq_refl eq_refl eq_refl).
  cbn [map]. repeat (apply Forall_cons; [split; vm_compute; split; discriminate|]).
  apply Forall_nil.
Defined.

(** A day between 0 and 10 degrees. *)
Lemma mean_lies_between_extremes_witness :
  exists t' tmean temp_range m w,
    add_basic_features 0%nat [raw_week_table] = (Ok 1%nat, [raw_week_table; t']) /\
    lookup "tmean" (columns t') = Some (NumCol tmean) /\
    lookup "temp_range" (columns t') = Some (NumCol temp_range) /\
    nth_error tmean 0 = Some (Some m) /\
    nth_error temp_range 0 = Some (Some w) /\
    (inject_Z 0 <= m)%Q /\ (m <= inject_Z 10)%Q /\ (0 <= w)%Q.
Proof.
  destruct (mean_lies_between_extremes [raw_week_table] 0%nat raw_week_table
              (repeat (num 10) 7) (repeat (num 0) 7)
              (map (day 2023 1) [1; 2; 3; 4; 5; 6; 7]) 0%nat (inject_Z 10) (inject_Z 0)
              eq_refl eq_refl eq_refl eq_refl eq_refl eq_refl)
    as (t' & tmean & temp_range & m & w & Hrun & H1 & H2 & Hm & Hw & Hle & _).
  exists t', tmean, temp_range, m, w.
  split; [exact Hrun|]. split; [exact H1|]. split; [exact H2|].
  split; [exact Hm|]. split; [exact Hw|].
  apply Hle. unfold Qle. simpl. lia.
Defined.

(** April 2023 with a mean temperature of 10 on every day: thirty days
    that sum to 300. *)
Lemma monthly_means_over_month_rows_witness :
  exists t' monthly,
    stage_result (aggregate_monthly 0%nat) [april_table] = Ok t' /\
    lookup "date" (columns t') = Some (DateCol [day 2023 4 1]) /\
    lookup "tmean" (columns t') = Some (NumCol monthly) /\
    nth_error monthly 0 = Some (Some (inject_Z 300 / inject_Z 30)%Q).
Proof.
  destruct (monthly_means_over_month_rows [april_table] 0%nat april_table
              (map (day 2023 4) (map Z.of_nat (seq 1 30))) "tmean" (repeat (num 10) 30)
              eq_refl eq_refl)
    as (t' & months & monthly & Hrun & _ & Hdate & Hcol & Hlen & Hrows).
  - apply Forall_forall. intros dt Hdt. apply in_map_iff in Hdt.
    destruct Hdt as (z & <- & _). unfold valid_month. simpl. lia.
  - simpl. tauto.
  - reflexivity.
  - numeric_rules.
  - assert (Hmonths : months = [(2023, 4)]).
    { pose proof Hrun as Hrun'. vm_compute in Hrun'. injection Hrun' as Hrun'.
      pose proof Hdate as Hd. rewrite <- Hrun' in Hd. vm_compute in Hd.
      destruct months as [|[y mo] [|ym months]]; try discriminate Hd.
      injection Hd as <- <-. reflexivity. }
    subst months.
    destruct (Hrows 0%nat (2023, 4) eq_refl) as [_ Hmean].
    exists t', monthly. split; [exact Hrun|]. split; [exact Hdate|].
    split; [exact Hcol|].
    rewrite Hmean by (vm_compute; discriminate).
    vm_compute. reflexivity.
Defined.

(** * Beyond the claims: the charts *)

Section Charts.

Import Plotly WeatherPlots.

Lemma bind_ret_l {A B} (a : A) (k : A -> M B) (h : store) : bind (ret a) k h = k a h.
Proof. reflexivity. Qed.

Lemma has_column_Some (name : string) (t : DataFrame) :
  has_column name t = true -> exists c, lookup name (columns t) = Some c.
Proof. unfold has_column. destruct (lookup name (columns t)); [eauto | discriminate]. Qed.

Lemma has_column_None (name : string) (t : DataFrame) :
  has_column name t = false -> lookup name (columns t) = None.
Proof. unfold has_column. destruct (lookup name (columns t)); [discriminate | reflexivity]. Qed.

Variables (h : store) (r : ref) (t : DataFrame).
Hypothesis Hr : nth_error h r = Some t.

Lemma create_temperature_plot_run (show_rolling : bool) :
  (forall name, In name ["date"; "tmax"; "tmin"; "tmean"] -> has_column name t = true) ->
  exists fig,
    create_temperature_plot r show_rolling h = (Ok fig, h) /\
    map plotted (traces fig) =
      against_date t (["tmax"; "tmin"; "tmin"; "tmax"; "tmean"]
                      ++ if show_rolling && has_column "tmean_7d" t
                         then ["tmean_7d"] else []).
Proof.
  intros Hall.
  destruct (has_column_Some "date" t) as [date Hd]; [apply Hall; simpl; tauto|].
  destruct (has_column_Some "tmax" t) as [tmax H1]; [apply Hall; simpl; tauto|].
  destruct (has_column_Some "tmin" t) as [tmin H2]; [apply Hall; simpl; tauto|].
  destruct (has_column_Some "tmean" t) as [tmean H3]; [apply Hall; simpl; tauto|].
  unfold create_temperature_plot, color, against_date.
  cbn [dict_get colors String.eqb Ascii.eqb Bool.eqb].
  destruct (has_column "tmean_7d" t) eqn:H7.
  - destruct (has_column_Some _ _ H7) as [c7 Hc7].
    destruct show_rolling;
      repeat (first [rewrite bind_ret_l | rewrite bind_assoc | read_step Hr]);
      eexists; (split; [reflexivity|]);
      cbn [map app andb]; rewrite ?Hd, ?H1, ?H2, ?H3, ?Hc7; reflexivity.
  - destruct show_rolling;
      repeat (first [rewrite bind_ret_l | rewrite bind_assoc | read_step Hr]);
      eexists; (split; [reflexivity|]);
      cbn [map app andb]; rewrite ?Hd, ?H1, ?H2, ?H3; reflexivity.
Qed.

Lemma create_precipitation_plot_run (show_rolling : bool) :
  (forall name, In name ["date"; "precipitation"] -> has_column name t = true) ->
  exists fig,
    create_precipitation_plot r show_rolling h = (Ok fig, h) /\
    map plotted (traces fig) =
      against_date t (["precipitation"]
                      ++ if show_rolling && has_column "precip_7d" t
                         then ["precip_7d"] else []).
Proof.
  intros Hall.
  destruct (has_column_Some "date" t) as [date Hd]; [apply Hall; simpl; tauto|].
  destruct (has_column_Some "precipitation" t) as [p Hp]; [apply Hall; simpl; tauto|].
  unfold create_precipitation_plot, color, against_date.
  cbn [dict_get colors String.eqb Ascii.eqb Bool.eqb].
  destruct (has_column "precip_7d" t) eqn:H7.
  - destruct (has_column_Some _ _ H7) as [c7 Hc7].
    destruct show_rolling;
      repeat (first [rewrite bind_ret_l | rewrite bind_assoc | read_step Hr]);
      eexists; (split; [reflexivity|]);
      cbn [map app andb]; rewrite ?Hd, ?Hp, ?Hc7; reflexivity.
  - destruct show_rolling;
      repeat (first [rewrite bind_ret_l | rewrite bind_assoc | read_step Hr]);
      eexists; (split; [reflexivity|]);
      cbn [map app andb]; rewrite ?Hd, ?Hp; reflexivity.
Qed.

Lemma create_anomaly_plot_run (date : column) (an : list (option Q)) :
  lookup "date" (columns t) = Some date ->
  lookup "temp_anomaly" (columns t) = Some (NumCol an) ->
  exists fig,
    create_anomaly_plot r h = (Ok fig, h) /\
    map plotted (traces fig) = [(Some date, Some (NumCol an))] /\
    bar_colors fig = Some (map (fun x => sign_color (lt_scalar (Some (0 # 1)) x)) an).
Proof.
  intros Hd Ha.
  assert (HA : has_column "temp_anomaly" t = true) by (unfold has_column; now rewrite Ha).
  unfold create_anomaly_plot.
  repeat (first [rewrite bind_ret_l | rewrite bind_assoc | read_step Hr]; cbn [negb anomaly_colors]).
  eexists. split; [reflexivity|]. split; reflexivity.
Qed.

Lemma create_anomaly_plot_placeholder :
  has_column "temp_anomaly" t = false ->
  exists fig,
    create_anomaly_plot r h = (Ok fig, h) /\
    traces fig = [] /\
    map annotation_text (annotations fig) = [Some "No anomaly data available"].
Proof.
  intros HA. unfold create_anomaly_plot.
  repeat (first [rewrite bind_ret_l | rewrite bind_assoc | read_step Hr]; cbn [negb]).
  eexists. split; [reflexivity|]. split; reflexivity.
Qed.

End Charts.

Section ChartsOfThePipeline.

Import Plotly WeatherPlots.

Lemma agg_mean_float (groups ps : list Z) (c c' : column) (name : string) (t : DataFrame) :
  lookup name (columns t) = Some c ->
  float_column name t ->
  agg_column Mean groups ps c = Ok c' ->
  exists ys, c' = NumCol ys.
Proof.
  intros Hc [xs Hxs] Hagg. rewrite Hxs in Hc. injection Hc as <-.
  cbn in Hagg. injection Hagg as <-. eauto.
Qed.

(** The monthly table has what the charts read. *)
Lemma aggregate_monthly_chartable
    (h : store) (r : ref) (t : DataFrame) (d : list Timestamp) :
  nth_error h r = Some t ->
  featured t d ->
  exists t',
    stage_result (aggregate_monthly r) h = Ok t' /\
    chartable t' (has_column "tmean_7d" t) (has_column "temp_anomaly" t).
Proof.
  intros Hr (Hd & Hfloat & Hm & H7 & HA).
  assert (Hnum : forall name, In name (map fst (agg_rules_of t)) ->
                              exists c, lookup name (columns t) = Some c /\ numeric c).
  { intros name Hin. apply float_column_numeric. apply agg_rules_names in Hin.
    destruct Hin as [Hin|[[E Hin]|[E ->]]]; auto. }
  destruct (aggregate_monthly_ok h r t Hr Hnum d Hd) as (out & Hrun & Hnames & Hlook).
  set (groups := unique_sorted (map period_ordinal d)) in *.
  destruct (monthly_table_lookup groups out) as (_ & Hdate & _ & _ & _ & Hother).
  exists (monthly_table groups out). split; [exact Hrun|].
  assert (Hin_out : forall name rl,
             In (name, rl) (agg_rules_of t) -> ~ In name derived_columns ->
             has_column name (monthly_table groups out) = true).
  { intros name rl Hin Hnd. destruct (Hlook name rl Hin) as (c & c' & _ & _ & Hc').
    unfold has_column. now rewrite (Hother name Hnd), Hc'. }
  assert (Hnot_out : forall name,
             ~ In name (map fst (agg_rules_of t)) -> ~ In name derived_columns ->
             has_column name (monthly_table groups out) = false).
  { intros name Hnin Hnd. unfold has_column. rewrite (Hother name Hnd).
    rewrite <- Hnames in Hnin. apply lookup_None in Hnin. now rewrite Hnin. }
  assert (Hbase : forall name rl, In (name, rl) base_rules -> In (name, rl) (agg_rules_of t)).
  { intros name rl Hin. rewrite agg_rules_of_eq. apply in_or_app. now left. }
  split; [|split; [|split; [|split]]].
  - intros name Hin. simpl in Hin.
    destruct Hin as [<-|[<-|[<-|[<-|[<-|[]]]]]].
    + unfold has_column. now rewrite Hdate.
    + apply (Hin_out "tmax" Mean); [apply Hbase; simpl; tauto|].
      unfold derived_columns. simpl. intuition discriminate.
    + apply (Hin_out "tmin" Mean); [apply Hbase; simpl; tauto|].
      unfold derived_columns. simpl. intuition discriminate.
    + apply (Hin_out "tmean" Mean); [apply Hbase; simpl; tauto|].
      unfold derived_columns. simpl. intuition discriminate.
    + apply (Hin_out "precipitation" Sum); [apply Hbase; simpl; tauto|].
      unfold derived_columns. simpl. intuition discriminate.
  - destruct (has_column "tmean_7d" t) eqn:E7.
    + apply (Hin_out "tmean_7d" Mean).
      * rewrite agg_rules_of_eq, E7. apply in_or_app. right. apply in_or_app. left.
        simpl. tauto.
      * unfold derived_columns. simpl. intuition discriminate.
    + apply Hnot_out.
      * rewrite agg_rules_names, E7. unfold base_columns. simpl.
        intuition discriminate.
      * unfold derived_columns. simpl. intuition discriminate.
  - destruct (has_column "tmean_7d" t) eqn:E7.
    + apply (Hin_out "precip_7d" Sum).
      * rewrite agg_rules_of_eq, E7. apply in_or_app. right. apply in_or_app. left.
        simpl. tauto.
      * unfold derived_columns. simpl. intuition discriminate.
    + apply Hnot_out.
      * rewrite agg_rules_names, E7. unfold base_columns. simpl.
        intuition discriminate.
      * unfold derived_columns. simpl. intuition discriminate.
  - destruct (has_column "temp_anomaly" t) eqn:EA.
    + apply (Hin_out "temp_anomaly" Mean).
      * rewrite agg_rules_of_eq, EA. apply in_or_app. right. apply in_or_app. right.
        simpl. tauto.
      * unfold derived_columns. simpl. intuition discriminate.
    + apply Hnot_out.
      * rewrite agg_rules_names, EA. unfold base_columns, rolling_columns. simpl.
        intuition discriminate.
      * unfold derived_columns. simpl. intuition discriminate.
  - intros EA. specialize (HA EA).
    destruct (Hlook "temp_anomaly" Mean) as (c & c' & Hc & Hagg & Hc').
    { rewrite agg_rules_of_eq, EA. apply in_or_app. right. apply in_or_app. right.
      simpl. tauto. }
    destruct (agg_mean_float _ _ _ _ _ _ Hc HA Hagg) as [ys ->].
    exists ys. rewrite Hother; [exact Hc'|].
    unfold derived_columns. simpl. intuition discriminate.
Qed.

(** What [process_data] hands to the charts, for every setting of its
    options. *)
Lemma process_data_chartable
    (h : store) (r : ref) (t : DataFrame) (d : list Timestamp)
    (parse : column -> result column) (add_rolling add_anomalies monthly_agg : bool) :
  nth_error h r = Some t ->
  raw_table t d ->
  exists r' h' t',
    process_data (to_datetime parse) r add_rolling add_anomalies monthly_agg h
    = (Ok r', h') /\
    nth_error h' r' = Some t' /\
    chartable t' add_rolling add_anomalies.
Proof.
  intros Hr Hraw.
  destruct (process_data_daily h r t d parse add_rolling add_anomalies monthly_agg Hr Hraw)
    as (r3 & h3 & t3 & Hrun & Hget & Hf & _ & _ & Hroll & Han).
  assert (H7 : has_column "tmean_7d" t3 = add_rolling) by (apply Hroll; simpl; tauto).
  assert (HP : has_column "precip_7d" t3 = add_rolling) by (apply Hroll; simpl; tauto).
  assert (HA : has_column "temp_anomaly" t3 = add_anomalies) by (apply Han; simpl; tauto).
  destruct monthly_agg.
  - destruct (aggregate_monthly_chartable h3 r3 t3 d Hget Hf) as (t4 & Hrun4 & Hchart).
    rewrite Hrun4 in Hrun.
    destruct (stage_result_inv _ _ _ Hrun) as (r' & h' & Hrun' & Hget').
    exists r', h', t4. split; [exact Hrun'|]. split; [exact Hget'|].
    now rewrite H7, HA in Hchart.
  - rewrite (stage_result_ret _ _ _ Hget) in Hrun.
    destruct (stage_result_inv _ _ _ Hrun) as (r' & h' & Hrun' & Hget').
    exists r', h', t3. split; [exact Hrun'|]. split; [exact Hget'|].
    destruct Hf as (Hd & Hfloat & _ & _ & HAf).
    split; [|split; [exact H7|split; [exact HP|split; [exact HA|]]]].
    + intros name Hin. simpl in Hin.
      destruct Hin as [<-|[<-|[<-|[<-|[<-|[]]]]]];
        try (apply float_column_has, Hfloat; simpl; tauto).
      unfold has_column. now rewrite Hd.
    + intros ->. apply HAf. exact HA.
Qed.

End ChartsOfThePipeline.

(** X28: the charts of the application are always built: on a table as
    the weather API delivers it and for every setting of the three options,
    [process_data] returns a table from which the temperature chart and the
    precipitation chart are drawn without an exception and without changing
    anything.  The temperature chart plots [tmax], [tmin], [tmin], [tmax]
    and [tmean] against [date], and [tmean_7d] as a sixth trace exactly
    when the rolling option is set; the precipitation chart plots
    [precipitation], and [precip_7d] exactly when the option is set.  With
    the anomaly option the anomaly chart is drawn as well, with one trace. *)
Theorem charts_of_processed_data
    (h : store) (r : ref) (t : DataFrame) (d : list Timestamp)
    (parse : column -> result column) (rolling anomaly monthly : bool) :
  nth_error h r = Some t ->
  raw_table t d ->
  exists df h' t' temp_fig precip_fig,
    process_data (to_datetime parse) r rolling anomaly monthly h = (Ok df, h') /\
    nth_error h' df = Some t' /\
    WeatherPlots.create_temperature_plot df rolling h' = (Ok temp_fig, h') /\
    WeatherPlots.create_precipitation_plot df rolling h' = (Ok precip_fig, h') /\
    map plotted (traces temp_fig) =
      against_date t' (["tmax"; "tmin"; "tmin"; "tmax"; "tmean"]
                       ++ if rolling then ["tmean_7d"] else []) /\
    map plotted (traces precip_fig) =
      against_date t' (["precipitation"] ++ if rolling then ["precip_7d"] else []) /\
    (forall name, In name ["date"; "tmax"; "tmin"; "tmean"; "precipitation"] ->
                  has_column name t' = true) /\
    (rolling = true ->
     has_column "tmean_7d" t' = true /\ has_column "precip_7d" t' = true) /\
    (anomaly = true ->
     exists anomaly_fig,
       WeatherPlots.create_anomaly_plot df h' = (Ok anomaly_fig, h') /\
       map plotted (traces anomaly_fig) = against_date t' ["temp_anomaly"]).
Proof.
  intros Hr Hraw.
  destruct (process_data_chartable h r t d parse rolling anomaly monthly Hr Hraw)
    as (df & h' & t' & Hrun & Hget & Hall & H7 & HP & HA & HAf).
  destruct (create_temperature_plot_run h' df t' Hget rolling) as (fig1 & Hfig1 & Htr1).
  { intros name Hin. apply Hall. simpl in Hin |- *. tauto. }
  destruct (create_precipitation_plot_run h' df t' Hget rolling) as (fig2 & Hfig2 & Htr2).
  { intros name Hin. apply Hall. simpl in Hin |- *. tauto. }
  exists df, h', t', fig1, fig2.
  split; [exact Hrun|]. split; [exact Hget|]. split; [exact Hfig1|].
  split; [exact Hfig2|].
  split; [rewrite Htr1, H7; now destruct rolling|].
  split; [rewrite Htr2, HP; now destruct rolling|].
  split; [exact Hall|].
  split; [intros ->; now split|].
  intros ->. destruct (HAf eq_refl) as [an Han].
  destruct (has_column_Some "date" t') as [date Hd]; [apply Hall; simpl; tauto|].
  destruct (create_anomaly_plot_run h' df t' Hget date an Hd Han) as (fig3 & Hfig3 & Htr3 & _).
  exists fig3. split; [exact Hfig3|].
  rewrite Htr3. unfold against_date. cbn [map]. now rewrite Hd, Han.
Qed.

(** X29: anomalies, then the anomaly chart: there is one bar per row, and
    a bar has the colour of negative anomalies (green, [anomaly_neg] of the
    palette) exactly when the mean temperature of its row is below the
    climatology of its month; every other bar, also one without a value,
    has the colour of positive anomalies (red, [anomaly_pos]). *)
Theorem anomaly_bars_follow_the_climatology
    (h : store) (r : ref) (t : DataFrame) (date months : column) (xs : list (option Q)) :
  nth_error h r = Some t ->
  lookup "date" (columns t) = Some date ->
  lookup "month" (columns t) = Some months ->
  lookup "tmean" (columns t) = Some (NumCol xs) ->
  List.length (row_keys months) = List.length xs ->
  exists df h' t' fig climate bars,
    add_temperature_anomalies r h = (Ok df, h') /\
    nth_error h' df = Some t' /\
    lookup "monthly_climate" (columns t') = Some (NumCol climate) /\
    WeatherPlots.create_anomaly_plot df h' = (Ok fig, h') /\
    bar_colors fig = Some bars /\
    List.length bars = List.length xs /\
    forall i bar,
      nth_error bars i = Some bar ->
      (bar = "#81C784" \/ bar = "#FF8A80") /\
      (WeatherPlots.dict_get "anomaly_neg" WeatherPlots.colors = Some bar <->
       exists x m, nth_error xs i = Some (Some x) /\
                   nth_error climate i = Some (Some m) /\ (x < m)%Q).
Proof.
  intros Hr Hd Hm Hx Hlen.
  destruct (add_temperature_anomalies_run h r t _ _ Hr Hm Hx)
    as (t' & Hrun & _ & Hclim & Han & _ & Hother).
  set (climate := transform_mean (row_keys months) xs) in *.
  set (an := map2 (lift2 Qminus) xs climate) in *.
  assert (Hd' : lookup "date" (columns t') = Some date).
  { rewrite Hother; [exact Hd|]. unfold anomaly_columns. simpl. intuition discriminate. }
  destruct (create_anomaly_plot_run (h ++ [t']) (List.length h) t' (nth_error_last h t')
              date an Hd' Han) as (fig & Hfig & _ & Hbars).
  eexists _, _, t', fig, climate, _.
  split; [exact Hrun|]. split; [apply nth_error_last|]. split; [exact Hclim|].
  split; [exact Hfig|]. split; [exact Hbars|].
  assert (Hclen : List.length climate = List.length xs).
  { unfold climate, transform_mean. now rewrite length_map. }
  split.
  { unfold an. rewrite length_map, map2_length, Hclen. apply Nat.min_id. }
  intros i bar Hbar. rewrite nth_error_map in Hbar. unfold an in Hbar.
  rewrite nth_error_map2 in Hbar.
  destruct (nth_error xs i) as [x|] eqn:Ex; [|discriminate].
  destruct (nth_error climate i) as [m|] eqn:Em; [|discriminate].
  cbn [option_map] in Hbar. injection Hbar as <-.
  split.
  { destruct (lt_scalar (Some (0 # 1)) (lift2 Qminus x m)); [now left | now right]. }
  cbn [WeatherPlots.dict_get WeatherPlots.colors String.eqb Ascii.eqb Bool.eqb].
  split.
  - intros Hgreen.
    destruct (lt_scalar (Some (0 # 1)) (lift2 Qminus x m)) eqn:E; [|discriminate].
    destruct (lt_scalar_true _ _ E) as (v & q & Hv & [= <-] & Hlt).
    destruct x as [x|], m as [m|]; try discriminate.
    cbn in Hv. injection Hv as <-.
    exists x, m. split; [reflexivity|]. split; [reflexivity|]. lra.
  - intros (x0 & m0 & [= ->] & [= ->] & Hlt).
    assert (E : lt_scalar (Some (0 # 1)) (lift2 Qminus (Some x0) (Some m0)) = true).
    { cbn [lift2 lt_scalar]. apply Qltb_true. lra. }
    now rewrite E.
Qed.

(** X30: without a [temp_anomaly] column the anomaly chart is a
    placeholder: a figure without a trace, with the one annotation No
    anomaly data available, whatever else the table has or lacks; this is
    what [process_data] without the anomaly option leads to.  With the
    column but without [date] the chart raises KeyError. *)
Theorem anomaly_chart_without_anomalies
    (h : store) (r : ref) (t : DataFrame) :
  nth_error h r = Some t ->
  (has_column "temp_anomaly" t = false ->
   exists fig,
     WeatherPlots.create_anomaly_plot r h = (Ok fig, h) /\
     traces fig = [] /\
     map annotation_text (annotations fig) = [Some "No anomaly data available"]) /\
  (forall an,
      lookup "temp_anomaly" (columns t) = Some (NumCol an) ->
      lookup "date" (columns t) = None ->
      WeatherPlots.create_anomaly_plot r h = (Raise (KeyError "date"), h)) /\
  (forall d parse rolling monthly,
      raw_table t d ->
      exists df h' fig,
        process_data (to_datetime parse) r rolling false monthly h = (Ok df, h') /\
        WeatherPlots.create_anomaly_plot df h' = (Ok fig, h') /\
        traces fig = []).
Proof.
  intros Hr. split; [|split].
  - now apply create_anomaly_plot_placeholder.
  - intros an Ha Hd.
    assert (HA : has_column "temp_anomaly" t = true) by (unfold has_column; now rewrite Ha).
    unfold WeatherPlots.create_anomaly_plot.
    repeat (first [rewrite bind_ret_l | rewrite bind_assoc | read_step Hr];
            cbn [negb WeatherPlots.anomaly_colors]).
    reflexivity.
  - intros d parse rolling monthly Hraw.
    destruct (process_data_chartable h r t d parse rolling false monthly Hr Hraw)
      as (df & h' & t' & Hrun & Hget & _ & _ & _ & HA & _).
    destruct (create_anomaly_plot_placeholder h' df t' Hget HA) as (fig & Hfig & Htr & _).
    exists df, h', fig. split; [exact Hrun|]. split; [exact Hfig | exact Htr].
Qed.

(** One week as the weather API delivers it, with the rolling averages and
    the anomalies, day by day. *)
Lemma charts_of_processed_data_witness :
  exists df h' t' temp_fig precip_fig anomaly_fig,
    process_data (to_datetime (fun _ => Raise TypeError)) 0%nat true true false
      [raw_week_table] = (Ok df, h') /\
    nth_error h' df = Some t' /\
    WeatherPlots.create_temperature_plot df true h' = (Ok temp_fig, h') /\
    WeatherPlots.create_precipitation_plot df true h' = (Ok precip_fig, h') /\
    WeatherPlots.create_anomaly_plot df h' = (Ok anomaly_fig, h') /\
    List.length (traces temp_fig) = 6%nat /\
    List.length (traces precip_fig) = 2%nat /\
    List.length (traces anomaly_fig) = 1%nat.
Proof.
  assert (Hraw : raw_table raw_week_table (map (day 2023 1) [1; 2; 3; 4; 5; 6; 7])).
  { split; [reflexivity|]. split; intros name Hin; simpl in Hin;
      repeat (destruct Hin as [<-|Hin]; [try reflexivity; eexists; reflexivity|]);
      destruct Hin. }
  destruct (charts_of_processed_data [raw_week_table] 0%nat raw_week_table _
              (fun _ => Raise TypeError) true true false eq_refl Hraw)
    as (df & h' & t' & fig1 & fig2 & Hrun & Hget & Hfig1 & Hfig2 & Htr1 & Htr2 & _ & _ & Han).
  destruct (Han eq_refl) as (fig3 & Hfig3 & Htr3).
  exists df, h', t', fig1, fig2, fig3.
  split; [exact Hrun|]. split; [exact Hget|]. split; [exact Hfig1|].
  split; [exact Hfig2|]. split; [exact Hfig3|].
  split; [|split].
  - rewrite <- (length_map plotted), Htr1. reflexivity.
  - rewrite <- (length_map plotted), Htr2. reflexivity.
  - rewrite <- (length_map plotted), Htr3. reflexivity.
Defined.

(** Two January days with mean temperatures 0 and 4 around the
    climatology 2: a green bar, then a red one. *)
Lemma anomaly_bars_follow_the_climatology_witness :
  exists df h' fig,
    add_temperature_anomalies 0%nat [two_day_table] = (Ok df, h') /\
    WeatherPlots.create_anomaly_plot df h' = (Ok fig, h') /\
    bar_colors fig = Some ["#81C784"; "#FF8A80"].
Proof.
  destruct (anomaly_bars_follow_the_climatology [two_day_table] 0%nat two_day_table
              (DateCol [day 2023 1 1; day 2023 1 2]) (IntCol [1; 1]) [num 0; num 4]
              eq_refl eq_refl eq_refl eq_refl eq_refl)
    as (df & h' & t' & fig & climate & bars & Hrun & _ & _ & Hfig & Hbars & _).
  exists df, h', fig. split; [exact Hrun|]. split; [exact Hfig|].
  vm_compute in Hrun. injection Hrun as <- <-.
  vm_compute in Hfig. injection Hfig as <-.
  reflexivity.
Defined.

(** The week as the API delivers it has no anomalies. *)
Lemma anomaly_chart_without_anomalies_witness :
  exists fig,
    WeatherPlots.create_anomaly_plot 0%nat [raw_week_table] = (Ok fig, [raw_week_table]) /\
    traces fig = [] /\
    map annotation_text (annotations fig) = [Some "No anomaly data available"].
Proof.
  destruct (anomaly_chart_without_anomalies [raw_week_table] 0%nat raw_week_table eq_refl)
    as (Hnone & _).
  exact (Hnone eq_refl).
Defined.
